(** * Flight price monitor: matcher and alert state machine

    A shallow embedding of [flight_monitor.py] (the periodic monitor of the
    Flight-Price-Tracker repository): the three-tier matcher ([find_exact],
    [find_fallback], auto-snap) and the alert logic of [check_once], with the
    price store as a finite map and the effects of a cycle ([notify],
    [set_store]) as a trace of events.

    Scope of the model.
    - JSON values held in the fields of a tracking record are the scalars the
      monitor itself writes: [None], integers and strings.
    - A candidate flight has the six fields every flight source of the
      repository fills in; [airline], [flightNo] and [depart] are strings and
      [price] is an integer.
    - [datetime.fromisoformat] is a parameter ([fromisoformat]); a datetime is
      its count of microseconds together with whether it carries a UTC
      offset, which decides whether Python subtracts it from another or
      raises [TypeError].  [total_seconds()] is kept exact, as that count of
      microseconds.
    - [str.lower] is modelled on ASCII letters.
    - [pct_move] is an IEEE binary64 number, as in Python.

    The loaders of the monitor ([load_selected_flights], [parse_list_like],
    [kiwi_query], [real_flights], [fetch_flights]) are embedded on JSON
    documents.  The HTTP requests and the list that [stable_mock_flights]
    draws from [random], [hash] and the clock are parameters.

    The handlers of the web application ([app.py]) that change what the
    monitor tracks ([add_route], [delete_route], [set_flight_filters]) are
    embedded as functions from the request and the documents on disk to the
    answer and the documents saved.  [str.strip], [str.upper] and the
    patterns of [re.fullmatch] are modelled on ASCII; the order in which
    Python iterates the keys of an object is a parameter. *)

From Stdlib Require Import ZArith Floats Ascii String.
From stdpp Require Import gmap strings list fin_maps.

Local Open Scope string_scope.
Local Open Scope Z_scope.

(** ** Python values and exceptions *)

Inductive value : Type :=
  | VNone
  | VInt (z : Z)
  | VStr (s : string).

#[global] Instance value_eq_dec : EqDecision value.
Proof. solve_decision. Defined.

(** [bool(v)]: [None], [0] and the empty string are falsy. *)
Definition truthy (v : value) : bool :=
  match v with
  | VNone => false
  | VInt z => negb (z =? 0)
  | VStr s => negb (bool_decide (s = ""))
  end.

(** [v is None] *)
Definition is_none (v : value) : bool :=
  match v with VNone => true | _ => false end.

Inductive exn : Type :=
  | KeyError (k : string)
  | TypeError
  | OverflowError.

#[global] Instance exn_eq_dec : EqDecision exn.
Proof. solve_decision. Defined.

Inductive result (A : Type) : Type :=
  | Ok (a : A)
  | Raise (e : exn).
Arguments Ok {A} a.
Arguments Raise {A} e.

#[global] Instance result_ret : MRet result := fun A a => Ok a.
#[global] Instance result_bind : MBind result := fun A B k m =>
  match m with
  | Ok a => k a
  | Raise e => Raise e
  end.

(** [d[k]] on a dict: [KeyError] when the key is missing. *)
Definition getitem (d : gmap string value) (k : string) : result value :=
  match d !! k with
  | Some v => Ok v
  | None => Raise (KeyError k)
  end.

(** [d.get(k)]: [None] when the key is missing. *)
Definition get (d : gmap string value) (k : string) : value :=
  default VNone (d !! k).

(** ** Strings *)

Definition lower_ascii (c : ascii) : ascii :=
  let n := N_of_ascii c in
  if ((65 <=? n) && (n <=? 90))%N then ascii_of_N (n + 32) else c.

(** [s.lower()] *)
Fixpoint lower (s : string) : string :=
  match s with
  | EmptyString => EmptyString
  | String c r => String (lower_ascii c) (lower r)
  end.

(** [s.split("-", 1)], when [s] has a dash: the text before the first dash
    and the text after it. *)
Fixpoint split_dash (s : string) : option (string * string) :=
  match s with
  | EmptyString => None
  | String c r =>
      if bool_decide (c = "-"%char) then Some (EmptyString, r)
      else match split_dash r with
           | Some (a, b) => Some (String c a, b)
           | None => None
           end
  end.

(** [origin,dest,date = key.split("-",2)]: [None] stands for the
    [ValueError] of unpacking fewer than three parts. *)
Definition split_key (key : string) : option (string * string * string) :=
  match split_dash key with
  | Some (origin, r) =>
      match split_dash r with
      | Some (dest, date) => Some (origin, dest, date)
      | None => None
      end
  | None => None
  end.

(** ** Candidate flights *)

Record flight : Type := Flight {
  airline : string;
  flightNo : string;
  depart : string;
  arrive : string;
  duration : string;
  price : Z
}.

#[global] Instance flight_eq_dec : EqDecision flight.
Proof. solve_decision. Defined.

(** [(f.get("airline") or "").lower() == airline.lower()] *)
Definition same_airline (name : string) (f : flight) : bool :=
  bool_decide (lower (airline f) = lower name).

(** ** Subscriptions, tracking records, alerts *)

(** An entry of [load_selected_flights()]. *)
Record subscription : Type := Sub {
  sub_key : string;
  sub_flightNo : string;
  sub_airline : string
}.

(** The dict literal [check_once] stores for a tracking key. *)
Definition tracking (last_price last_notified_price last_notified_dir
    last_depart : value) : gmap string value :=
  <["last_price" := last_price]>
    (<["last_notified_price" := last_notified_price]>
       (<["last_notified_dir" := last_notified_dir]>
          (<["last_depart" := last_depart]> ∅))).

(** The content of the message handed to [notify]: the template is
    "Price drop" or "Price rise" followed by the route, the flight and
    the prices; [a_pct] is the number the template prints with one
    decimal. *)
Record alert : Type := Alert {
  a_direction : string;
  a_origin : string;
  a_dest : string;
  a_date : string;
  a_flight_no : string;
  a_airline : string;
  a_price : Z;
  a_last : Z;
  a_pct : float
}.

(** The effects of a cycle on the outside world. *)
Inductive event : Type :=
  | Notify (msg : alert)
  | SetStore (store : gmap string (gmap string value)).

(** The variables of [check_once] that live across the loop. *)
Record loop : Type := Loop {
  store : gmap string (gmap string value);
  changed : bool;
  out : list event
}.

(** Conversion of a Python [int] to a [float] in mixed arithmetic:
    round to nearest even, [OverflowError] beyond the largest double. *)
Definition float_of_int (z : Z) : result float :=
  let f := SF2Prim (binary_normalize prec emax z 0 false) in
  if PrimFloat.is_infinity f then Raise OverflowError else Ok f.

(** [0.0 if last <= 0 else 100.0 * abs(price - last) / last] *)
Definition pct_move (price last : Z) : result float :=
  if last <=? 0 then Ok 0%float
  else
    a ← float_of_int (Z.abs (price - last));
    b ← float_of_int last;
    Ok (100 * a / b)%float.

(** ["drop" if price < last else ("rise" if price > last else "flat")] *)
Definition direction_of (price last : Z) : string :=
  if price <? last then "drop" else if price >? last then "rise" else "flat".

(** A datetime as [fromisoformat] returns it: the microseconds of its date
    and time, as written when it carries no UTC offset and in UTC when it
    carries one ([aware]). *)
Record datetime : Type := Datetime {
  micros : Z;
  aware : bool
}.

(** [n] seconds, in microseconds. *)
Definition seconds (n : Z) : Z := n * 1000000.

(** [(a - b).total_seconds()], in microseconds: [TypeError] when one of the
    two carries a UTC offset and the other does not. *)
Definition elapsed (a b : datetime) : result Z :=
  if bool_decide (aware a = aware b) then Ok (micros a - micros b)
  else Raise TypeError.

Section Monitor.

(** [datetime.fromisoformat]; [None] stands for the exception it raises on
    a string that is not an ISO timestamp. *)
Variable fromisoformat : string -> option datetime.

(** *** Smart matching *)

Definition find_exact (flights : list flight) (flight_no : string)
  : option flight :=
  List.find (fun f => bool_decide (flightNo f = flight_no)) flights.

(** One turn of the loop of [find_fallback] over [same_air]; the
    accumulator is the pair [(best, best_delta)].  A [depart] that does not
    parse is skipped; the subtraction is outside the [try] and its
    [TypeError] leaves the loop. *)
Definition closer (target : datetime) (acc : option (flight * Z)) (f : flight)
  : result (option (flight * Z)) :=
  match fromisoformat (depart f) with
  | None => Ok acc
  | Some dep =>
      d ← elapsed dep target;
      let delta := Z.abs d in
      match acc with
      | None => Ok (Some (f, delta))
      | Some (_, best_delta) =>
          if delta <? best_delta then Ok (Some (f, delta)) else Ok acc
      end
  end.

(** [for f in same_air: ...] *)
Fixpoint closest (target : datetime) (same_air : list flight)
    (acc : option (flight * Z)) : result (option (flight * Z)) :=
  match same_air with
  | [] => Ok acc
  | f :: rest => acc ← closer target acc f; closest target rest acc
  end.

(** [find_fallback]: [Ok None] is the [None] it returns, [Raise] an
    exception that escapes it. *)
Definition find_fallback (flights : list flight) (name : string)
    (last_depart_iso : value) : result (option flight) :=
  if negb (truthy (VStr name)) || negb (truthy last_depart_iso) then Ok None
  else
    match last_depart_iso with
    | VStr s =>
        match fromisoformat s with
        | None => Ok None
        | Some target =>
            let same_air := List.filter (same_airline name) flights in
            match same_air with
            | [] => Ok None
            | _ =>
                acc ← closest target same_air None;
                match acc with
                | Some (best, best_delta) =>
                    if best_delta <=? seconds (15 * 60) then Ok (Some best)
                    else Ok None
                | None => Ok None
                end
            end
        end
    | _ => Ok None
    end.

(** [min(same, key=lambda x: x["price"])], for a list with head [f]: the
    first of the cheapest. *)
Definition min_price (f : flight) (rest : list flight) : flight :=
  fold_left (fun best g => if price g <? price best then g else best) rest f.

(** The three tiers of [check_once], in the order the source tries them;
    [Raise] is an exception of [find_fallback]. *)
Definition resolve (flights : list flight) (flight_no name : string)
    (last last_depart : value) : result (option flight) :=
  let found := find_exact flights flight_no in
  found ← match found with
          | None => find_fallback flights name last_depart
          | Some _ => Ok found
          end;
  match found with
  | None =>
      if is_none last && truthy (VStr name) then
        match List.filter (same_airline name) flights with
        | [] => Ok found
        | f :: rest => Ok (Some (min_price f rest))
        end
      else Ok found
  | Some _ => Ok found
  end.

(** *** Main check *)

(** Module-level settings, read from the environment at start. *)
Variable ALERT_MODE : string.
Variable MIN_CHANGE_PCT : float.

(** Lines 240-244 of [check_once]. *)
Definition should_alert (direction : string) (pct_move : float) (price : Z)
    (last_notified last_dir : value) : bool :=
  if bool_decide (direction = "drop")
     && bool_decide (ALERT_MODE ∈ ["drop"; "both"])
     && (MIN_CHANGE_PCT <=? pct_move)%float
  then bool_decide (VInt price ≠ last_notified)
       || bool_decide (last_dir ≠ VStr "drop")
  else if bool_decide (direction = "rise")
     && bool_decide (ALERT_MODE ∈ ["rise"; "both"])
     && (MIN_CHANGE_PCT <=? pct_move)%float
  then bool_decide (VInt price ≠ last_notified)
       || bool_decide (last_dir ≠ VStr "rise")
  else false.

(** [store.get(price_key, {...})]: the record of a flight never seen. *)
Definition blank : gmap string value := tracking VNone VNone VNone VNone.

Definition price_key_of (sub : subscription) : string :=
  sub_key sub +:+ "#" +:+ sub_flightNo sub.

(** What a turn of the loop knows when it reaches the alert logic: the
    parts of the key, the four fields read from the store and the candidate
    that the matcher found. *)
Record observation : Type := Obs {
  o_origin : string;
  o_dest : string;
  o_date : string;
  o_last : value;
  o_last_notified : value;
  o_last_dir : value;
  o_last_depart : value;
  o_found : flight
}.

(** Lines 193-220 of [check_once]: split the key, fetch the candidates, read
    the record of the flight and match.  [fetch] is [fetch_flights] as it
    answers during the cycle.  [Ok None] is a [continue] (a bad key, or no
    candidate found); [Raise] is an exception of a lookup or of the
    matcher. *)
Definition observe (fetch : string -> string -> string -> list flight)
    (sub : subscription) (store : gmap string (gmap string value))
    : result (option observation) :=
  match split_key (sub_key sub) with
  | None => Ok None
  | Some (origin, dest, date) =>
      let flight_no := sub_flightNo sub in
      let name := sub_airline sub in
      let flights := fetch origin dest date in
      let price_key := price_key_of sub in
      let prev := default blank (store !! price_key) in
      last ← getitem prev "last_price";
      last_notified ← getitem prev "last_notified_price";
      let last_dir := get prev "last_notified_dir" in
      last_depart ← getitem prev "last_depart";
      found ← resolve flights flight_no name last last_depart;
      match found with
      | None => Ok None
      | Some found =>
          Ok (Some (Obs origin dest date last last_notified last_dir
                        last_depart found))
      end
  end.

(** Lines 222-271 of [check_once]: the alert logic for a matched flight. *)
Definition alert_logic (sub : subscription) (o : observation) (st : loop)
    : result loop :=
  let price_key := price_key_of sub in
  let price := price (o_found o) in
  let depart_iso := VStr (depart (o_found o)) in
  match o_last o with
  | VNone =>
      Ok {| store := <[price_key := tracking (VInt price) VNone VNone
                                       depart_iso]> (store st);
            changed := true;
            out := out st |}
  | VStr _ => Raise TypeError
  | VInt last =>
      pct_move ← pct_move price last;
      let direction := direction_of price last in
      if should_alert direction pct_move price (o_last_notified o)
                      (o_last_dir o)
      then
        let msg := Alert direction (o_origin o) (o_dest o) (o_date o)
                         (sub_flightNo sub) (sub_airline sub)
                         price last pct_move in
        Ok {| store := <[price_key := tracking (VInt price) (VInt price)
                                         (VStr direction) depart_iso]>
                         (store st);
              changed := true;
              out := (out st ++ [Notify msg])%list |}
      else
        Ok {| store := <[price_key := tracking (VInt price)
                                         (o_last_notified o) (o_last_dir o)
                                         depart_iso]>
                         (store st);
              changed := true;
              out := out st |}
  end.

(** The body of the loop of [check_once] for one subscription.  [Ok] is the
    state the next turn starts from; [Raise] is an exception that leaves
    the loop.  Every exception of a turn comes before its first effect. *)
Definition body (fetch : string -> string -> string -> list flight)
    (sub : subscription) (st : loop) : result loop :=
  o ← observe fetch sub (store st);
  match o with
  | None => Ok st
  | Some o => alert_logic sub o st
  end.

(** [for sub in selected: ...]; an exception ends the loop with the state
    reached so far. *)
Fixpoint run_loop (fetch : string -> string -> string -> list flight)
    (selected : list subscription) (st : loop) : option exn * loop :=
  match selected with
  | [] => (None, st)
  | sub :: rest =>
      match body fetch sub st with
      | Ok st' => run_loop fetch rest st'
      | Raise e => (Some e, st)
      end
  end.

(** One monitoring pass: [prices] is the content of [prices.json] that
    [get_store()] loads; the result is the exception that escaped, if any,
    and the events of the pass in order. *)
Definition check_once (fetch : string -> string -> string -> list flight)
    (selected : list subscription) (prices : gmap string (gmap string value))
    : option exn * list event :=
  match selected with
  | [] => (None, [])
  | _ =>
      let '(e, st) := run_loop fetch selected (Loop prices false []) in
      match e with
      | Some e => (Some e, out st)
      | None =>
          (None,
           if changed st then (out st ++ [SetStore (store st)])%list
           else out st)
      end
  end.

(** The content of [prices.json] after the events [evs]. *)
Definition written (evs : list event)
    (prices : gmap string (gmap string value))
    : gmap string (gmap string value) :=
  fold_left (fun p ev => match ev with SetStore s => s | Notify _ => p end)
            evs prices.

(** [while True: check_once(); time.sleep(CHECK_INTERVAL)], for as many
    passes as [cycles] is long; each pass has its own answers of the flight
    source and its own list of subscriptions.  An exception of a pass ends
    the process. *)
Fixpoint main_loop
    (cycles : list ((string -> string -> string -> list flight)
                    * list subscription))
    (prices : gmap string (gmap string value))
    : option exn * gmap string (gmap string value) * list event :=
  match cycles with
  | [] => (None, prices, [])
  | (fetch, selected) :: rest =>
      let '(e, evs) := check_once fetch selected prices in
      let prices' := written evs prices in
      match e with
      | Some e => (Some e, prices', evs)
      | None =>
          let '(e', p, evs') := main_loop rest prices' in
          (e', p, (evs ++ evs')%list)
      end
  end.

End Monitor.

(** ** A parser for the timestamps of the monitor's own flight source

    [stable_mock_flights] prints departures with
    [strftime("%Y-%m-%dT%H:%M")]; [parse_minutes] reads that format back,
    as [datetime.fromisoformat] does on it, and rejects everything else.
    It serves as the instance of [fromisoformat] in the examples. *)

Definition digit (c : ascii) : option Z :=
  let n := Z.of_N (N_of_ascii c) in
  if (48 <=? n) && (n <=? 57) then Some (n - 48) else None.

Fixpoint number (cs : list ascii) (acc : Z) : option Z :=
  match cs with
  | [] => Some acc
  | c :: r => d ← digit c; number r (10 * acc + d)
  end.

Definition is_leap (y : Z) : bool :=
  (y mod 4 =? 0) && (negb (y mod 100 =? 0) || (y mod 400 =? 0)).

Definition days_in_month (y m : Z) : Z :=
  if m =? 2 then (if is_leap y then 29 else 28)
  else if (m =? 4) || (m =? 6) || (m =? 9) || (m =? 11) then 30
  else 31.

Definition days_before_month (y m : Z) : Z :=
  fold_left (fun acc k => acc + days_in_month y k)
            (seqZ 1 (m - 1)) 0.

Definition days_before_year (y : Z) : Z :=
  let p := y - 1 in p * 365 + p / 4 - p / 100 + p / 400.

Definition parse_minutes (s : string) : option datetime :=
  match list_ascii_of_string s with
  | [y1; y2; y3; y4; s1; m1; m2; s2; d1; d2; t; h1; h2; c; n1; n2] =>
      if bool_decide (s1 = "-"%char) && bool_decide (s2 = "-"%char)
         && bool_decide (t = "T"%char) && bool_decide (c = ":"%char)
      then
        y ← number [y1; y2; y3; y4] 0;
        m ← number [m1; m2] 0;
        d ← number [d1; d2] 0;
        h ← number [h1; h2] 0;
        n ← number [n1; n2] 0;
        if (1 <=? y) && (1 <=? m) && (m <=? 12) && (1 <=? d)
           && (d <=? days_in_month y m) && (h <? 24) && (n <? 60)
        then
          let ordinal := days_before_year y + days_before_month y m + d in
          Some (Datetime (seconds (((ordinal * 24 + h) * 60 + n) * 60)) false)
        else None
      else None
  | _ => None
  end.


(** ** Vocabulary of the statements *)

(** The distance of a candidate's departure from [target], when its
    [depart] field parses. *)
Definition delta_to (parse : string -> option datetime) (target : datetime)
    (f : flight) : option Z :=
  (fun dep => Z.abs (micros dep - micros target)) <$> parse (depart f).

(** The departure of [f], when it parses, can be subtracted from [target]:
    both carry a UTC offset or neither does. *)
Definition comparable (parse : string -> option datetime) (target : datetime)
    (f : flight) : bool :=
  match parse (depart f) with
  | Some dep => bool_decide (aware dep = aware target)
  | None => true
  end.

(** The pair [(best, best_delta)] after a candidate whose distance can be
    computed. *)
Definition nearer (parse : string -> option datetime) (target : datetime)
    (acc : option (flight * Z)) (f : flight) : option (flight * Z) :=
  match delta_to parse target f with
  | None => acc
  | Some delta =>
      match acc with
      | None => Some (f, delta)
      | Some (_, best_delta) =>
          if delta <? best_delta then Some (f, delta) else acc
      end
  end.

(** [f], at distance [d], is the first candidate of [l] at the least
    distance from [target]: every candidate before it is strictly
    farther, every candidate after it at least as far. *)
Definition first_closest (parse : string -> option datetime)
    (target : datetime) (l : list flight) (f : flight) (d : Z) : Prop :=
  exists l1 l2, l = (l1 ++ f :: l2)%list /\ delta_to parse target f = Some d
    /\ (forall g d', g ∈ l1 -> delta_to parse target g = Some d' -> d < d')
    /\ (forall g d', g ∈ l2 -> delta_to parse target g = Some d' -> d <= d').

(** [f] is the first of the cheapest candidates of [l]. *)
Definition first_cheapest (l : list flight) (f : flight) : Prop :=
  exists l1 l2, l = (l1 ++ f :: l2)%list
    /\ (forall g, g ∈ l1 -> price f < price g)
    /\ (forall g, g ∈ l2 -> price f <= price g).

(** The [depart] field of [f] is an ISO timestamp. *)
Definition parseable (parse : string -> option datetime) (f : flight)
  : bool :=
  match parse (depart f) with Some _ => true | None => false end.

(** The state a turn leaves when it stores the record [rec] for [sub] and
    sends [sent]. *)
Definition stored (sub : subscription) (rec : gmap string value)
    (sent : list event) (st : loop) : loop :=
  {| store := <[price_key_of sub := rec]> (store st);
     changed := true;
     out := (out st ++ sent)%list |}.

(** The stores that the events [evs] hand to [set_store], in order. *)
Definition writes (evs : list event) : list (gmap string (gmap string value)) :=
  omap (fun ev => match ev with SetStore s => Some s | Notify _ => None end)
       evs.

(** No tier of the matcher yields a candidate for [sub] against the store
    [prices] (this covers a key that cannot be split and a lookup that
    raises). *)
Definition unmatched (parse : string -> option datetime)
    (fetch : string -> string -> string -> list flight)
    (sub : subscription) (prices : gmap string (gmap string value)) : Prop :=
  forall o, observe parse fetch sub prices <> Ok (Some o).

(** Some turn of the pass over [selected], started on the store [prices],
    reaches a subscription that the matcher resolves. *)
Definition matched_during (parse : string -> option datetime)
    (mode : string) (threshold : float)
    (fetch : string -> string -> string -> list flight)
    (selected : list subscription)
    (prices : gmap string (gmap string value)) : Prop :=
  exists pre sub post st o,
    selected = (pre ++ sub :: post)%list
    /\ run_loop parse mode threshold fetch pre (Loop prices false [])
       = (None, st)
    /\ observe parse fetch sub (store st) = Ok (Some o).

(** ** JSON documents

    What [json.load] and [r.json()] return: the subscriptions file and the
    answers of the flight search. *)

#[warnings="-register-all"]
Inductive json : Type :=
  | JNull
  | JBool (b : bool)
  | JInt (z : Z)
  | JFloat (f : float)
  | JStr (s : string)
  | JList (l : list json)
  | JDict (d : gmap string json).

(** [bool(j)] *)
Definition json_truthy (j : json) : bool :=
  match j with
  | JNull => false
  | JBool b => b
  | JInt z => negb (z =? 0)
  | JFloat f => negb (f =? 0)%float
  | JStr s => negb (bool_decide (s = ""))
  | JList l => match l with [] => false | _ :: _ => true end
  | JDict d => match map_to_list d with [] => false | _ :: _ => true end
  end.

(** [d.get(k, dflt)] *)
Definition jget (d : gmap string json) (k : string) (dflt : json) : json :=
  default dflt (d !! k).

(** [jload(path, default)]: [file] is the document the file holds, [None]
    when there is no such file. *)
Definition jload (file : option json) (dflt : json) : json :=
  default dflt file.

(** *** Subscriptions *)

(** The dict literal that [load_selected_flights] appends. *)
Definition selection (key flightNo airline : json) : gmap string json :=
  <["key" := key]> (<["flightNo" := flightNo]> (<["airline" := airline]> ∅)).

(** The dict that [load_selected_flights] keeps for an item, if it keeps
    one. *)
Definition selected_entry (it : json) : option (gmap string json) :=
  match it with
  | JDict d =>
      if json_truthy (jget d "key" JNull)
         && json_truthy (jget d "flightNo" JNull)
      then Some (selection (jget d "key" JNull) (jget d "flightNo" JNull)
                           (jget d "airline" (JStr "")))
      else None
  | _ => None
  end.

(** [load_selected_flights()], given the content of [subscriptions.json].
    [None] stands for the exception of a document that is not an object
    ([subs.get] fails) or of an entry for [CHAT_ID] that cannot be
    iterated.  Iterating a string or an object yields strings, which are
    no flight subscriptions. *)
Definition load_selected_flights (CHAT_ID : string) (subs_file : option json)
  : option (list (gmap string json)) :=
  match jload subs_file (JDict ∅) with
  | JDict subs =>
      match jget subs CHAT_ID (JList []) with
      | JList items => Some (omap selected_entry items)
      | JStr _ | JDict _ => Some []
      | JNull | JBool _ | JInt _ | JFloat _ => None
      end
  | _ => None
  end.

(** *** Answers of the flight search *)

(** [int(f)] on a float: truncation towards zero; [None] stands for the
    exception on an infinity or a NaN. *)
Definition int_of_float (f : float) : option Z :=
  match Prim2SF f with
  | S754_zero _ => Some 0
  | S754_finite s m e =>
      let n := if 0 <=? e then Zpos m * 2 ^ e else Zpos m / 2 ^ (- e) in
      Some (if s then - n else n)
  | S754_infinity _ | S754_nan => None
  end.

(** [isinstance(j, (int, float))]; a [bool] is an [int]. *)
Definition is_number (j : json) : bool :=
  match j with
  | JBool _ | JInt _ | JFloat _ => true
  | _ => false
  end.

(** [int(j)] for a number [j]. *)
Definition int_of (j : json) : option Z :=
  match j with
  | JBool b => Some (if b then 1 else 0)
  | JInt z => Some z
  | JFloat f => int_of_float f
  | _ => None
  end.

(** The loop over [("amount","raw","value","min","max")]: the first key
    that holds a number gives the price.  The outer [None] stands for an
    exception of [int], the inner one for [price = None]. *)
Fixpoint first_number (p : gmap string json) (keys : list string)
  : option (option Z) :=
  match keys with
  | [] => Some None
  | k :: rest =>
      if is_number (jget p k JNull)
      then z ← int_of (jget p k JNull); Some (Some z)
      else first_number p rest
  end.

Definition price_keys : list string := ["amount"; "raw"; "value"; "min"; "max"].

(** The price that [parse_list_like] reads from the field [price]. *)
Definition price_of (p : json) : option (option Z) :=
  if is_number p then z ← int_of p; Some (Some z)
  else
    match p with
    | JDict d => first_number d price_keys
    | _ => Some None
    end.

(** The dict literal of a candidate flight. *)
Definition listing (airline flightNo depart arrive duration price : json)
  : gmap string json :=
  <["airline" := airline]>
    (<["flightNo" := flightNo]>
       (<["depart" := depart]>
          (<["arrive" := arrive]>
             (<["duration" := duration]> (<["price" := price]> ∅))))).

(** One turn of the loop of [parse_list_like]: the outer [None] stands for
    an exception (an item that is no object has no [get]), the inner one for
    an item that is skipped. *)
Definition parse_item (it : json) : option (option (gmap string json)) :=
  match it with
  | JDict d =>
      price ← price_of (jget d "price" JNull);
      Some (match price with
            | None => None
            | Some price =>
                Some (listing (jget d "airline" (JStr ""))
                              (jget d "flightNo" (JStr ""))
                              (jget d "depart" (JStr ""))
                              (jget d "arrive" (JStr ""))
                              (jget d "duration" (JStr ""))
                              (JInt price))
            end)
  | _ => None
  end.

(** [[x for x in out if x.get("airline","").lower()!="vistara"]]; [None]
    stands for the exception of an airline that is no string. *)
Fixpoint without_vistara (out : list (gmap string json))
  : option (list (gmap string json)) :=
  match out with
  | [] => Some []
  | x :: rest =>
      match jget x "airline" (JStr "") with
      | JStr s =>
          if bool_decide (lower s = "vistara") then without_vistara rest
          else (x ::.) <$> without_vistara rest
      | _ => None
      end
  end.

(** [parse_list_like(js)]; [None] stands for an exception. *)
Definition parse_list_like (js : json) : option (list (gmap string json)) :=
  out ← match js with
        | JDict d =>
            match jget d "data" JNull with
            | JList data => omap id <$> mapM parse_item (take 20 data)
            | _ => Some []
            end
        | _ => Some []
        end;
  without_vistara out.

(** The dict of a candidate whose fields are all of their type. *)
Definition dict_of_flight (f : flight) : gmap string json :=
  listing (JStr (airline f)) (JStr (flightNo f)) (JStr (depart f))
          (JStr (arrive f)) (JStr (duration f)) (JInt (price f)).

Section Sources.

(** The environment: [API_KEY] and [USE_REAL]. *)
Variable API_KEY : string.
Variable USE_REAL : bool.

(** The flight search service: the document that a GET with the given key
    and parameters returns, [None] for every failure ([requests.get],
    [raise_for_status] or [r.json()] raising). *)
Variable http_get : string -> gmap string string -> option json.

(** The list that [stable_mock_flights] builds (lines 78-104) before its
    last line filters it: it depends on [random.Random], [hash] and
    [time.time], which are not modelled. *)
Variable mock_list : string -> string -> string -> list flight.

(** [stable_mock_flights]: its last line. *)
Definition stable_mock_flights (origin destination date : string)
  : list (gmap string json) :=
  dict_of_flight
    <$> List.filter (fun f => negb (bool_decide (lower (airline f) = "vistara")))
          (mock_list origin destination date).

(** [kiwi_query(params)]: every exception gives the empty list. *)
Definition kiwi_query (params : gmap string string)
  : list (gmap string json) :=
  default [] (http_get API_KEY params ≫= parse_list_like).

Definition base_params (date : string) : gmap string string :=
  <["currency" := "INR"]>
    (<["locale" := "en"]>
       (<["adults" := "1"]>
          (<["limit" := "20"]>
             (<["cabinClass" := "ECONOMY"]>
                (<["sortBy" := "QUALITY"]>
                   (<["sortOrder" := "ASCENDING"]>
                      (<["outboundDepartureDateFrom" := date]>
                         (<["outboundDepartureDateTo" := date]>
                            (<["transportTypes" := "FLIGHT"]> ∅))))))))).

(** The three parameterizations that [real_flights] tries, in order. *)
Definition attempts (origin to date : string) : list (gmap string string) :=
  [ <["destination" := "Airport:" +:+ to]>
      (<["source" := "Airport:" +:+ origin]> (base_params date));
    <["destination" := "City:" +:+ lower to +:+ "_in"]>
      (<["source" := "City:" +:+ lower origin +:+ "_in"]> (base_params date));
    <["destination" := "City:" +:+ lower to]>
      (<["source" := "City:" +:+ lower origin]> (base_params date)) ].

(** [for p in attempts: res=kiwi_query(p); if res: return res] *)
Fixpoint first_answer (ps : list (gmap string string))
  : list (gmap string json) :=
  match ps with
  | [] => []
  | p :: rest =>
      match kiwi_query p with
      | [] => first_answer rest
      | res => res
      end
  end.

Definition real_flights (origin to date : string)
  : list (gmap string json) :=
  if bool_decide (API_KEY = "") then []
  else first_answer (attempts origin to date).

Definition fetch_flights (origin to date : string)
  : list (gmap string json) :=
  if USE_REAL then
    match real_flights origin to date with
    | [] => stable_mock_flights origin to date
    | res => res
    end
  else stable_mock_flights origin to date.

End Sources.

(** ** Vocabulary of the properties of the sources *)

(** A candidate as the monitor expects it from its flight source: the six
    fields, an integer price, and an airline that is a string other than
    Vistara in any case of letters. *)
Definition presentable (x : gmap string json) : Prop :=
  exists airline flightNo depart arrive duration price,
    x = listing (JStr airline) flightNo depart arrive duration (JInt price)
    /\ lower airline <> "vistara".

(** A flight subscription as [check_once] reads it: the three fields, with
    a key and a flight number that are not empty. *)
Definition usable (e : gmap string json) : Prop :=
  exists key flightNo airline,
    e = selection key flightNo airline
    /\ json_truthy key = true /\ json_truthy flightNo = true.

(** ** The web application ([app.py]): flight filters and routes

    The handlers that change which routes and flights the monitor tracks,
    as functions from the request and the documents on disk to the answer
    and the documents they save. *)

(** [c.isspace()], on ASCII. *)
Definition is_space (c : ascii) : bool :=
  let n := N_of_ascii c in
  (((9 <=? n) && (n <=? 13)) || ((28 <=? n) && (n <=? 32)))%N.

Fixpoint lstrip (s : string) : string :=
  match s with
  | EmptyString => EmptyString
  | String c r => if is_space c then lstrip r else s
  end.

Fixpoint rstrip (s : string) : string :=
  match s with
  | EmptyString => EmptyString
  | String c r =>
      match rstrip r with
      | EmptyString => if is_space c then EmptyString else String c EmptyString
      | r' => String c r'
      end
  end.

(** [s.strip()], on ASCII. *)
Definition strip (s : string) : string := rstrip (lstrip s).

Definition upper_ascii (c : ascii) : ascii :=
  let n := N_of_ascii c in
  if ((97 <=? n) && (n <=? 122))%N then ascii_of_N (n - 32) else c.

(** [s.upper()], on ASCII. *)
Fixpoint upper (s : string) : string :=
  match s with
  | EmptyString => EmptyString
  | String c r => String (upper_ascii c) (upper r)
  end.

(** [[A-Z]] *)
Definition is_capital (c : ascii) : bool :=
  let n := N_of_ascii c in ((65 <=? n) && (n <=? 90))%N.

(** [\d], on ASCII. *)
Definition is_digit (c : ascii) : bool :=
  let n := N_of_ascii c in ((48 <=? n) && (n <=? 57))%N.

(** [re.fullmatch(r"[A-Z]{3}-[A-Z]{3}-\d{4}-\d{2}-\d{2}", key)] *)
Definition route_key_ok (key : string) : bool :=
  match list_ascii_of_string key with
  | [o1; o2; o3; s1; d1; d2; d3; s2; y1; y2; y3; y4; s3; m1; m2; s4; a1; a2] =>
      forallb is_capital [o1; o2; o3; d1; d2; d3]
      && forallb (fun c => bool_decide (c = "-"%char)) [s1; s2; s3; s4]
      && forallb is_digit [y1; y2; y3; y4; m1; m2; a1; a2]
  | _ => false
  end.

(** [(v or "").strip()]: [None] stands for the exception of a value that
    is truthy and no string. *)
Definition stripped (v : json) : option string :=
  match v with
  | JStr s => Some (strip s)
  | _ => if json_truthy v then None else Some EmptyString
  end.

(** [v == s] for a string [s]. *)
Definition is_str (v : json) (s : string) : bool :=
  match v with
  | JStr t => bool_decide (t = s)
  | _ => false
  end.

(** The response of a handler: an error (status 400) or success. *)
Inductive response : Type :=
  | Refused (error : string)
  | Accepted (count : nat).

(** One turn of the loop of [set_flight_filters] over [flights]: the outer
    [None] stands for an exception, the inner one for an entry that is
    skipped. *)
Definition clean_flight (f : json) : option (option (string * string)) :=
  match f with
  | JDict d =>
      fn ← stripped (jget d "flightNo" (JStr ""));
      if bool_decide (fn = "") then Some None
      else
        name ← stripped (jget d "airline" (JStr ""));
        if bool_decide (lower name = "vistara") then Some None
        else Some (Some (fn, name))
  | _ => Some None
  end.

(** The groups of
    [re.fullmatch(r"([A-Z]{3})-([A-Z]{3})-(\d{4}-\d{2}-\d{2})", key)]. *)
Definition route_key_groups (key : string)
  : option (string * string * string) :=
  if route_key_ok key
  then Some (substring 0 3 key, substring 4 3 key, substring 8 10 key)
  else None.

(** [v.upper()]: [None] stands for the exception of a value that is no
    string. *)
Definition upper_of (v : json) : option string :=
  match v with
  | JStr s => Some (upper s)
  | _ => None
  end.

(** Whether [r] is the route that [delete_route] removes; [None] stands
    for an exception. *)
Definition is_route (f t d : string) (r : json) : option bool :=
  match r with
  | JDict m =>
      a ← upper_of (jget m "from" (JStr ""));
      if bool_decide (a = f) then
        b ← upper_of (jget m "to" (JStr ""));
        if bool_decide (b = t)
        then Some (is_str (jget m "date" (JStr "")) d)
        else Some false
      else Some false
  | _ => None
  end.

(** [new_routes] of [delete_route]. *)
Fixpoint other_routes (f t d : string) (routes : list json)
  : option (list json) :=
  match routes with
  | [] => Some []
  | r :: rest =>
      gone ← is_route f t d r;
      keep ← other_routes f t d rest;
      Some (if gone : bool then keep else r :: keep)
  end.

(** The items that [delete_route] keeps in the list of the recipient. *)
Definition other_item (key : string) (item : json) : bool :=
  match item with
  | JStr s => negb (bool_decide (s = key))
  | JDict d => negb (is_str (jget d "key" JNull) key)
  | _ => false
  end.

(** What [delete_route] does: it answers with an error (status 400), or
    fails on an exception, after it has saved the routes or before, or
    saves the routes and the subscriptions. *)
Inductive deletion : Type :=
  | DeleteRefused
  | DeleteFailed (routes_saved : option json)
  | Deleted (routes_saved subs_saved : json).

(** [re.fullmatch(r"[A-Z]{3}", s)] *)
Definition airport_ok (s : string) : bool :=
  match list_ascii_of_string s with
  | [a; b; c] => forallb is_capital [a; b; c]
  | _ => false
  end.

(** [re.fullmatch(r"\d{4}-\d{2}-\d{2}", s)] *)
Definition date_ok (s : string) : bool :=
  match list_ascii_of_string s with
  | [y1; y2; y3; y4; s1; m1; m2; s2; d1; d2] =>
      forallb is_digit [y1; y2; y3; y4; m1; m2; d1; d2]
      && forallb (fun c => bool_decide (c = "-"%char)) [s1; s2]
  | _ => false
  end.

(** [v or ""] where a string is called for: [None] stands for the
    exception of a value that is truthy and no string. *)
Definition text_of (v : json) : option string :=
  match v with
  | JStr s => Some s
  | _ => if json_truthy v then None else Some EmptyString
  end.

(** The key [f"{f}-{t}-{d}"] of a route. *)
Definition route_key (f t d : string) : string :=
  f ++ "-" ++ t ++ "-" ++ d.

(** The dict literal that [add_route] appends. *)
Definition route (f t d : string) : gmap string json :=
  <["from" := JStr f]> (<["to" := JStr t]> (<["date" := JStr d]> ∅)).

(** Whether [r] is the route that [add_route] is to add: the comparison of
    the two tuples. *)
Definition same_route (f t d : string) (r : json) : option bool :=
  match r with
  | JDict m =>
      a ← upper_of (jget m "from" (JStr ""));
      b ← upper_of (jget m "to" (JStr ""));
      Some (bool_decide (a = f) && bool_decide (b = t)
            && is_str (jget m "date" (JStr "")) d)
  | _ => None
  end.

(** [any(... for r in routes)], which stops at the first route that is the
    same. *)
Fixpoint any_route (f t d : string) (routes : list json) : option bool :=
  match routes with
  | [] => Some false
  | r :: rest =>
      same ← same_route f t d r;
      if same : bool then Some true else any_route f t d rest
  end.

(** The answers of [add_route]. *)
Inductive addition : Type :=
  | AddRefused (error : string)
  | AddExists (key : string)
  | Added (key : string).

(** [add_route()], given the body of the request and the content of
    [routes.json]: the answer and the document saved, if one is.  Only a
    list of routes can be appended to; on any other document the handler
    raises, in the loop or at [append]. *)
Definition add_route (body : json) (routes_file : option json)
  : option (addition * option json) :=
  match body with
  | JDict b =>
      f ← text_of (jget b "from" (JStr ""));
      t ← text_of (jget b "to" (JStr ""));
      d ← text_of (jget b "date" (JStr ""));
      let f := strip (upper f) in
      let t := strip (upper t) in
      let d := strip d in
      if negb (airport_ok f) then Some (AddRefused "Invalid FROM", None)
      else if negb (airport_ok t) then Some (AddRefused "Invalid TO", None)
      else if negb (date_ok d) then Some (AddRefused "Invalid DATE", None)
      else
        match jload routes_file (JList []) with
        | JList routes =>
            dup ← any_route f t d routes;
            if dup : bool then Some (AddExists (route_key f t d), None)
            else Some (Added (route_key f t d),
                       Some (JList (routes ++ [JDict (route f t d)])))
        | _ => None
        end
  | _ => None
  end.

Section App.

Variable CHAT_ID : string.

(** The order in which Python iterates the keys of an object (that of
    their insertion), which a finite map does not record. *)
Variable key_order : gmap string json -> list string.

(** [for x in j]: [None] stands for the exception of a value that cannot
    be iterated. *)
Definition iterate (j : json) : option (list json) :=
  match j with
  | JList l => Some l
  | JStr s => Some ((fun c => JStr (String c EmptyString))
                      <$> list_ascii_of_string s)
  | JDict d => Some (JStr <$> key_order d)
  | JNull | JBool _ | JInt _ | JFloat _ => None
  end.

(** The items that [set_flight_filters] replaces: the flight filters saved
    for [key]. *)
Definition filter_of (key : string) (it : json) : bool :=
  match it with
  | JDict d => is_str (jget d "key" JNull) key
               && json_truthy (jget d "flightNo" JNull)
  | _ => false
  end.

(** [set_flight_filters()], given the body of the request and the content
    of [subscriptions.json]: the response and the document saved, if one
    is.  [None] stands for an exception (status 500), which comes before
    anything is saved. *)
Definition set_flight_filters (body : json) (subs_file : option json)
  : option (response * option json) :=
  match body with
  | JDict b =>
      key ← stripped (jget b "key" (JStr ""));
      let flights := jget b "flights" (JList []) in
      if negb (route_key_ok key) then Some (Refused "Invalid route key", None)
      else
        fs ← iterate flights;
        cleaned ← mapM clean_flight fs;
        let clean := omap id cleaned in
        match jload subs_file (JDict ∅) with
        | JDict subs =>
            items ← iterate (jget subs CHAT_ID (JList []));
            let items := List.filter (fun it => negb (filter_of key it)) items in
            let added :=
              (fun f => JDict (selection (JStr key) (JStr f.1) (JStr f.2)))
                <$> clean in
            let items := (items ++ added)%list in
            Some (Accepted (length clean),
                  Some (JDict (<[CHAT_ID := JList items]> subs)))
        | _ => None
        end
  | _ => None
  end.

(** [delete_route()], given the [key] of the query and the contents of
    [routes.json] and [subscriptions.json]. *)
Definition delete_route (key : string) (routes_file subs_file : option json)
  : deletion :=
  let key := strip key in
  match route_key_groups key with
  | None => DeleteRefused
  | Some (f, t, d) =>
      match iterate (jload routes_file (JList [])) ≫= other_routes f t d with
      | None => DeleteFailed None
      | Some new_routes =>
          match jload subs_file (JDict ∅) with
          | JDict subs =>
              match iterate (jget subs CHAT_ID (JList [])) with
              | Some items =>
                  let new_items := List.filter (other_item key) items in
                  Deleted (JList new_routes)
                          (JDict (<[CHAT_ID := JList new_items]> subs))
              | None => DeleteFailed (Some (JList new_routes))
              end
          | _ => DeleteFailed (Some (JList new_routes))
          end
      end
  end.

End App.

(** ** Vocabulary of the further properties *)

(** [s] has no dash. *)
Fixpoint dash_free (s : string) : bool :=
  match s with
  | EmptyString => true
  | String c r => negb (bool_decide (c = "-"%char)) && dash_free r
  end.

(** The subscription has a key that [check_once] can split. *)
Definition well_keyed (sub : subscription) : bool :=
  match split_key (sub_key sub) with Some _ => true | None => false end.

(** The messages that the events [evs] hand to [notify], in order. *)
Definition notifications (evs : list event) : list alert :=
  omap (fun ev => match ev with Notify msg => Some msg | SetStore _ => None end)
       evs.

(** An integer or [None]. *)
Definition opt_int (v : value) : Prop := v = VNone \/ exists z, v = VInt z.

(** A string or [None]. *)
Definition opt_str (v : value) : Prop := v = VNone \/ exists s, v = VStr s.

(** The two notification fields: both [None], or a price with the
    direction it was notified in. *)
Definition notified (last_notified_price last_notified_dir : value) : Prop :=
  (last_notified_price = VNone /\ last_notified_dir = VNone)
  \/ ((exists z, last_notified_price = VInt z)
      /\ (last_notified_dir = VStr "drop" \/ last_notified_dir = VStr "rise")).

(** The shape of the records that [check_once] writes: the four fields and
    nothing else, each of its type. *)
Definition schema (rec : gmap string value) : Prop :=
  exists last_price last_notified_price last_notified_dir last_depart,
    rec = tracking last_price last_notified_price last_notified_dir
                   last_depart
    /\ opt_int last_price
    /\ notified last_notified_price last_notified_dir
    /\ opt_str last_depart.

(** Every record of the store has that shape. *)
Definition schema_store (prices : gmap string (gmap string value)) : Prop :=
  forall k rec, prices !! k = Some rec -> schema rec.

(** The timestamp [s], when it parses, carries no UTC offset. *)
Definition offset_free (parse : string -> option datetime) (s : string)
  : Prop :=
  forall d, parse s = Some d -> aware d = false.

(** No [last_depart] of the store carries a UTC offset. *)
Definition offset_free_store (parse : string -> option datetime)
    (prices : gmap string (gmap string value)) : Prop :=
  forall k rec s,
    prices !! k = Some rec -> rec !! "last_depart" = Some (VStr s) ->
    offset_free parse s.

(** No departure that the flight source lists carries a UTC offset. *)
Definition offset_free_source (parse : string -> option datetime)
    (fetch : string -> string -> string -> list flight) : Prop :=
  forall origin dest date f,
    f ∈ fetch origin dest date -> offset_free parse (depart f).

(** The fallback tier cannot compare for [sub]: the [last_depart] stored
    for its flight and the departure of a candidate of its airline differ
    in carrying a UTC offset. *)
Definition mixed (parse : string -> option datetime)
    (fetch : string -> string -> string -> list flight)
    (sub : subscription) (prices : gmap string (gmap string value)) : Prop :=
  exists origin dest date s target g,
    split_key (sub_key sub) = Some (origin, dest, date)
    /\ default blank (prices !! price_key_of sub) !! "last_depart"
       = Some (VStr s)
    /\ parse s = Some target
    /\ g ∈ fetch origin dest date
    /\ same_airline (sub_airline sub) g = true
    /\ comparable parse target g = false.

(** Two states of the loop that differ at most in the order of their
    events. *)
Definition alike (st1 st2 : loop) : Prop :=
  store st1 = store st2 /\ changed st1 = changed st2 /\ out st1 ≡ₚ out st2.

(** What an alert has to report under the settings [mode] and [threshold]:
    a move of the price in a direction that [mode] enables, by a percentage
    that reaches [threshold]. *)
Definition justified (mode : string) (threshold : float) (msg : alert)
  : Prop :=
  pct_move (a_price msg) (a_last msg) = Ok (a_pct msg)
  /\ (threshold <=? a_pct msg)%float = true
  /\ ((a_direction msg = "drop" /\ a_price msg < a_last msg
       /\ mode ∈ ["drop"; "both"])
      \/ (a_direction msg = "rise" /\ a_last msg < a_price msg
          /\ mode ∈ ["rise"; "both"])).

(** The alert [msg] is about the flight of the subscription [sub]. *)
Definition about (sub : subscription) (msg : alert) : Prop :=
  split_key (sub_key sub) = Some (a_origin msg, a_dest msg, a_date msg)
  /\ a_flight_no msg = sub_flightNo sub
  /\ a_airline msg = sub_airline sub.

(** ** Example data

    One route on one day, as [stable_mock_flights] would list it, and the
    subscription to one of its flights. *)

Definition ex_flights : list flight :=
  [ Flight "IndiGo" "6E200" "2025-08-25T10:00" "2025-08-25T11:50" "1h 50m"
           4900;
    Flight "Air India" "AI231" "2025-08-25T11:30" "2025-08-25T13:29" "1h 59m"
           5100;
    Flight "Akasa" "QP262" "2025-08-25T18:30" "2025-08-25T20:38" "2h 08m"
           4700 ].

(** The same day after the airline renumbered its flights: no "6E200" any
    more, two IndiGo departures ten minutes either side of 10:00, one with
    no timestamp yet, and a late one that is the cheapest. *)
Definition ex_renumbered : list flight :=
  [ Flight "Air India" "AI231" "2025-08-25T10:00" "2025-08-25T11:59" "1h 59m"
           5100;
    Flight "INDIGO" "6E777" "TBA" "TBA" "" 4300;
    Flight "IndiGo" "6E207" "2025-08-25T10:10" "2025-08-25T12:00" "1h 50m"
           4950;
    Flight "indigo" "6E193" "2025-08-25T09:50" "2025-08-25T11:40" "1h 50m"
           4800;
    Flight "IndiGo" "6E291" "2025-08-25T21:00" "2025-08-25T22:50" "1h 50m"
           4300 ].

Definition ex_fetch (origin dest date : string) : list flight := ex_flights.

Definition ex_fetch_renumbered (origin dest date : string) : list flight :=
  ex_renumbered.

Definition ex_fetch_nothing (origin dest date : string) : list flight := [].

(** The next poll: the flight of [ex_sub] now costs 4950. *)
Definition ex_fetch_next (origin dest date : string) : list flight :=
  [ Flight "IndiGo" "6E200" "2025-08-25T10:00" "2025-08-25T11:50" "1h 50m"
           4950 ].

(** A day on which the airline of [ex_sub] does not fly the route. *)
Definition ex_fetch_others (origin dest date : string) : list flight :=
  [ Flight "Air India" "AI231" "2025-08-25T10:00" "2025-08-25T11:59" "1h 59m"
           5100;
    Flight "Akasa" "QP262" "2025-08-25T18:30" "2025-08-25T20:38" "2h 08m"
           4700 ].



Definition ex_sub : subscription := Sub "DEL-BLR-2025-08-25" "6E200" "IndiGo".

(** A store that holds the record of [ex_sub] only, last seen at 10:00. *)
Definition ex_store (last_price last_notified_price last_notified_dir : value)
  : gmap string (gmap string value) :=
  {[ "DEL-BLR-2025-08-25#6E200" :=
       tracking last_price last_notified_price last_notified_dir
                (VStr "2025-08-25T10:00") ]}.

(** What a turn observes for [ex_sub] when the source answers
    [ex_flights]. *)
Definition ex_obs (last last_notified last_dir last_depart : value)
  : observation :=
  Obs "DEL" "BLR" "2025-08-25" last last_notified last_dir last_depart
      (Flight "IndiGo" "6E200" "2025-08-25T10:00" "2025-08-25T11:50" "1h 50m"
              4900).


(** The subscriptions file of the recipient "42": a bare route key, a
    flight subscription, an entry with no flight number and a flight
    subscription without an airline. *)
Definition ex_subscriptions : gmap string json :=
  {[ "42" :=
       JList
         [ JStr "DEL-BLR-2025-08-25";
           JDict (selection (JStr "DEL-BLR-2025-08-25") (JStr "6E200")
                            (JStr "IndiGo"));
           JDict {[ "key" := JStr "DEL-BOM-2025-09-01" ]};
           JDict (<["key" := JStr "DEL-BOM-2025-09-01"]>
                    {[ "flightNo" := JStr "AI231" ]}) ] ]}.

(** An answer of the search service: a price given as a float, a Vistara
    flight, a price nested in an object, and a price given as a string. *)
Definition ex_answer : json :=
  JDict
    {[ "data" :=
         JList
           [ JDict (<["airline" := JStr "IndiGo"]>
                      (<["flightNo" := JStr "6E200"]>
                         {[ "price" := JFloat 4300.5 ]}));
             JDict (<["airline" := JStr "VISTARA"]> {[ "price" := JInt 3900 ]});
             JDict (<["airline" := JStr "Akasa"]>
                      {[ "price" :=
                           JDict (<["amount" := JStr "4100"]>
                                    {[ "value" := JInt 4100 ]}) ]});
             JDict (<["airline" := JStr "SpiceJet"]>
                      {[ "price" := JStr "4000" ]}) ] ]}.

(** A search service that knows the route by its city code only. *)
Definition ex_http (key : string) (params : gmap string string)
  : option json :=
  if bool_decide (params !! "source" = Some "City:del_in") then Some ex_answer
  else None.

Definition ex_mock_list (origin destination date : string) : list flight :=
  ex_flights.

(** A second subscription on the same route. *)
Definition ex_sub_other : subscription :=
  Sub "DEL-BLR-2025-08-25" "AI231" "Air India".

(** A store with the record of [ex_sub] and, for [ex_sub_other], a record
    written without its [last_price]. *)
Definition ex_half_broken : gmap string (gmap string value) :=
  <["DEL-BLR-2025-08-25#AI231" :=
      <["last_notified_price" := VNone]>
        (<["last_notified_dir" := VNone]>
           (<["last_depart" := VStr "2025-08-25T11:30"]> ∅))]>
    (ex_store (VInt 5000) VNone VNone).

(** A request to [set_flight_filters]: a key with blanks around it, and as
    flights one to keep, a Vistara flight, one with no flight number and a
    bare string. *)
Definition ex_request : json :=
  JDict
    (<["key" := JStr " DEL-BLR-2025-08-25 "]>
       {[ "flights" :=
            JList
              [ JDict (<["flightNo" := JStr " 6E201"]>
                         {[ "airline" := JStr "IndiGo " ]});
                JDict (<["flightNo" := JStr "UK811"]>
                         {[ "airline" := JStr "Vistara" ]});
                JDict {[ "airline" := JStr "Akasa" ]};
                JStr "QP1101" ] ]}).

(** [ex_subscriptions] after that request. *)
Definition ex_filtered : json :=
  JDict
    (<["42" :=
        JList
          [ JStr "DEL-BLR-2025-08-25";
            JDict {[ "key" := JStr "DEL-BOM-2025-09-01" ]};
            JDict (<["key" := JStr "DEL-BOM-2025-09-01"]>
                     {[ "flightNo" := JStr "AI231" ]});
            JDict (selection (JStr "DEL-BLR-2025-08-25") (JStr "6E201")
                             (JStr "IndiGo")) ]]>
       ex_subscriptions).

(** A routes file, and what is left of it and of [ex_subscriptions] when
    the route from DEL to BLR is deleted. *)
Definition ex_routes : json :=
  JList
    [ JDict (<["from" := JStr "del"]>
               (<["to" := JStr "BLR"]> {[ "date" := JStr "2025-08-25" ]}));
      JDict (<["from" := JStr "DEL"]>
               (<["to" := JStr "BOM"]> {[ "date" := JStr "2025-09-01" ]})) ].

Definition ex_routes_left : json :=
  JList
    [ JDict (<["from" := JStr "DEL"]>
               (<["to" := JStr "BOM"]> {[ "date" := JStr "2025-09-01" ]})) ].

Definition ex_subscriptions_left : json :=
  JDict
    (<["42" :=
        JList
          [ JDict {[ "key" := JStr "DEL-BOM-2025-09-01" ]};
            JDict (<["key" := JStr "DEL-BOM-2025-09-01"]>
                     {[ "flightNo" := JStr "AI231" ]}) ]]>
       ex_subscriptions).

(** An order of the keys of an object: that of the map. *)
Definition ex_key_order (d : gmap string json) : list string :=
  fst <$> map_to_list d.

(** A request to [add_route], in small letters and with blanks, and the
    routes file after it, when it was [ex_routes_left] before. *)
Definition ex_add_request : json :=
  JDict
    (<["from" := JStr " del"]>
       (<["to" := JStr "blr "]> {[ "date" := JStr "2025-08-25" ]})).

Definition ex_routes_added : json :=
  JList
    [ JDict (<["from" := JStr "DEL"]>
               (<["to" := JStr "BOM"]> {[ "date" := JStr "2025-09-01" ]}));
      JDict (route "DEL" "BLR" "2025-08-25") ].

(** ** The matcher *)

Section Matcher.

Variable fromisoformat : string -> option datetime.

Local Abbreviation delta := (delta_to fromisoformat).
Local Abbreviation step := (nearer fromisoformat).
Local Abbreviation fits := (comparable fromisoformat).

(** Both sides list the same candidates, grouped differently. *)
Local Ltac regroup H :=
  repeat (rewrite <- app_assoc in H; cbn [app] in H);
  repeat (rewrite <- app_assoc; cbn [app]);
  exact H.

(** A turn of the loop on a candidate whose departure can be subtracted
    from [target], and on one whose departure cannot. *)
Lemma closer_comparable target acc f :
  fits target f = true ->
  closer fromisoformat target acc f = Ok (step target acc f).
Proof.
  unfold comparable, closer, nearer, delta_to, elapsed.
  destruct (fromisoformat (depart f)) as [dep|]; [|reflexivity].
  intros ->. cbn. destruct acc as [[b bd]|]; [|reflexivity].
  destruct (Z.abs (micros dep - micros target) <? bd); reflexivity.
Qed.

Lemma closer_mixed target acc f :
  fits target f = false -> closer fromisoformat target acc f = Raise TypeError.
Proof.
  unfold comparable, closer, elapsed.
  destruct (fromisoformat (depart f)) as [dep|]; [|discriminate].
  intros ->. reflexivity.
Qed.

(** The loop of [find_fallback] runs to its end exactly when every
    candidate can be compared with [target]. *)
Lemma closest_spec target l :
  forall acc,
    closest fromisoformat target l acc
    = if forallb (fits target) l then Ok (fold_left (step target) l acc)
      else Raise TypeError.
Proof.
  induction l as [|g l IH]; intros acc; [reflexivity|].
  cbn [closest forallb fold_left].
  destruct (fits target g) eqn:Hg.
  - rewrite (closer_comparable _ _ _ Hg). cbn [mbind result_bind andb].
    apply IH.
  - rewrite (closer_mixed _ _ _ Hg). reflexivity.
Qed.

Lemma forallb_false {A} (p : A -> bool) l :
  forallb p l = false -> exists x, x ∈ l /\ p x = false.
Proof.
  induction l as [|a l IH]; [discriminate|]. cbn [forallb].
  destruct (p a) eqn:Ha.
  - intros H. destruct (IH H) as (x & Hx & Hp). exists x. split; [right|];
      assumption.
  - intros _. exists a. split; [left | exact Ha].
Qed.

Lemma closer_unparsed target acc f :
  delta target f = None -> step target acc f = acc.
Proof. unfold nearer. intros ->. reflexivity. Qed.

(** The loop of [find_fallback], started from a best candidate [b]. *)
Lemma closer_fold_some target rest :
  forall pre b d post,
    delta target b = Some d ->
    (forall g d', g ∈ pre -> delta target g = Some d' -> d < d') ->
    (forall g d', g ∈ post -> delta target g = Some d' -> d <= d') ->
    exists m dm,
      fold_left (step target) rest (Some (b, d)) = Some (m, dm)
      /\ first_closest fromisoformat target
           (pre ++ b :: post ++ rest)%list m dm.
Proof.
  induction rest as [|g rest IH]; intros pre b d post Hb Hpre Hpost.
  - exists b, d. split; [reflexivity|].
    exists pre, post. rewrite app_nil_r. auto.
  - cbn [fold_left].
    destruct (delta target g) as [dg|] eqn:Hg.
    + unfold nearer at 2. rewrite Hg.
      destruct (Z.ltb_spec dg d) as [Hlt|Hge].
      * destruct (IH (pre ++ b :: post)%list g dg [])
          as (m & dm & Hfold & Hfirst).
        -- exact Hg.
        -- intros x dx Hx Hdx.
           apply elem_of_app in Hx as [Hx|Hx].
           ++ specialize (Hpre _ _ Hx Hdx). lia.
           ++ apply elem_of_cons in Hx as [->|Hx].
              ** rewrite Hb in Hdx. injection Hdx as <-. lia.
              ** specialize (Hpost _ _ Hx Hdx). lia.
        -- intros x dx Hx. inversion Hx.
        -- exists m, dm. split; [exact Hfold | regroup Hfirst].
      * destruct (IH pre b d (post ++ [g])%list)
          as (m & dm & Hfold & Hfirst); [exact Hb | exact Hpre | |].
        -- intros x dx Hx Hdx.
           apply elem_of_app in Hx as [Hx|Hx].
           ++ eauto.
           ++ apply list_elem_of_singleton in Hx as ->.
              rewrite Hg in Hdx. injection Hdx as <-. lia.
        -- exists m, dm. split; [exact Hfold | regroup Hfirst].
    + rewrite (closer_unparsed _ _ _ Hg).
      destruct (IH pre b d (post ++ [g])%list)
        as (m & dm & Hfold & Hfirst); [exact Hb | exact Hpre | |].
      * intros x dx Hx Hdx.
        apply elem_of_app in Hx as [Hx|Hx]; [eauto|].
        apply list_elem_of_singleton in Hx as ->. congruence.
      * exists m, dm. split; [exact Hfold | regroup Hfirst].
Qed.

(** The loop of [find_fallback] from its start ([best = None]). *)
Lemma closer_fold_none target rest :
  forall pre,
    (forall g, g ∈ pre -> delta target g = None) ->
    match fold_left (step target) rest None with
    | Some (m, dm) =>
        first_closest fromisoformat target (pre ++ rest)%list m dm
    | None => forall g, g ∈ (pre ++ rest)%list -> delta target g = None
    end.
Proof.
  induction rest as [|g rest IH]; intros pre Hpre.
  - cbn. rewrite app_nil_r. exact Hpre.
  - cbn [fold_left].
    destruct (delta target g) as [dg|] eqn:Hg.
    + assert (step target None g = Some (g, dg)) as ->.
      { unfold nearer. rewrite Hg. reflexivity. }
      destruct (closer_fold_some target rest pre g dg [] Hg)
        as (m & dm & -> & Hfirst).
      * intros x dx Hx Hdx. rewrite (Hpre _ Hx) in Hdx. discriminate.
      * intros x dx Hx. inversion Hx.
      * exact Hfirst.
    + rewrite (closer_unparsed _ _ _ Hg).
      specialize (IH (pre ++ [g])%list).
      rewrite <- app_assoc in IH. cbn [app] in IH. apply IH.
      intros x Hx. apply elem_of_app in Hx as [Hx|Hx]; [auto|].
      apply list_elem_of_singleton in Hx as ->. exact Hg.
Qed.

Lemma truthy_name (name : string) : name <> "" -> truthy (VStr name) = true.
Proof.
  intros H. cbn. rewrite bool_decide_eq_false_2; [reflexivity | exact H].
Qed.

(** [min] over the candidates of one airline, started from a best [b]. *)
Lemma min_price_fold rest :
  forall pre b post,
    (forall g, g ∈ pre -> price b < price g) ->
    (forall g, g ∈ post -> price b <= price g) ->
    first_cheapest (pre ++ b :: post ++ rest)%list (min_price b rest).
Proof.
  unfold min_price.
  induction rest as [|g rest IH]; intros pre b post Hpre Hpost.
  - exists pre, post. rewrite app_nil_r. auto.
  - cbn [fold_left]. destruct (Z.ltb_spec (price g) (price b)) as [Hlt|Hge].
    + assert (first_cheapest ((pre ++ b :: post) ++ g :: [] ++ rest)%list
                (fold_left (fun best g0 =>
                   if price g0 <? price best then g0 else best) rest g))
        as Hfirst.
      { apply IH.
        - intros x Hx. apply elem_of_app in Hx as [Hx|Hx].
          + specialize (Hpre _ Hx). lia.
          + apply elem_of_cons in Hx as [->|Hx]; [lia|].
            specialize (Hpost _ Hx). lia.
        - intros x Hx. inversion Hx. }
      regroup Hfirst.
    + assert (first_cheapest (pre ++ b :: (post ++ [g]) ++ rest)%list
                (fold_left (fun best g0 =>
                   if price g0 <? price best then g0 else best) rest b))
        as Hfirst.
      { apply IH; [exact Hpre|].
        intros x Hx. apply elem_of_app in Hx as [Hx|Hx]; [auto|].
        apply list_elem_of_singleton in Hx as ->. lia. }
      regroup Hfirst.
Qed.

Lemma min_price_first_cheapest f rest :
  first_cheapest (f :: rest) (min_price f rest).
Proof.
  apply (min_price_fold rest [] f []); intros g Hg; inversion Hg.
Qed.

(** Two splittings of one list around an element each. *)
Lemma split_twice {A} (l1 l1' l2 l2' : list A) (x y : A) :
  (l1 ++ x :: l2 = l1' ++ y :: l2')%list ->
  x = y \/ (x ∈ l1' /\ y ∈ l2) \/ (y ∈ l1 /\ x ∈ l2').
Proof.
  revert l1'. induction l1 as [|a l1 IH]; intros [|a' l1'] H; cbn in H.
  - left. congruence.
  - right. left. injection H as -> ->. split; [left|].
    apply elem_of_app. right. left.
  - right. right. injection H as -> <-. split; [left|].
    apply elem_of_app. right. left.
  - injection H as -> H. destruct (IH _ H) as [?|[[? ?]|[? ?]]].
    + left. assumption.
    + right. left. split; [right|]; assumption.
    + right. right. split; [right|]; assumption.
Qed.

Lemma first_cheapest_unique l f g :
  first_cheapest l f -> first_cheapest l g -> f = g.
Proof.
  intros (l1 & l2 & -> & Hlt & Hle) (k1 & k2 & Heq & Klt & Kle).
  destruct (split_twice _ _ _ _ _ _ Heq) as [?|[[Hf Hg]|[Hg Hf]]].
  - assumption.
  - specialize (Klt _ Hf). specialize (Hle _ Hg). lia.
  - specialize (Hlt _ Hg). specialize (Kle _ Hf). lia.
Qed.

(** What [find_fallback] does once its guards are passed. *)
Lemma find_fallback_spec flights name s target :
  name <> "" -> s <> "" -> fromisoformat s = Some target ->
  match find_fallback fromisoformat flights name (VStr s) with
  | Ok (Some f) =>
      forallb (fits target) (List.filter (same_airline name) flights) = true
      /\ exists d,
           first_closest fromisoformat target
             (List.filter (same_airline name) flights) f d
           /\ d <= seconds 900
  | Ok None =>
      forallb (fits target) (List.filter (same_airline name) flights) = true
      /\ forall g d, g ∈ flights -> same_airline name g = true ->
           delta target g = Some d -> seconds 900 < d
  | Raise e =>
      e = TypeError
      /\ forallb (fits target) (List.filter (same_airline name) flights)
         = false
  end.
Proof.
  intros Hname Hs Htarget. unfold find_fallback.
  rewrite (truthy_name name Hname), (truthy_name s Hs), Htarget. cbn [negb orb].
  pose proof (closer_fold_none target
                (List.filter (same_airline name) flights) []) as Hfold.
  cbn [app] in Hfold.
  assert (forall g : flight, g ∈ flights -> same_airline name g = true ->
            g ∈ List.filter (same_airline name) flights) as Hin.
  { intros g Hg Hsame. apply list_elem_of_In, filter_In.
    split; [apply list_elem_of_In|]; assumption. }
  destruct (List.filter (same_airline name) flights) as [|c cs] eqn:Hsame.
  - split; [reflexivity|].
    intros g d Hg Hga _. specialize (Hin g Hg Hga). inversion Hin.
  - rewrite closest_spec.
    destruct (forallb (fits target) (c :: cs));
      cbn [mbind result_bind]; [|split; reflexivity].
    destruct (fold_left (step target) (c :: cs) None) as [[best best_delta]|].
    + specialize (Hfold ltac:(intros g Hg; inversion Hg)).
      change (15 * 60) with 900.
      destruct (Z.leb_spec best_delta (seconds 900)) as [Hle|Hgt].
      * split; [reflexivity|]. exists best_delta. split; assumption.
      * split; [reflexivity|].
        intros g d Hg Hga Hd. specialize (Hin g Hg Hga).
        destruct Hfold as (l1 & l2 & Heq & Hb & Hlt & Hle).
        rewrite Heq in Hin. apply elem_of_app in Hin as [Hin|Hin].
        -- specialize (Hlt _ _ Hin Hd). lia.
        -- apply elem_of_cons in Hin as [->|Hin].
           ++ rewrite Hb in Hd. injection Hd as <-. lia.
           ++ specialize (Hle _ _ Hin Hd). lia.
    + specialize (Hfold ltac:(intros g Hg; inversion Hg)).
      split; [reflexivity|].
      intros g d Hg Hga Hd. rewrite (Hfold g (Hin g Hg Hga)) in Hd.
      discriminate.
Qed.

(** Candidates that do not parse take no part in the loop. *)
Lemma closer_fold_parseable target l :
  forall acc,
    closest fromisoformat target (List.filter (parseable fromisoformat) l) acc
    = closest fromisoformat target l acc.
Proof.
  induction l as [|g l IH]; intros acc; [reflexivity|].
  cbn [List.filter closest]. unfold parseable at 1.
  destruct (fromisoformat (depart g)) as [dep|] eqn:Hdep.
  - cbn [closest].
    destruct (closer fromisoformat target acc g) as [acc'|e];
      cbn [mbind result_bind]; [apply IH | reflexivity].
  - unfold closer. rewrite Hdep. cbn [mbind result_bind]. apply IH.
Qed.

Lemma filter_swap {A} (p q : A -> bool) (l : list A) :
  List.filter p (List.filter q l) = List.filter q (List.filter p l).
Proof.
  induction l as [|a l IH]; [reflexivity|]. cbn [List.filter].
  destruct (p a) eqn:Hp, (q a) eqn:Hq; cbn [List.filter];
    rewrite ?Hp, ?Hq, IH; reflexivity.
Qed.


(** C10: a stored [last_depart] that is not an ISO timestamp makes
    [find_fallback] return no match; candidates whose [depart] is not an
    ISO timestamp can be removed from the list without changing the answer,
    and none of them is ever the answer. *)
Theorem fallback_skips_malformed flights name v :
  (match v with VStr s => fromisoformat s = None | _ => True end ->
   find_fallback fromisoformat flights name v = Ok None)
  /\ find_fallback fromisoformat flights name v
     = find_fallback fromisoformat
         (List.filter (parseable fromisoformat) flights) name v
  /\ (forall f, find_fallback fromisoformat flights name v = Ok (Some f) ->
        parseable fromisoformat f = true).
Proof.
  split; [|split].
  - intros Hv. unfold find_fallback.
    destruct (negb (truthy (VStr name)) || negb (truthy v)); [reflexivity|].
    destruct v as [|z|s]; try reflexivity. rewrite Hv. reflexivity.
  - unfold find_fallback.
    destruct (negb (truthy (VStr name)) || negb (truthy v)); [reflexivity|].
    destruct v as [|z|s]; try reflexivity.
    destruct (fromisoformat s) as [target|]; [|reflexivity].
    rewrite filter_swap.
    rewrite <- (closer_fold_parseable target
                  (List.filter (same_airline name) flights) None).
    destruct (List.filter (same_airline name) flights) as [|c cs];
      [reflexivity|].
    destruct (List.filter (parseable fromisoformat) (c :: cs)); reflexivity.
  - intros f. unfold find_fallback.
    destruct (negb (truthy (VStr name)) || negb (truthy v)); [discriminate|].
    destruct v as [|z|s]; try discriminate.
    destruct (fromisoformat s) as [target|]; [|discriminate].
    pose proof (closer_fold_none target
                  (List.filter (same_airline name) flights) []
                  ltac:(intros g Hg; inversion Hg)) as Hfold.
    destruct (List.filter (same_airline name) flights) as [|c cs];
      [discriminate|].
    rewrite closest_spec.
    destruct (forallb (fits target) (c :: cs)); [|discriminate].
    cbn [mbind result_bind].
    destruct (fold_left (step target) (c :: cs) None)
      as [[best best_delta]|]; [|discriminate].
    destruct (best_delta <=? seconds (15 * 60)); [|discriminate].
    intros [= <-]. destruct Hfold as (_ & _ & _ & Hd & _).
    unfold delta_to in Hd. unfold parseable.
    destruct (fromisoformat (depart best)); [reflexivity | discriminate].
Qed.

(** C6: the match of a cycle is the exact match when there is one, else the
    fallback match when there is one, else, only for a flight with no
    [last_price] yet and a subscription that names an airline, the first of
    the cheapest candidates of that airline.  Once [last_price] is set, a
    flight that the exact and fallback tiers miss has no match. *)
Theorem auto_snap_first_observation_only flights flight_no name last
    last_depart f :
  (resolve fromisoformat flights flight_no name last last_depart
   = Ok (Some f)
   <-> find_exact flights flight_no = Some f
       \/ (find_exact flights flight_no = None
           /\ find_fallback fromisoformat flights name last_depart
              = Ok (Some f))
       \/ (find_exact flights flight_no = None
           /\ find_fallback fromisoformat flights name last_depart = Ok None
           /\ last = VNone /\ name <> ""
           /\ first_cheapest (List.filter (same_airline name) flights) f))
  /\ (last <> VNone ->
      find_exact flights flight_no = None ->
      find_fallback fromisoformat flights name last_depart = Ok None ->
      resolve fromisoformat flights flight_no name last last_depart
      = Ok None).
Proof.
  unfold resolve.
  destruct (find_exact flights flight_no) as [e|]; cbn [mbind result_bind].
  { split; [|discriminate]. split; [intros [= ->]; auto|].
    intros [H|[[H _]|[H _]]]; [rewrite H; reflexivity | discriminate..]. }
  destruct (find_fallback fromisoformat flights name last_depart)
    as [[b|]|err]; cbn [mbind result_bind].
  { split; [|discriminate]. split; [intros [= ->]; auto|].
    intros [H|[[_ H]|(_ & H & _)]]; [discriminate | exact H | discriminate]. }
  2:{ split; [|discriminate]. split; [discriminate|].
      intros [H|[[_ H]|(_ & H & _)]]; discriminate. }
  split.
  - destruct last as [|z|t]; cbn [is_none andb].
    2,3: split; [discriminate|];
         intros [H|[[_ H]|(_ & _ & H & _)]]; discriminate.
    destruct (decide (name = "")) as [->|Hname].
    { cbn. split; [discriminate|].
      intros [H|[[_ H]|(_ & _ & _ & H & _)]];
        [discriminate | discriminate | contradiction]. }
    rewrite (truthy_name name Hname).
    destruct (List.filter (same_airline name) flights) as [|c cs].
    { split; [discriminate|].
      intros [H|[[_ H]|(_ & _ & _ & _ & H)]]; [discriminate..|].
      destruct H as ([|? ?] & ? & H & _); discriminate. }
    pose proof (min_price_first_cheapest c cs) as Hmin.
    split.
    + intros [= <-]. auto 10.
    + intros [H|[[_ H]|(_ & _ & _ & _ & H)]]; [discriminate..|].
      do 2 f_equal. eapply first_cheapest_unique; eassumption.
  - intros Hlast _ _. destruct last; [contradiction | reflexivity..].
Qed.

End Matcher.

(** ** The alert logic *)

Section Alerts.

Variable fromisoformat : string -> option datetime.
Variable ALERT_MODE : string.
Variable MIN_CHANGE_PCT : float.

Local Abbreviation body_ := (body fromisoformat ALERT_MODE MIN_CHANGE_PCT).
Local Abbreviation run_loop_ :=
  (run_loop fromisoformat ALERT_MODE MIN_CHANGE_PCT).
Local Abbreviation check_once_ :=
  (check_once fromisoformat ALERT_MODE MIN_CHANGE_PCT).
Local Abbreviation should_alert_ := (should_alert ALERT_MODE MIN_CHANGE_PCT).

Lemma stored_nothing_sent sub rec st :
  stored sub rec [] st
  = {| store := <[price_key_of sub := rec]> (store st);
       changed := true;
       out := out st |}.
Proof. unfold stored. rewrite app_nil_r. reflexivity. Qed.

(** The loop body on a matched flight is its alert logic. *)
Lemma body_matched fetch sub st o :
  observe fromisoformat fetch sub (store st) = Ok (Some o) ->
  body_ fetch sub st = alert_logic ALERT_MODE MIN_CHANGE_PCT sub o st.
Proof. intros H. unfold body. rewrite H. reflexivity. Qed.

(** A turn that sends nothing leaves the events of the pass as they were,
    whether it ends normally or with an exception. *)
Lemma turn_silent fetch sub st (m : result unit) rec :
  body_ fetch sub st = (m ≫= fun _ => Ok (stored sub rec [] st)) ->
  out (run_loop_ fetch [sub] st).2 = out st.
Proof.
  intros H. cbn [run_loop]. rewrite H.
  destruct m as [[]|e]; cbn; [apply app_nil_r | reflexivity].
Qed.

Lemma direction_flat z : direction_of z z = "flat".
Proof.
  unfold direction_of. rewrite Z.ltb_irrefl.
  destruct (Z.gtb_spec z z); [lia | reflexivity].
Qed.

Lemma direction_drop price last : price < last -> direction_of price last = "drop".
Proof.
  intros H. unfold direction_of.
  destruct (Z.ltb_spec price last); [reflexivity | lia].
Qed.

Lemma direction_rise price last : last < price -> direction_of price last = "rise".
Proof.
  intros H. unfold direction_of.
  destruct (Z.ltb_spec price last); [lia|].
  destruct (Z.gtb_spec price last); [reflexivity | lia].
Qed.

(** C2: a matched flight whose record has no [last_price] sends no alert;
    the turn stores the observed price as [last_price] with
    [last_notified_price] and [last_notified_dir] set to [None]. *)
Theorem first_observation_sets_baseline fetch sub st o :
  observe fromisoformat fetch sub (store st) = Ok (Some o) ->
  o_last o = VNone ->
  body_ fetch sub st
  = Ok (stored sub (tracking (VInt (price (o_found o))) VNone VNone
                             (VStr (depart (o_found o)))) [] st).
Proof.
  intros Hobs Hlast. rewrite (body_matched _ _ _ _ Hobs).
  unfold alert_logic. rewrite Hlast, stored_nothing_sent. reflexivity.
Qed.

(** C3: a matched flight whose price equals [last_price] sends no alert,
    whatever [ALERT_MODE] and [MIN_CHANGE_PCT] are: the turn only refreshes
    [last_price] and [last_depart] (or ends in the [OverflowError] of
    [pct_move]), and the events of the pass are unchanged. *)
Theorem flat_never_alerts fetch sub st o last :
  observe fromisoformat fetch sub (store st) = Ok (Some o) ->
  o_last o = VInt last ->
  price (o_found o) = last ->
  body_ fetch sub st
  = (pct_move last last ≫= fun _ =>
     Ok (stored sub (tracking (VInt last) (o_last_notified o) (o_last_dir o)
                              (VStr (depart (o_found o)))) [] st))
  /\ out (run_loop_ fetch [sub] st).2 = out st.
Proof.
  intros Hobs Hlast Hprice.
  assert (body_ fetch sub st
          = (pct_move last last ≫= fun _ =>
             Ok (stored sub (tracking (VInt last) (o_last_notified o)
                   (o_last_dir o) (VStr (depart (o_found o)))) [] st)))
    as Hbody.
  { rewrite (body_matched _ _ _ _ Hobs). unfold alert_logic.
    rewrite Hlast, Hprice, direction_flat, stored_nothing_sent.
    destruct (pct_move last last); reflexivity. }
  split; [exact Hbody|].
  eapply (turn_silent _ _ _ (pct_move last last ≫= fun _ => Ok tt)).
  rewrite Hbody. destruct (pct_move last last); reflexivity.
Qed.

(** C4: a matched flight whose price moved in the direction that
    [ALERT_MODE] does not enable (a rise under [drop], a drop under [rise])
    sends no alert, whatever [pct_move] is: the turn only refreshes
    [last_price] and [last_depart]. *)
Theorem disabled_direction_never_alerts fetch sub st o last :
  observe fromisoformat fetch sub (store st) = Ok (Some o) ->
  o_last o = VInt last ->
  (ALERT_MODE = "drop" /\ last < price (o_found o))
  \/ (ALERT_MODE = "rise" /\ price (o_found o) < last) ->
  body_ fetch sub st
  = (pct_move (price (o_found o)) last ≫= fun _ =>
     Ok (stored sub (tracking (VInt (price (o_found o))) (o_last_notified o)
                              (o_last_dir o) (VStr (depart (o_found o))))
                [] st))
  /\ out (run_loop_ fetch [sub] st).2 = out st.
Proof.
  intros Hobs Hlast Hdir.
  assert (body_ fetch sub st
          = (pct_move (price (o_found o)) last ≫= fun _ =>
             Ok (stored sub (tracking (VInt (price (o_found o)))
                   (o_last_notified o) (o_last_dir o)
                   (VStr (depart (o_found o)))) [] st)))
    as Hbody.
  { rewrite (body_matched _ _ _ _ Hobs). unfold alert_logic.
    rewrite Hlast, stored_nothing_sent.
    destruct (pct_move (price (o_found o)) last) as [pct|e]; [|reflexivity].
    cbn [mbind result_bind].
    destruct Hdir as [[-> Hlt]|[-> Hlt]].
    - rewrite (direction_rise _ _ Hlt). reflexivity.
    - rewrite (direction_drop _ _ Hlt). reflexivity. }
  split; [exact Hbody|].
  eapply (turn_silent _ _ _
            (pct_move (price (o_found o)) last ≫= fun _ => Ok tt)).
  rewrite Hbody. destruct (pct_move (price (o_found o)) last); reflexivity.
Qed.

(** C1: for a matched flight with a [last_price] whose move is a candidate
    alert (its direction enabled by [ALERT_MODE], [pct_move] at least
    [MIN_CHANGE_PCT]), the alert is sent exactly when the new price differs
    from [last_notified_price] or the new direction from
    [last_notified_dir]; the turn that sends it stores the new price as
    [last_notified_price] and the new direction as [last_notified_dir], the
    turn that does not leaves both fields as they were. *)
Theorem candidate_alert_deduplicated fetch sub st o last pct :
  observe fromisoformat fetch sub (store st) = Ok (Some o) ->
  o_last o = VInt last ->
  pct_move (price (o_found o)) last = Ok pct ->
  (MIN_CHANGE_PCT <=? pct)%float = true ->
  (price (o_found o) < last /\ ALERT_MODE ∈ ["drop"; "both"])
  \/ (last < price (o_found o) /\ ALERT_MODE ∈ ["rise"; "both"]) ->
  let new_price := price (o_found o) in
  let direction := direction_of new_price last in
  body_ fetch sub st
  = Ok (if decide (VInt new_price <> o_last_notified o
                   \/ o_last_dir o <> VStr direction)
        then
          stored sub (tracking (VInt new_price) (VInt new_price)
                               (VStr direction) (VStr (depart (o_found o))))
            [Notify (Alert direction (o_origin o) (o_dest o) (o_date o)
                           (sub_flightNo sub) (sub_airline sub)
                           new_price last pct)] st
        else
          stored sub (tracking (VInt new_price) (o_last_notified o)
                               (o_last_dir o) (VStr (depart (o_found o))))
            [] st).
Proof.
  intros Hobs Hlast Hpct Hthr Hdir new_price direction.
  rewrite (body_matched _ _ _ _ Hobs). unfold alert_logic.
  rewrite Hlast, Hpct. cbn [mbind result_bind].
  fold new_price. fold direction. rewrite stored_nothing_sent.
  assert (should_alert_ direction pct new_price (o_last_notified o)
            (o_last_dir o)
          = bool_decide (VInt new_price <> o_last_notified o
                         \/ o_last_dir o <> VStr direction)) as ->.
  { unfold should_alert. rewrite Hthr.
    destruct Hdir as [[Hlt Hmode]|[Hlt Hmode]].
    - subst direction new_price. rewrite (direction_drop _ _ Hlt).
      rewrite (bool_decide_eq_true_2 _ Hmode). cbn [andb].
      change (bool_decide ("drop" = "drop")) with true. cbn iota.
      symmetry. apply bool_decide_or.
    - subst direction new_price. rewrite (direction_rise _ _ Hlt).
      rewrite (bool_decide_eq_true_2 _ Hmode). cbn [andb].
      change (bool_decide ("rise" = "drop")) with false.
      change (bool_decide ("rise" = "rise")) with true. cbn iota.
      symmetry. apply bool_decide_or. }
  destruct (decide (VInt new_price <> o_last_notified o
                    \/ o_last_dir o <> VStr direction)) as [H|H].
  - rewrite (bool_decide_eq_true_2 _ H). reflexivity.
  - rewrite (bool_decide_eq_false_2 _ H). reflexivity.
Qed.

(** *** Frame properties of a turn *)

Local Abbreviation main_loop_ :=
  (main_loop fromisoformat ALERT_MODE MIN_CHANGE_PCT).

(** The matcher reads the store at the tracking key only. *)
Lemma observe_local fetch sub (s1 s2 : gmap string (gmap string value)) :
  s1 !! price_key_of sub = s2 !! price_key_of sub ->
  observe fromisoformat fetch sub s1 = observe fromisoformat fetch sub s2.
Proof. intros H. unfold observe. rewrite H. reflexivity. Qed.

(** What a turn that ends normally does to the state. *)
Lemma body_ok fetch sub st st' :
  body_ fetch sub st = Ok st' ->
  (st' = st /\ unmatched fromisoformat fetch sub (store st))
  \/ (exists o rec sent,
        observe fromisoformat fetch sub (store st) = Ok (Some o)
        /\ st' = stored sub rec sent st
        /\ writes sent = []).
Proof.
  unfold body.
  destruct (observe fromisoformat fetch sub (store st)) as [[o|]|e] eqn:Hobs;
    cbn [mbind result_bind]; [| |discriminate].
  - intros H. right. exists o. unfold alert_logic in H.
    destruct (o_last o) as [|last|t]; [| |discriminate].
    + injection H as <-. eexists _, []. rewrite stored_nothing_sent. auto.
    + destruct (pct_move (price (o_found o)) last) as [pct|e];
        cbn [mbind result_bind] in H; [|discriminate].
      destruct (should_alert _ _ _ _ _ _ _); cbv iota in H;
        injection H as <-.
      * eexists _, [_]. split; [reflexivity|]. split; reflexivity.
      * eexists _, []. rewrite stored_nothing_sent. auto.
  - intros [= <-]. left. split; [reflexivity|]. intros o. rewrite Hobs.
    discriminate.
Qed.

Lemma body_frame fetch sub st st' k :
  body_ fetch sub st = Ok st' -> k <> price_key_of sub ->
  store st' !! k = store st !! k.
Proof.
  intros H Hk. destruct (body_ok _ _ _ _ H) as [[-> _]|(o & rec & sent & _ & -> & _)];
    [reflexivity|].
  cbn. apply lookup_insert_ne. congruence.
Qed.

Lemma writes_app evs1 evs2 : writes (evs1 ++ evs2) = (writes evs1 ++ writes evs2)%list.
Proof. apply omap_app. Qed.

Lemma body_writes fetch sub st st' :
  body_ fetch sub st = Ok st' -> writes (out st') = writes (out st).
Proof.
  intros H. destruct (body_ok _ _ _ _ H) as [[-> _]|(o & rec & sent & _ & -> & Hw)];
    [reflexivity|].
  cbn. rewrite writes_app, Hw. apply app_nil_r.
Qed.

Lemma run_loop_writes fetch selected :
  forall st, writes (out (run_loop_ fetch selected st).2) = writes (out st).
Proof.
  induction selected as [|sub rest IH]; intros st; [reflexivity|].
  cbn [run_loop]. destruct (body_ fetch sub st) as [st'|e] eqn:Hbody;
    [|reflexivity].
  rewrite IH. eapply body_writes; eassumption.
Qed.

(** A pass in which every subscription for the key [k] is unmatched leaves
    the record at [k] as it was, in memory. *)
Lemma run_loop_keeps fetch k selected :
  forall st,
    (forall sub, sub ∈ selected -> price_key_of sub = k ->
                 unmatched fromisoformat fetch sub (store st)) ->
    store (run_loop_ fetch selected st).2 !! k = store st !! k.
Proof.
  induction selected as [|sub rest IH]; intros st Hun; [reflexivity|].
  cbn [run_loop]. destruct (body_ fetch sub st) as [st'|e] eqn:Hbody;
    [|reflexivity].
  assert (store st' !! k = store st !! k) as Hk.
  { destruct (decide (k = price_key_of sub)) as [->|Hne].
    - destruct (body_ok _ _ _ _ Hbody) as [[-> _]|(o & _ & _ & Hobs & _)];
        [reflexivity|].
      exfalso. eapply (Hun sub); [left | reflexivity | exact Hobs].
    - eapply body_frame; eassumption. }
  rewrite IH, Hk; [reflexivity|].
  intros sub' Hin Hkey o. subst k.
  rewrite (observe_local fetch sub' (store st') (store st) Hk).
  apply Hun; [right; exact Hin | reflexivity].
Qed.

Lemma written_silent evs prices : writes evs = [] -> written evs prices = prices.
Proof.
  unfold written. revert prices.
  induction evs as [|[msg|s] evs IH]; intros prices H;
    [reflexivity | apply IH; exact H | discriminate].
Qed.

Lemma written_last evs s prices :
  writes evs = [] -> written (evs ++ [SetStore s]) prices = s.
Proof.
  intros H. unfold written. rewrite fold_left_app.
  fold (written evs prices). reflexivity.
Qed.

Lemma check_once_keeps fetch k selected prices :
  (forall sub, sub ∈ selected -> price_key_of sub = k ->
               unmatched fromisoformat fetch sub prices) ->
  written (check_once_ fetch selected prices).2 prices !! k = prices !! k.
Proof.
  intros Hun. unfold check_once.
  destruct selected as [|sub0 rest0]; [reflexivity|].
  pose proof (run_loop_writes fetch (sub0 :: rest0) (Loop prices false []))
    as Hw.
  pose proof (run_loop_keeps fetch k (sub0 :: rest0) (Loop prices false [])
                Hun) as Hk.
  destruct (run_loop_ fetch (sub0 :: rest0) (Loop prices false []))
    as [[e|] st]; cbn [snd] in *.
  - rewrite written_silent; [reflexivity | exact Hw].
  - destruct (changed st).
    + rewrite written_last; [exact Hk | exact Hw].
    + rewrite written_silent; [reflexivity | exact Hw].
Qed.

Lemma unmatched_local fetch sub (s1 s2 : gmap string (gmap string value)) :
  s1 !! price_key_of sub = s2 !! price_key_of sub ->
  unmatched fromisoformat fetch sub s1 -> unmatched fromisoformat fetch sub s2.
Proof.
  intros H Hun o. rewrite <- (observe_local fetch sub s1 s2 H). apply Hun.
Qed.

(** Passes in which every subscription for the key [k] is unmatched leave
    the record at [k] in [prices.json] as it was. *)
Lemma main_loop_keeps k cycles :
  forall prices p0 : gmap string (gmap string value),
    prices !! k = p0 !! k ->
    (forall fetch selected sub,
       (fetch, selected) ∈ cycles -> sub ∈ selected ->
       price_key_of sub = k -> unmatched fromisoformat fetch sub p0) ->
    (main_loop_ cycles prices).1.2 !! k = p0 !! k.
Proof.
  induction cycles as [|[fetch selected] rest IH]; intros prices p0 Hk Hun;
    [exact Hk|].
  cbn [main_loop].
  assert (written (check_once_ fetch selected prices).2 prices !! k
          = p0 !! k) as Hk'.
  { rewrite check_once_keeps; [exact Hk|].
    intros sub Hin Hkey. apply (unmatched_local fetch sub p0 prices).
    - rewrite Hkey. symmetry. exact Hk.
    - eapply Hun; [left | exact Hin | exact Hkey]. }
  destruct (check_once_ fetch selected prices) as [[e|] evs];
    cbn [snd] in Hk'; [exact Hk'|].
  specialize (IH (written evs prices) p0 Hk').
  destruct (main_loop_ rest (written evs prices)) as [[e' p] evs'].
  apply IH. intros f sel sub Hc. apply Hun. right. exact Hc.
Qed.

(** C7: a turn in which no tier of the matcher yields a candidate leaves
    the whole state of the pass, and with it the tracking record of the
    flight, as it was; and over any number of consecutive passes in which
    the flight is unmatched, its record in the price store stays equal to
    the one before the first of them. *)
Theorem unmatched_record_untouched :
  (forall fetch sub st,
     unmatched fromisoformat fetch sub (store st) ->
     (run_loop_ fetch [sub] st).2 = st)
  /\ (forall cycles prices k,
        (forall fetch selected sub,
           (fetch, selected) ∈ cycles -> sub ∈ selected ->
           price_key_of sub = k ->
           unmatched fromisoformat fetch sub prices) ->
        (main_loop_ cycles prices).1.2 !! k = prices !! k).
Proof.
  split.
  - intros fetch sub st Hun. cbn [run_loop].
    destruct (body_ fetch sub st) as [st'|e] eqn:Hbody; [|reflexivity].
    destruct (body_ok _ _ _ _ Hbody) as [[-> _]|(o & _ & _ & Hobs & _)];
      [reflexivity|].
    destruct (Hun o Hobs).
  - intros cycles prices k Hun. apply main_loop_keeps; [reflexivity|].
    exact Hun.
Qed.

(** *** Persistence *)

Lemma run_loop_app fetch pre l :
  forall st0 st1,
    run_loop_ fetch pre st0 = (None, st1) ->
    run_loop_ fetch (pre ++ l) st0 = run_loop_ fetch l st1.
Proof.
  induction pre as [|sub pre IH]; intros st0 st1 H.
  - injection H as ->. reflexivity.
  - cbn [run_loop app] in *.
    destruct (body_ fetch sub st0) as [st'|e]; [auto | discriminate].
Qed.

Lemma body_changed fetch sub st st' :
  body_ fetch sub st = Ok st' -> changed st = true -> changed st' = true.
Proof.
  intros H Hc.
  destruct (body_ok _ _ _ _ H) as [[-> _]|(o & rec & sent & _ & -> & _)];
    [exact Hc | reflexivity].
Qed.

Lemma run_loop_changed fetch selected :
  forall st0 st,
    run_loop_ fetch selected st0 = (None, st) ->
    changed st0 = true -> changed st = true.
Proof.
  induction selected as [|sub rest IH]; intros st0 st H Hc.
  - injection H as <-. exact Hc.
  - cbn [run_loop] in H.
    destruct (body_ fetch sub st0) as [st'|e] eqn:Hbody; [|discriminate].
    eapply IH; [exact H|]. eapply body_changed; eassumption.
Qed.

(** A pass that ends with the flag [changed] down has not touched its
    state. *)
Lemma run_loop_unchanged fetch selected :
  forall st0 st,
    run_loop_ fetch selected st0 = (None, st) ->
    changed st = false -> st = st0.
Proof.
  induction selected as [|sub rest IH]; intros st0 st H Hc.
  - injection H as <-. reflexivity.
  - cbn [run_loop] in H.
    destruct (body_ fetch sub st0) as [st'|e] eqn:Hbody; [|discriminate].
    destruct (body_ok _ _ _ _ Hbody)
      as [[-> _]|(o & rec & sent & _ & -> & _)]; [eauto|].
    rewrite (run_loop_changed _ _ _ _ H) in Hc; [discriminate | reflexivity].
Qed.

(** The flag [changed] goes up in a turn that matches its flight, and in
    no other. *)
Lemma run_loop_flag fetch selected :
  forall st0 st,
    run_loop_ fetch selected st0 = (None, st) ->
    changed st = true ->
    changed st0 = true
    \/ exists pre sub post st1 o,
         selected = (pre ++ sub :: post)%list
         /\ run_loop_ fetch pre st0 = (None, st1)
         /\ observe fromisoformat fetch sub (store st1) = Ok (Some o).
Proof.
  induction selected as [|sub rest IH]; intros st0 st H Hc.
  - injection H as <-. left. exact Hc.
  - cbn [run_loop] in H.
    destruct (body_ fetch sub st0) as [st'|e] eqn:Hbody; [|discriminate].
    destruct (body_ok _ _ _ _ Hbody)
      as [[-> _]|(o & rec & sent & Hobs & -> & _)].
    + destruct (IH _ _ H Hc) as [?|(pre & s' & post & st1 & o & -> & Hr & Ho)];
        [left; assumption|].
      right. exists (sub :: pre), s', post, st1, o.
      split; [reflexivity|]. split; [|exact Ho].
      cbn [run_loop]. rewrite Hbody. exact Hr.
    + right. exists [], sub, rest, st0, o. auto.
Qed.

Lemma matched_raises_flag fetch selected prices st :
  run_loop_ fetch selected (Loop prices false []) = (None, st) ->
  matched_during fromisoformat ALERT_MODE MIN_CHANGE_PCT fetch selected prices
  <-> changed st = true.
Proof.
  intros H. split.
  - intros (pre & sub & post & st1 & o & -> & Hpre & Hobs).
    rewrite (run_loop_app _ _ _ _ _ Hpre) in H. cbn [run_loop] in H.
    destruct (body_ fetch sub st1) as [st2|e] eqn:Hbody; [|discriminate].
    eapply run_loop_changed; [exact H|].
    destruct (body_ok _ _ _ _ Hbody)
      as [[_ Hun]|(o' & rec & sent & _ & -> & _)]; [|reflexivity].
    destruct (Hun o Hobs).
  - intros Hc. destruct (run_loop_flag _ _ _ _ H Hc) as [Hf|Hm];
      [discriminate | exact Hm].
Qed.

(** C8, amended: a pass that runs to its end writes the price store, once
    and as its last action, exactly when some subscription was matched
    during the pass (whether or not the record it stores differs from the
    one loaded); with no match nothing is written and the store in memory
    is the one that was loaded. *)
Theorem store_written_iff_matched fetch selected prices st :
  run_loop_ fetch selected (Loop prices false []) = (None, st) ->
  let evs := (check_once_ fetch selected prices).2 in
  (matched_during fromisoformat ALERT_MODE MIN_CHANGE_PCT fetch selected
     prices ->
   evs = (out st ++ [SetStore (store st)])%list /\ writes evs = [store st])
  /\ (~ matched_during fromisoformat ALERT_MODE MIN_CHANGE_PCT fetch selected
         prices ->
      evs = out st /\ writes evs = [] /\ store st = prices).
Proof.
  intros Hrun evs.
  pose proof (matched_raises_flag _ _ _ _ Hrun) as Hflag.
  pose proof (run_loop_writes fetch selected (Loop prices false [])) as Hw.
  rewrite Hrun in Hw. cbn in Hw.
  assert (evs = if changed st then (out st ++ [SetStore (store st)])%list
                else out st) as Hevs.
  { subst evs. unfold check_once. destruct selected as [|sub rest].
    - injection Hrun as <-. reflexivity.
    - rewrite Hrun. reflexivity. }
  split.
  - intros Hm. apply Hflag in Hm. rewrite Hm in Hevs. split; [exact Hevs|].
    rewrite Hevs, writes_app, Hw. reflexivity.
  - intros Hm. destruct (changed st) eqn:Hc.
    + destruct Hm. apply Hflag. reflexivity.
    + rewrite Hevs. split; [reflexivity|]. split; [exact Hw|].
      rewrite (run_loop_unchanged _ _ _ _ Hrun Hc). reflexivity.
Qed.


End Alerts.

(** ** The statements at work on the example data *)

(** Two passes under [ALERT_MODE = "drop"] and a threshold of 1%: a flight
    last seen at 5000 drops to 4900 (2%, an alert), then rises to 4950 (no
    alert; [last_price] follows, the notified fields stay). *)
Example drop_then_rise :
  main_loop parse_minutes "drop" 1
    [(ex_fetch, [ex_sub]); (ex_fetch_next, [ex_sub])]
    (ex_store (VInt 5000) VNone VNone)
  = (None,
     ex_store (VInt 4950) (VInt 4900) (VStr "drop"),
     [Notify (Alert "drop" "DEL" "BLR" "2025-08-25" "6E200" "IndiGo"
                    4900 5000 2);
      SetStore (ex_store (VInt 4900) (VInt 4900) (VStr "drop"));
      SetStore (ex_store (VInt 4950) (VInt 4900) (VStr "drop"))]).
Proof. vm_compute. reflexivity. Qed.

(** A renumbered flight is found again by its airline and departure time;
    a flight never seen before snaps to the first of the cheapest. *)
Example renumbered_matches :
  match resolve parse_minutes ex_renumbered "6E200" "IndiGo"
          (VInt 4900) (VStr "2025-08-25T10:00") with
  | Ok (Some f) => flightNo f = "6E207"
  | _ => False
  end
  /\ match resolve parse_minutes ex_renumbered "6E200" "IndiGo"
            VNone VNone with
     | Ok (Some f) => flightNo f = "6E777"
     | _ => False
     end.
Proof. split; vm_compute; reflexivity. Qed.

Lemma first_observation_sets_baseline_witness :
  observe parse_minutes ex_fetch ex_sub ∅
  = Ok (Some (ex_obs VNone VNone VNone VNone))
  /\ body parse_minutes "drop" 1 ex_fetch ex_sub (Loop ∅ false [])
     = Ok (stored ex_sub (tracking (VInt 4900) VNone VNone
                                   (VStr "2025-08-25T10:00"))
                  [] (Loop ∅ false [])).
Proof.
  split; [vm_compute; reflexivity|].
  apply (first_observation_sets_baseline parse_minutes "drop" 1 ex_fetch
           ex_sub (Loop ∅ false []) (ex_obs VNone VNone VNone VNone)).
  - vm_compute. reflexivity.
  - reflexivity.
Defined.

Lemma flat_never_alerts_witness :
  out (run_loop parse_minutes "both" 0 ex_fetch [ex_sub]
         (Loop (ex_store (VInt 4900) VNone VNone) false [])).2 = [].
Proof.
  apply (flat_never_alerts parse_minutes "both" 0 ex_fetch ex_sub
           (Loop (ex_store (VInt 4900) VNone VNone) false [])
           (ex_obs (VInt 4900) VNone VNone (VStr "2025-08-25T10:00")) 4900).
  - vm_compute. reflexivity.
  - reflexivity.
  - reflexivity.
Defined.

Lemma disabled_direction_never_alerts_witness :
  out (run_loop parse_minutes "drop" 1 ex_fetch [ex_sub]
         (Loop (ex_store (VInt 4000) VNone VNone) false [])).2 = [].
Proof.
  apply (disabled_direction_never_alerts parse_minutes "drop" 1 ex_fetch
           ex_sub (Loop (ex_store (VInt 4000) VNone VNone) false [])
           (ex_obs (VInt 4000) VNone VNone (VStr "2025-08-25T10:00")) 4000).
  - vm_compute. reflexivity.
  - reflexivity.
  - left. split; [reflexivity | cbn; lia].
Defined.

Lemma candidate_alert_deduplicated_witness :
  body parse_minutes "drop" 1 ex_fetch ex_sub
       (Loop (ex_store (VInt 5000) VNone VNone) false [])
  = Ok (stored ex_sub
          (tracking (VInt 4900) (VInt 4900) (VStr "drop")
                    (VStr "2025-08-25T10:00"))
          [Notify (Alert "drop" "DEL" "BLR" "2025-08-25" "6E200" "IndiGo"
                         4900 5000 2)]
          (Loop (ex_store (VInt 5000) VNone VNone) false [])).
Proof.
  apply (candidate_alert_deduplicated parse_minutes "drop" 1 ex_fetch ex_sub
           (Loop (ex_store (VInt 5000) VNone VNone) false [])
           (ex_obs (VInt 5000) VNone VNone (VStr "2025-08-25T10:00"))
           5000 2).
  - vm_compute. reflexivity.
  - reflexivity.
  - vm_compute. reflexivity.
  - vm_compute. reflexivity.
  - left. split; [cbn; lia | left].
Defined.



Lemma fallback_skips_malformed_witness :
  find_fallback parse_minutes ex_renumbered "IndiGo" (VStr "yesterday")
  = Ok None.
Proof.
  apply (proj1 (fallback_skips_malformed parse_minutes ex_renumbered "IndiGo"
                  (VStr "yesterday"))).
  vm_compute. reflexivity.
Defined.

Lemma auto_snap_first_observation_only_witness :
  resolve parse_minutes ex_renumbered "6E200" "IndiGo" (VInt 4900)
          (VStr "2025-08-25T15:00") = Ok None.
Proof.
  apply (proj2 (auto_snap_first_observation_only parse_minutes ex_renumbered
                  "6E200" "IndiGo" (VInt 4900) (VStr "2025-08-25T15:00")
                  (Flight "" "" "" "" "" 0))).
  - discriminate.
  - reflexivity.
  - vm_compute. reflexivity.
Defined.

Lemma unmatched_record_untouched_witness :
  (main_loop parse_minutes "both" 0
     [(ex_fetch_nothing, [ex_sub]); (ex_fetch_others, [ex_sub]);
      (ex_fetch_nothing, [ex_sub])]
     (ex_store (VInt 4900) (VInt 4900) (VStr "drop"))).1.2
    !! "DEL-BLR-2025-08-25#6E200"
  = ex_store (VInt 4900) (VInt 4900) (VStr "drop")
      !! "DEL-BLR-2025-08-25#6E200".
Proof.
  apply (proj2 (unmatched_record_untouched parse_minutes "both" 0)).
  intros fetch selected sub Hc Hs _ o.
  set_unfold in Hc.
  destruct Hc as [[= -> ->]|[[= -> ->]|[[= -> ->]|[]]]];
    apply list_elem_of_singleton in Hs as ->; vm_compute; discriminate.
Defined.

Lemma store_written_iff_matched_witness :
  writes (check_once parse_minutes "drop" 1 ex_fetch [ex_sub]
            (ex_store (VInt 5000) VNone VNone)).2
  = [ex_store (VInt 4900) (VInt 4900) (VStr "drop")].
Proof.
  apply (proj1 (store_written_iff_matched parse_minutes "drop" 1 ex_fetch
                  [ex_sub] (ex_store (VInt 5000) VNone VNone)
                  (Loop (ex_store (VInt 4900) (VInt 4900) (VStr "drop")) true
                     [Notify (Alert "drop" "DEL" "BLR" "2025-08-25" "6E200"
                                    "IndiGo" 4900 5000 2)])
                  ltac:(vm_compute; reflexivity))).
  exists [], ex_sub, [], (Loop (ex_store (VInt 5000) VNone VNone) false []),
    (ex_obs (VInt 5000) VNone VNone (VStr "2025-08-25T10:00")).
  split; [reflexivity|]. split; [reflexivity|]. vm_compute. reflexivity.
Defined.

(** C8 as stated fails: with the price and the departure of the flight as
    they were stored, no record changes value, and the pass still writes
    the store. *)
Lemma store_written_without_change :
  let prices := ex_store (VInt 4900) VNone VNone in
  exists s,
    check_once parse_minutes "drop" 1 ex_fetch [ex_sub] prices
    = (None, [SetStore s])
    /\ s = prices.
Proof.
  exists (ex_store (VInt 4900) VNone VNone). split; [|reflexivity].
  vm_compute. reflexivity.
Qed.



(** ** Subscription keys *)

Lemma split_dash_join a b :
  dash_free a = true -> split_dash (a +:+ String "-" b) = Some (a, b).
Proof.
  induction a as [|c a IH]; intros H; [reflexivity|].
  cbn in H. apply andb_true_iff in H as [Hc Ha].
  change (String c a +:+ String "-" b) with (String c (a +:+ String "-" b)).
  cbn [split_dash].
  destruct (bool_decide (c = "-"%char)); [discriminate|].
  rewrite (IH Ha). reflexivity.
Qed.

Lemma split_dash_inv s :
  forall a b, split_dash s = Some (a, b) ->
    s = a +:+ String "-" b /\ dash_free a = true.
Proof.
  induction s as [|c s IH]; intros a b H; [discriminate|].
  cbn [split_dash] in H. case_bool_decide as Hc.
  - injection H as <- <-. subst c. split; reflexivity.
  - destruct (split_dash s) as [[a' b']|]; [|discriminate].
    injection H as <- <-. destruct (IH a' b' eq_refl) as [-> Ha].
    split; [reflexivity|]. cbn [dash_free].
    rewrite (bool_decide_eq_false_2 _ Hc), Ha. reflexivity.
Qed.

(** X1: [key.split("-",2)] unpacks into three parts exactly when the key is
    [origin-dest-date] with no dash in [origin] and [dest]; the date keeps
    its own dashes. *)
Theorem split_key_joins key origin dest date :
  split_key key = Some (origin, dest, date)
  <-> key = origin +:+ "-" +:+ dest +:+ "-" +:+ date
      /\ dash_free origin = true /\ dash_free dest = true.
Proof.
  unfold split_key. split.
  - destruct (split_dash key) as [[o r]|] eqn:H1; [|discriminate].
    destruct (split_dash r) as [[d dt]|] eqn:H2; [|discriminate].
    intros [= <- <- <-].
    destruct (split_dash_inv _ _ _ H1) as [-> Ho].
    destruct (split_dash_inv _ _ _ H2) as [-> Hd]. auto.
  - intros (-> & Ho & Hd).
    change ("-" +:+ dest +:+ "-" +:+ date)
      with (String "-" (dest +:+ String "-" date)).
    rewrite (split_dash_join _ _ Ho), (split_dash_join _ _ Hd). reflexivity.
Qed.

(** ** More on the matcher *)

Section MatcherMore.

Variable fromisoformat : string -> option datetime.

Lemma find_exact_some flights flight_no f :
  find_exact flights flight_no = Some f ->
  f ∈ flights /\ flightNo f = flight_no.
Proof.
  intros H. apply find_some in H as [Hin Hno].
  split; [apply list_elem_of_In; exact Hin|].
  apply bool_decide_eq_true in Hno. exact Hno.
Qed.

Lemma find_exact_none flights flight_no :
  find_exact flights flight_no = None ->
  forall g, g ∈ flights -> flightNo g <> flight_no.
Proof.
  intros H g Hg Hno.
  pose proof (find_none _ _ H g (proj1 (list_elem_of_In _ _) Hg)) as Hf.
  cbn in Hf. rewrite (bool_decide_eq_true_2 _ Hno) in Hf. discriminate.
Qed.

Lemma find_exact_first l1 f l2 flight_no :
  flightNo f = flight_no ->
  (forall g, g ∈ l1 -> flightNo g <> flight_no) ->
  find_exact (l1 ++ f :: l2) flight_no = Some f.
Proof.
  intros Hf. unfold find_exact.
  induction l1 as [|g l1 IH]; intros Hl1; cbn [app find].
  - rewrite (bool_decide_eq_true_2 _ Hf). reflexivity.
  - rewrite bool_decide_eq_false_2; [|apply Hl1; left].
    apply IH. intros h Hh. apply Hl1. right. exact Hh.
Qed.

(** What a successful [find_fallback] says about its arguments and its
    result. *)
Lemma find_fallback_guards flights name v :
  find_fallback fromisoformat flights name v <> Ok None ->
  name <> ""
  /\ exists s target,
       v = VStr s /\ s <> "" /\ fromisoformat s = Some target.
Proof.
  intros H. unfold find_fallback in H.
  destruct (decide (name = "")) as [->|Hn]; [contradiction|].
  split; [exact Hn|]. rewrite (truthy_name name Hn) in H.
  cbn [negb orb] in H.
  destruct v as [|z|s];
    [contradiction | destruct (negb (truthy (VInt z))); contradiction |].
  destruct (decide (s = "")) as [->|Hs]; [contradiction|].
  rewrite (truthy_name s Hs) in H. cbn [negb] in H.
  destruct (fromisoformat s) as [target|] eqn:Ht; [|contradiction].
  exists s, target. auto.
Qed.

Lemma find_fallback_some flights name v f :
  find_fallback fromisoformat flights name v = Ok (Some f) ->
  name <> ""
  /\ exists s target d,
       v = VStr s /\ s <> "" /\ fromisoformat s = Some target
       /\ forallb (comparable fromisoformat target)
            (List.filter (same_airline name) flights) = true
       /\ first_closest fromisoformat target
            (List.filter (same_airline name) flights) f d
       /\ d <= seconds 900.
Proof.
  intros H.
  destruct (find_fallback_guards flights name v)
    as (Hname & s & target & -> & Hs & Ht); [rewrite H; discriminate|].
  split; [exact Hname|].
  pose proof (find_fallback_spec fromisoformat flights name s target
                Hname Hs Ht) as Hspec.
  rewrite H in Hspec. destruct Hspec as (Hfits & d & Hfirst & Hd).
  exists s, target, d. auto 6.
Qed.

(** The one exception of [find_fallback]: the [TypeError] of a candidate
    of the airline whose departure cannot be subtracted from
    [last_depart]. *)
Lemma find_fallback_raises flights name v e :
  find_fallback fromisoformat flights name v = Raise e ->
  e = TypeError
  /\ name <> ""
  /\ exists s target g,
       v = VStr s /\ fromisoformat s = Some target
       /\ g ∈ flights /\ same_airline name g = true
       /\ comparable fromisoformat target g = false.
Proof.
  intros H.
  destruct (find_fallback_guards flights name v)
    as (Hname & s & target & -> & Hs & Ht); [rewrite H; discriminate|].
  pose proof (find_fallback_spec fromisoformat flights name s target
                Hname Hs Ht) as Hspec.
  rewrite H in Hspec. destruct Hspec as [-> Hfits].
  split; [reflexivity|]. split; [exact Hname|].
  apply forallb_false in Hfits as (g & Hg & Hfit).
  apply list_elem_of_In, filter_In in Hg as [Hg Hsame].
  exists s, target, g. rewrite list_elem_of_In. auto.
Qed.

Lemma first_closest_elem target l f d :
  first_closest fromisoformat target l f d -> f ∈ l.
Proof.
  intros (l1 & l2 & -> & _). apply elem_of_app. right. left.
Qed.

Lemma first_cheapest_elem l f : first_cheapest l f -> f ∈ l.
Proof.
  intros (l1 & l2 & -> & _). apply elem_of_app. right. left.
Qed.

Lemma elem_of_same_airline name flights (f : flight) :
  f ∈ List.filter (same_airline name) flights <->
  f ∈ flights /\ same_airline name f = true.
Proof.
  rewrite !list_elem_of_In. apply filter_In.
Qed.

(** X2: the first candidate that carries the subscribed flight number is
    the match, whatever the store holds for the flight, whichever airline
    the subscription names and however close or cheap the other candidates
    are. *)
Theorem exact_match_preempts l1 f l2 flight_no name last last_depart :
  flightNo f = flight_no ->
  (forall g, g ∈ l1 -> flightNo g <> flight_no) ->
  resolve fromisoformat (l1 ++ f :: l2) flight_no name last last_depart
  = Ok (Some f).
Proof.
  intros Hf Hl1. unfold resolve.
  rewrite (find_exact_first l1 f l2 flight_no Hf Hl1). reflexivity.
Qed.

(** The match of a cycle is one of the candidates. *)
Lemma resolve_elem flights flight_no name last last_depart f :
  resolve fromisoformat flights flight_no name last last_depart
  = Ok (Some f) ->
  f ∈ flights.
Proof.
  unfold resolve.
  destruct (find_exact flights flight_no) as [e|] eqn:He;
    cbn [mbind result_bind].
  { intros [= <-]. apply (find_exact_some _ _ _ He). }
  destruct (find_fallback fromisoformat flights name last_depart)
    as [[b|]|err] eqn:Hb; cbn [mbind result_bind]; [| |discriminate].
  { intros [= <-].
    destruct (find_fallback_some _ _ _ _ Hb)
      as (_ & s & target & d & _ & _ & _ & _ & Hfirst & _).
    apply first_closest_elem, elem_of_same_airline in Hfirst as [? _].
    assumption. }
  destruct (is_none last && truthy (VStr name)); [|discriminate].
  destruct (List.filter (same_airline name) flights) as [|c cs] eqn:Hsame;
    [discriminate|].
  intros [= <-].
  pose proof (first_cheapest_elem _ _ (min_price_first_cheapest c cs)) as Hin.
  rewrite <- Hsame in Hin. apply elem_of_same_airline in Hin as [? _].
  assumption.
Qed.

(** An exception of the matcher is one of its fallback tier. *)
Lemma resolve_raises flights flight_no name last last_depart e :
  resolve fromisoformat flights flight_no name last last_depart = Raise e ->
  find_fallback fromisoformat flights name last_depart = Raise e.
Proof.
  unfold resolve.
  destruct (find_exact flights flight_no); cbn [mbind result_bind];
    [discriminate|].
  destruct (find_fallback fromisoformat flights name last_depart)
    as [[b|]|err]; cbn [mbind result_bind]; [discriminate| |auto].
  destruct (is_none last && truthy (VStr name)); [|discriminate].
  destruct (List.filter (same_airline name) flights); discriminate.
Qed.

(** X3: the matcher never makes a flight up, and never crosses airlines: a
    match is one of the candidates, and it carries the subscribed flight
    number or is of the airline that the subscription names.  When there is
    no match, no candidate carries the flight number and, for a flight not
    seen before, none is of the named airline.  When the matcher raises, it
    is the [TypeError] of the fallback tier, and no candidate carries the
    flight number. *)
Theorem resolve_sound flights flight_no name last last_depart :
  match resolve fromisoformat flights flight_no name last last_depart with
  | Ok (Some f) =>
      f ∈ flights
      /\ (flightNo f = flight_no
          \/ (name <> "" /\ same_airline name f = true))
  | Ok None =>
      (forall g, g ∈ flights -> flightNo g <> flight_no)
      /\ (last = VNone -> name <> "" ->
          forall g, g ∈ flights -> same_airline name g = false)
  | Raise e =>
      e = TypeError
      /\ (forall g, g ∈ flights -> flightNo g <> flight_no)
  end.
Proof.
  unfold resolve.
  destruct (find_exact flights flight_no) as [e|] eqn:He;
    cbn [mbind result_bind].
  { destruct (find_exact_some _ _ _ He). auto. }
  pose proof (find_exact_none _ _ He) as Hno.
  destruct (find_fallback fromisoformat flights name last_depart)
    as [[b|]|err] eqn:Hb; cbn [mbind result_bind].
  { destruct (find_fallback_some _ _ _ _ Hb)
      as (Hname & s & target & d & _ & _ & _ & _ & Hfirst & _).
    apply first_closest_elem, elem_of_same_airline in Hfirst as [? ?].
    auto. }
  2:{ destruct (find_fallback_raises _ _ _ _ Hb) as [-> _]. auto. }
  destruct last as [|z|t]; cbn [is_none andb]; try (split; [exact Hno|]);
    try discriminate.
  destruct (decide (name = "")) as [->|Hname];
    [cbn; split; [exact Hno | congruence]|].
  rewrite (truthy_name name Hname).
  destruct (List.filter (same_airline name) flights) as [|c cs] eqn:Hsame.
  - split; [exact Hno|]. intros _ _ g Hg.
    destruct (same_airline name g) eqn:Hg'; [|reflexivity].
    assert (g ∈ List.filter (same_airline name) flights) as Hin
      by (apply elem_of_same_airline; auto).
    rewrite Hsame in Hin. inversion Hin.
  - pose proof (first_cheapest_elem _ _ (min_price_first_cheapest c cs))
      as Hin.
    rewrite <- Hsame in Hin. apply elem_of_same_airline in Hin as [? ?].
    auto.
Qed.

End MatcherMore.

(** ** More on the cycle *)

Lemma tracking_last_price a b c d : tracking a b c d !! "last_price" = Some a.
Proof. apply lookup_insert_eq. Qed.

Lemma tracking_last_notified_price a b c d :
  tracking a b c d !! "last_notified_price" = Some b.
Proof.
  unfold tracking. rewrite lookup_insert_ne by discriminate.
  apply lookup_insert_eq.
Qed.

Lemma tracking_last_notified_dir a b c d :
  tracking a b c d !! "last_notified_dir" = Some c.
Proof.
  unfold tracking. rewrite !lookup_insert_ne by discriminate.
  apply lookup_insert_eq.
Qed.

Lemma tracking_last_depart a b c d : tracking a b c d !! "last_depart" = Some d.
Proof.
  unfold tracking. rewrite !lookup_insert_ne by discriminate.
  apply lookup_insert_eq.
Qed.

Lemma pct_move_raises price last e :
  pct_move price last = Raise e -> e = OverflowError.
Proof.
  unfold pct_move, float_of_int. destruct (last <=? 0); [discriminate|].
  repeat (destruct (PrimFloat.is_infinity _); cbn [mbind result_bind]);
    congruence.
Qed.

Lemma pct_move_nonpositive price last : last <= 0 -> pct_move price last = Ok 0%float.
Proof.
  intros H. unfold pct_move. destruct (Z.leb_spec last 0); [reflexivity | lia].
Qed.

Lemma direction_of_drop price last :
  direction_of price last = "drop" <-> price < last.
Proof.
  unfold direction_of. destruct (Z.ltb_spec price last).
  - tauto.
  - destruct (price >? last); split; (discriminate || lia).
Qed.

Lemma direction_of_rise price last :
  direction_of price last = "rise" <-> last < price.
Proof.
  unfold direction_of. destruct (Z.ltb_spec price last).
  - split; (discriminate || lia).
  - destruct (Z.gtb_spec price last); split; (discriminate || lia || auto).
Qed.

Section CycleMore.

Variable fromisoformat : string -> option datetime.
Variable ALERT_MODE : string.
Variable MIN_CHANGE_PCT : float.

Local Abbreviation body_ := (body fromisoformat ALERT_MODE MIN_CHANGE_PCT).
Local Abbreviation run_loop_ :=
  (run_loop fromisoformat ALERT_MODE MIN_CHANGE_PCT).
Local Abbreviation check_once_ :=
  (check_once fromisoformat ALERT_MODE MIN_CHANGE_PCT).
Local Abbreviation main_loop_ :=
  (main_loop fromisoformat ALERT_MODE MIN_CHANGE_PCT).
Local Abbreviation justified_ := (justified ALERT_MODE MIN_CHANGE_PCT).

(** What [should_alert] requires. *)
Lemma should_alert_true direction pct price last_notified last_dir :
  should_alert ALERT_MODE MIN_CHANGE_PCT direction pct price last_notified
    last_dir = true ->
  (MIN_CHANGE_PCT <=? pct)%float = true
  /\ ((direction = "drop" /\ ALERT_MODE ∈ ["drop"; "both"])
      \/ (direction = "rise" /\ ALERT_MODE ∈ ["rise"; "both"]))
  /\ (VInt price <> last_notified \/ last_dir <> VStr direction).
Proof.
  unfold should_alert.
  destruct (bool_decide (direction = "drop")) eqn:Hd;
    [apply bool_decide_eq_true in Hd|]; cbn [andb].
  - destruct (bool_decide (ALERT_MODE ∈ ["drop"; "both"])) eqn:Hm;
      [apply bool_decide_eq_true in Hm|]; cbn [andb].
    + destruct (MIN_CHANGE_PCT <=? pct)%float; cbn [andb].
      * intros H. apply orb_true_iff in H. subst direction.
        split; [reflexivity|]. split; [auto|].
        destruct H as [H|H]; apply bool_decide_eq_true in H; auto.
      * subst direction.
        change (bool_decide ("drop" = "rise")) with false. discriminate.
    + subst direction.
      change (bool_decide ("drop" = "rise")) with false. discriminate.
  - destruct (bool_decide (direction = "rise")) eqn:Hr;
      [apply bool_decide_eq_true in Hr|discriminate]; cbn [andb].
    destruct (bool_decide (ALERT_MODE ∈ ["rise"; "both"])) eqn:Hm;
      [apply bool_decide_eq_true in Hm|discriminate]; cbn [andb].
    destruct (MIN_CHANGE_PCT <=? pct)%float; cbn [andb]; [|discriminate].
    intros H. apply orb_true_iff in H. subst direction.
    split; [reflexivity|]. split; [auto|].
    destruct H as [H|H]; apply bool_decide_eq_true in H; auto.
Qed.

(** What a turn has read and matched when it reaches the alert logic. *)
Lemma observe_some fetch sub (prices : gmap string (gmap string value)) o :
  observe fromisoformat fetch sub prices = Ok (Some o) ->
  split_key (sub_key sub) = Some (o_origin o, o_dest o, o_date o)
  /\ (let prev := default blank (prices !! price_key_of sub) in
      prev !! "last_price" = Some (o_last o)
      /\ prev !! "last_notified_price" = Some (o_last_notified o)
      /\ get prev "last_notified_dir" = o_last_dir o
      /\ prev !! "last_depart" = Some (o_last_depart o))
  /\ resolve fromisoformat (fetch (o_origin o) (o_dest o) (o_date o))
       (sub_flightNo sub) (sub_airline sub) (o_last o) (o_last_depart o)
     = Ok (Some (o_found o)).
Proof.
  unfold observe.
  destruct (split_key (sub_key sub)) as [[[origin dest] date]|];
    [|discriminate].
  set (prev := default blank (prices !! price_key_of sub)).
  unfold getitem.
  destruct (prev !! "last_price") as [v1|]; [|discriminate].
  destruct (prev !! "last_notified_price") as [v2|]; [|discriminate].
  destruct (prev !! "last_depart") as [v3|]; [|discriminate].
  cbn [mbind result_bind].
  destruct (resolve fromisoformat (fetch origin dest date) (sub_flightNo sub)
              (sub_airline sub) v1 v3) as [[found|]|err] eqn:Hr;
    cbn [mbind result_bind]; [|discriminate..].
  intros [= <-]. cbn. auto 10.
Qed.

(** The three ways in which the alert logic ends normally. *)
Lemma alert_logic_ok sub o st st' :
  alert_logic ALERT_MODE MIN_CHANGE_PCT sub o st = Ok st' ->
  let new_price := price (o_found o) in
  let depart_iso := VStr (depart (o_found o)) in
  (o_last o = VNone
   /\ st' = stored sub (tracking (VInt new_price) VNone VNone depart_iso)
              [] st)
  \/ (exists last,
        o_last o = VInt last
        /\ st' = stored sub
                   (tracking (VInt new_price) (o_last_notified o)
                             (o_last_dir o) depart_iso) [] st)
  \/ (exists last pct,
        o_last o = VInt last
        /\ pct_move new_price last = Ok pct
        /\ should_alert ALERT_MODE MIN_CHANGE_PCT
             (direction_of new_price last) pct new_price (o_last_notified o)
             (o_last_dir o) = true
        /\ st' = stored sub
                   (tracking (VInt new_price) (VInt new_price)
                             (VStr (direction_of new_price last)) depart_iso)
                   [Notify (Alert (direction_of new_price last) (o_origin o)
                              (o_dest o) (o_date o) (sub_flightNo sub)
                              (sub_airline sub) new_price last pct)] st).
Proof.
  intros H new_price depart_iso. unfold alert_logic in H.
  subst new_price depart_iso.
  destruct (o_last o) as [|last|t]; [| |discriminate].
  - left. injection H as <-. rewrite stored_nothing_sent. auto.
  - right.
    destruct (pct_move (price (o_found o)) last) as [pct|e] eqn:Hpct;
      cbn [mbind result_bind] in H; [|discriminate].
    destruct (should_alert _ _ _ _ _ _ _) eqn:Hs; cbv iota in H;
      injection H as <-.
    + right. exists last, pct. auto.
    + left. exists last. rewrite stored_nothing_sent. auto.
Qed.

Lemma alert_logic_raises sub o st e :
  alert_logic ALERT_MODE MIN_CHANGE_PCT sub o st = Raise e ->
  (e = TypeError /\ exists t, o_last o = VStr t) \/ e = OverflowError.
Proof.
  unfold alert_logic. destruct (o_last o) as [|last|t]; [discriminate| |].
  - destruct (pct_move (price (o_found o)) last) as [pct|e'] eqn:Hpct;
      cbn [mbind result_bind].
    + destruct (should_alert _ _ _ _ _ _ _); discriminate.
    + intros [= <-]. right. eapply pct_move_raises; eassumption.
  - intros [= <-]. left. eauto.
Qed.

(** The exceptions of the first half of a turn: the [KeyError] of a field
    that the record lacks, and the [TypeError] of the fallback tier. *)
Lemma observe_raises fetch sub (prices : gmap string (gmap string value)) e :
  observe fromisoformat fetch sub prices = Raise e ->
  (exists k, e = KeyError k)
  \/ (e = TypeError /\ mixed fromisoformat fetch sub prices).
Proof.
  unfold observe, mixed.
  destruct (split_key (sub_key sub)) as [[[origin dest] date]|];
    [|discriminate].
  set (prev := default blank (prices !! price_key_of sub)).
  unfold getitem.
  destruct (prev !! "last_price") as [v1|]; [|intros [= <-]; eauto].
  destruct (prev !! "last_notified_price") as [v2|]; [|intros [= <-]; eauto].
  destruct (prev !! "last_depart") as [v3|]; [|intros [= <-]; eauto].
  cbn [mbind result_bind].
  destruct (resolve fromisoformat (fetch origin dest date) (sub_flightNo sub)
              (sub_airline sub) v1 v3) as [[found|]|err] eqn:Hr;
    cbn [mbind result_bind]; [discriminate..|].
  intros [= <-]. right.
  apply resolve_raises, find_fallback_raises in Hr
    as (-> & _ & s & target & g & -> & Ht & Hg & Hsame & Hfit).
  split; [reflexivity|]. exists origin, dest, date, s, target, g. auto 10.
Qed.

(** *** The shape of the stored records *)

Lemma schema_blank : schema blank.
Proof.
  exists VNone, VNone, VNone, VNone. split; [reflexivity|].
  split; [left; reflexivity|]. split; [left; auto | left; reflexivity].
Qed.

Lemma schema_previous (prices : gmap string (gmap string value)) k :
  schema_store prices -> schema (default blank (prices !! k)).
Proof.
  intros H. destruct (prices !! k) as [rec|] eqn:Hk; [eapply H; eassumption|].
  apply schema_blank.
Qed.

Lemma schema_store_insert (prices : gmap string (gmap string value)) k rec :
  schema_store prices -> schema rec -> schema_store (<[k := rec]> prices).
Proof.
  intros Hs Hr k' rec' H. destruct (decide (k = k')) as [<-|Hne].
  - rewrite lookup_insert_eq in H. injection H as <-. exact Hr.
  - rewrite lookup_insert_ne in H by exact Hne. eapply Hs; eassumption.
Qed.

(** On a record of the right shape the lookups of a turn succeed, and
    they read the fields of the record. *)
Lemma observe_schema fetch sub (prices : gmap string (gmap string value)) :
  schema_store prices ->
  match observe fromisoformat fetch sub prices with
  | Ok (Some o) => opt_int (o_last o) /\ notified (o_last_notified o) (o_last_dir o)
  | Ok None => True
  | Raise e => e = TypeError /\ mixed fromisoformat fetch sub prices
  end.
Proof.
  intros Hs.
  destruct (observe fromisoformat fetch sub prices) as [[o|]|e] eqn:Hobs;
    [|exact I|].
  - destruct (schema_previous prices (price_key_of sub) Hs)
      as (lp & ln & ld & dep & Hprev & Hlp & Hn & Hdep).
    apply observe_some in Hobs as (_ & Hread & _). cbn zeta in Hread.
    rewrite Hprev in Hread. unfold get in Hread.
    rewrite tracking_last_price, tracking_last_notified_price,
      tracking_last_notified_dir in Hread.
    destruct Hread as ([= <-] & [= <-] & <- & _). auto.
  - destruct (observe_raises _ _ _ _ Hobs) as [[k ->]|H]; [|exact H].
    exfalso.
    destruct (schema_previous prices (price_key_of sub) Hs)
      as (lp & ln & ld & dep & Hprev & _).
    unfold observe in Hobs.
    destruct (split_key (sub_key sub)) as [[[origin dest] date]|];
      [|discriminate].
    rewrite Hprev in Hobs. unfold getitem in Hobs.
    rewrite tracking_last_price, tracking_last_notified_price,
      tracking_last_depart in Hobs.
    cbn [mbind result_bind] in Hobs.
    destruct (resolve _ _ _ _ _ _) as [[found|]|err] eqn:Hr;
      cbn [mbind result_bind] in Hobs; try discriminate.
    apply resolve_raises, find_fallback_raises in Hr as [-> _].
    discriminate.
Qed.

Lemma body_schema fetch sub st :
  schema_store (store st) ->
  match body_ fetch sub st with
  | Ok st' => schema_store (store st')
  | Raise e =>
      e = OverflowError
      \/ (e = TypeError /\ mixed fromisoformat fetch sub (store st))
  end.
Proof.
  intros Hs. pose proof (observe_schema fetch sub (store st) Hs) as Hobs.
  unfold body.
  destruct (observe fromisoformat fetch sub (store st)) as [[o|]|e];
    cbn [mbind result_bind]; [|exact Hs|right; exact Hobs].
  destruct Hobs as [Hlast Hnot].
  destruct (alert_logic ALERT_MODE MIN_CHANGE_PCT sub o st) as [st'|e]
    eqn:Hal.
  - destruct (alert_logic_ok _ _ _ _ Hal)
      as [[_ ->]|[(last & _ & ->)|(last & pct & _ & _ & Hsh & ->)]];
      cbn [stored store]; apply schema_store_insert; try exact Hs.
    + eexists _, _, _, _. split; [reflexivity|].
      split; [right; eauto|]. split; [left; auto | right; eauto].
    + eexists _, _, _, _. split; [reflexivity|].
      split; [right; eauto|]. split; [exact Hnot | right; eauto].
    + eexists _, _, _, _. split; [reflexivity|].
      split; [right; eauto|]. split; [|right; eauto].
      right. split; [eauto|].
      apply should_alert_true in Hsh as (_ & Hd & _).
      destruct Hd as [[Hd _]|[Hd _]]; rewrite Hd; auto.
  - destruct (alert_logic_raises _ _ _ _ Hal) as [[_ [t Ht]]| ->];
      [|left; reflexivity].
    rewrite Ht in Hlast. destruct Hlast as [?|[? ?]]; discriminate.
Qed.

Lemma run_loop_schema fetch selected :
  forall st,
    schema_store (store st) ->
    schema_store (store (run_loop_ fetch selected st).2)
    /\ forall k, (run_loop_ fetch selected st).1 <> Some (KeyError k).
Proof.
  induction selected as [|sub rest IH]; intros st Hs;
    [cbn; split; [exact Hs | discriminate]|].
  cbn [run_loop]. pose proof (body_schema fetch sub st Hs) as Hb.
  destruct (body_ fetch sub st) as [st'|e]; [apply IH; exact Hb|].
  cbn. split; [exact Hs|]. intros k [= ->].
  destruct Hb as [?|[? _]]; discriminate.
Qed.

Lemma check_once_schema fetch selected prices :
  schema_store prices ->
  schema_store (written (check_once_ fetch selected prices).2 prices)
  /\ forall k, (check_once_ fetch selected prices).1 <> Some (KeyError k).
Proof.
  intros Hs. unfold check_once.
  destruct selected as [|sub rest]; [split; [exact Hs | discriminate]|].
  pose proof (run_loop_schema fetch (sub :: rest) (Loop prices false []) Hs)
    as [Hst He].
  pose proof (run_loop_writes fromisoformat ALERT_MODE MIN_CHANGE_PCT fetch
                (sub :: rest) (Loop prices false [])) as Hw.
  destruct (run_loop_ fetch (sub :: rest) (Loop prices false []))
    as [[e|] st]; cbn [fst snd] in *.
  - rewrite written_silent by exact Hw. auto.
  - destruct (changed st).
    + rewrite written_last by exact Hw. auto.
    + rewrite written_silent by exact Hw. auto.
Qed.

(** X4: the shape of the records is an invariant of the monitor: when every
    record of the price store has the four fields with their types, so has
    every record of the store after any number of passes. *)
Theorem schema_kept cycles prices :
  schema_store prices -> schema_store (main_loop_ cycles prices).1.2.
Proof.
  revert prices.
  induction cycles as [|[fetch selected] rest IH]; intros prices Hs;
    [exact Hs|].
  cbn [main_loop].
  pose proof (check_once_schema fetch selected prices Hs) as [Hw _].
  destruct (check_once_ fetch selected prices) as [[e|] evs];
    cbn [fst snd] in *; [exact Hw|].
  specialize (IH _ Hw).
  destruct (main_loop_ rest (written evs prices)) as [[e' p] evs'].
  exact IH.
Qed.

(** *** What a turn stores and sends *)

Lemma body_cases fetch sub st st' :
  body_ fetch sub st = Ok st' ->
  (st' = st /\ observe fromisoformat fetch sub (store st) = Ok None)
  \/ exists o,
       observe fromisoformat fetch sub (store st) = Ok (Some o)
       /\ alert_logic ALERT_MODE MIN_CHANGE_PCT sub o st = Ok st'.
Proof.
  unfold body.
  destruct (observe fromisoformat fetch sub (store st)) as [[o|]|e];
    cbn [mbind result_bind]; [eauto | | discriminate].
  intros [= <-]. auto.
Qed.

(** *** Timestamps without a UTC offset *)

Lemma offset_free_comparable target (flights : list flight) :
  aware target = false ->
  (forall f, f ∈ flights -> offset_free fromisoformat (depart f)) ->
  forall g, g ∈ flights -> comparable fromisoformat target g = true.
Proof.
  intros Ht Hf g Hg. unfold comparable.
  destruct (fromisoformat (depart g)) as [dep|] eqn:Hd; [|reflexivity].
  apply bool_decide_eq_true. rewrite Ht. exact (Hf g Hg dep Hd).
Qed.

Lemma offset_free_not_mixed fetch sub prices :
  offset_free_store fromisoformat prices ->
  offset_free_source fromisoformat fetch ->
  ~ mixed fromisoformat fetch sub prices.
Proof.
  intros Hst Hsrc
    (origin & dest & date & s & target & g & _ & Hrec & Ht & Hg & _ & Hfit).
  assert (aware target = false) as Haware.
  { destruct (prices !! price_key_of sub) as [rec|] eqn:Hk; cbn in Hrec.
    - exact (Hst _ _ _ Hk Hrec _ Ht).
    - unfold blank in Hrec. rewrite tracking_last_depart in Hrec.
      discriminate. }
  rewrite (offset_free_comparable target (fetch origin dest date) Haware)
    in Hfit; [discriminate | | exact Hg].
  intros f Hf. exact (Hsrc _ _ _ _ Hf).
Qed.

Lemma body_offset_free fetch sub st st' :
  offset_free_source fromisoformat fetch ->
  offset_free_store fromisoformat (store st) ->
  body_ fetch sub st = Ok st' ->
  offset_free_store fromisoformat (store st').
Proof.
  intros Hsrc Hst Hb.
  destruct (body_cases _ _ _ _ Hb) as [[-> _]|(o & Hobs & Hal)];
    [exact Hst|].
  apply observe_some in Hobs as (_ & _ & Hres). apply resolve_elem in Hres.
  assert (exists a b c,
            store st'
            = <[price_key_of sub :=
                  tracking a b c (VStr (depart (o_found o)))]> (store st))
    as (a & b & c & ->).
  { destruct (alert_logic_ok _ _ _ _ Hal)
      as [[_ ->]|[(last & _ & ->)|(last & pct & _ & _ & _ & ->)]];
      cbn [stored store]; eauto. }
  intros k rec s Hk Hrec. destruct (decide (price_key_of sub = k)) as [<-|Hne].
  - rewrite lookup_insert_eq in Hk. injection Hk as <-.
    rewrite tracking_last_depart in Hrec. injection Hrec as <-.
    exact (Hsrc _ _ _ _ Hres).
  - rewrite lookup_insert_ne in Hk by exact Hne. exact (Hst _ _ _ Hk Hrec).
Qed.

Lemma run_loop_offset_free fetch selected :
  forall st,
    schema_store (store st) ->
    offset_free_source fromisoformat fetch ->
    offset_free_store fromisoformat (store st) ->
    offset_free_store fromisoformat (store (run_loop_ fetch selected st).2)
    /\ (run_loop_ fetch selected st).1 <> Some TypeError.
Proof.
  induction selected as [|sub rest IH]; intros st Hs Hsrc Hst;
    [cbn; split; [exact Hst | discriminate]|].
  cbn [run_loop]. pose proof (body_schema fetch sub st Hs) as Hb.
  destruct (body_ fetch sub st) as [st'|e] eqn:Hbody.
  - apply IH; [exact Hb | exact Hsrc |].
    eapply body_offset_free; eassumption.
  - cbn. split; [exact Hst|]. intros [= ->].
    destruct Hb as [?|[_ Hm]]; [discriminate|].
    exact (offset_free_not_mixed _ _ _ Hst Hsrc Hm).
Qed.

Lemma check_once_offset_free fetch selected prices :
  schema_store prices ->
  offset_free_source fromisoformat fetch ->
  offset_free_store fromisoformat prices ->
  offset_free_store fromisoformat
    (written (check_once_ fetch selected prices).2 prices)
  /\ (check_once_ fetch selected prices).1 <> Some TypeError.
Proof.
  intros Hs Hsrc Hst. unfold check_once.
  destruct selected as [|sub rest]; [split; [exact Hst | discriminate]|].
  pose proof (run_loop_offset_free fetch (sub :: rest) (Loop prices false [])
                Hs Hsrc Hst) as [Hfree He].
  pose proof (run_loop_writes fromisoformat ALERT_MODE MIN_CHANGE_PCT fetch
                (sub :: rest) (Loop prices false [])) as Hw.
  destruct (run_loop_ fetch (sub :: rest) (Loop prices false []))
    as [[e|] st]; cbn [fst snd] in *.
  - rewrite written_silent by exact Hw. auto.
  - destruct (changed st).
    + rewrite written_last by exact Hw. split; [exact Hfree | discriminate].
    + rewrite written_silent by exact Hw. split; [exact Hst | discriminate].
Qed.

(** X5: on a price store whose records have the four fields with their
    types, no pass ever ends in a [KeyError]; and when, besides, no
    [last_depart] of the store and no departure that the flight source
    lists carries a UTC offset, no pass ever ends in a [TypeError]. *)
Theorem schema_store_safe cycles prices :
  schema_store prices ->
  (forall k, (main_loop_ cycles prices).1.1 <> Some (KeyError k))
  /\ (offset_free_store fromisoformat prices ->
      Forall (fun c => offset_free_source fromisoformat c.1) cycles ->
      (main_loop_ cycles prices).1.1 <> Some TypeError).
Proof.
  revert prices.
  induction cycles as [|[fetch selected] rest IH]; intros prices Hs;
    [split; [|intros _ _]; discriminate|].
  cbn [main_loop].
  pose proof (check_once_schema fetch selected prices Hs) as [Hw He].
  pose proof (check_once_offset_free fetch selected prices Hs) as Hfree.
  destruct (check_once_ fetch selected prices) as [[e|] evs];
    cbn [fst snd] in *.
  - split; [intros k [= ->]; exact (He k eq_refl)|].
    intros Hst Hall [= ->]. apply Forall_cons in Hall as [Hsrc _].
    destruct (Hfree Hsrc Hst) as [_ H]. exact (H eq_refl).
  - destruct (IH _ Hw) as [IHk IHt].
    destruct (main_loop_ rest (written evs prices)) as [[e' p] evs'].
    cbn [fst snd] in *. split; [exact IHk|].
    intros Hst Hall. apply Forall_cons in Hall as [Hsrc Hrest].
    apply IHt; [apply (Hfree Hsrc Hst) | exact Hrest].
Qed.

(** X6: after a match the record of the flight holds the price and the
    departure of the matched candidate, whether or not an alert went out;
    the turn sends one alert or none, and the two notification fields
    change only with an alert (to its price and direction), except that a
    first observation sets them to [None]. *)
Theorem record_follows_match fetch sub st st' o :
  observe fromisoformat fetch sub (store st) = Ok (Some o) ->
  body_ fetch sub st = Ok st' ->
  exists last_notified last_dir,
    store st' !! price_key_of sub
    = Some (tracking (VInt (price (o_found o))) last_notified last_dir
                     (VStr (depart (o_found o))))
    /\ ((out st' = out st
         /\ (o_last o <> VNone ->
             last_notified = o_last_notified o /\ last_dir = o_last_dir o)
         /\ (o_last o = VNone -> last_notified = VNone /\ last_dir = VNone))
        \/ (exists msg,
              out st' = (out st ++ [Notify msg])%list
              /\ a_price msg = price (o_found o)
              /\ last_notified = VInt (a_price msg)
              /\ last_dir = VStr (a_direction msg))).
Proof.
  intros Hobs Hbody.
  destruct (body_cases _ _ _ _ Hbody) as [[_ H]|(o' & H & Hal)];
    rewrite Hobs in H; [discriminate|]. injection H as <-.
  destruct (alert_logic_ok _ _ _ _ Hal)
    as [[Hl ->]|[(last & Hl & ->)|(last & pct & Hl & _ & _ & ->)]];
    eexists _, _; (split; [apply lookup_insert_eq|]).
  - left. cbn. rewrite app_nil_r. split; [reflexivity|].
    split; [congruence | auto].
  - left. cbn. rewrite app_nil_r. split; [reflexivity|].
    split; [auto | congruence].
  - right. eexists. split; [reflexivity|]. cbn. auto.
Qed.

Lemma record_in_store fetch sub st st' o :
  observe fromisoformat fetch sub (store st) = Ok (Some o) ->
  body_ fetch sub st = Ok st' ->
  exists last_notified last_dir,
    store st' !! price_key_of sub
    = Some (tracking (VInt (price (o_found o))) last_notified last_dir
                     (VStr (depart (o_found o)))).
Proof.
  intros Hobs Hbody.
  destruct (body_cases _ _ _ _ Hbody) as [[_ H]|(o' & H & Hal)];
    rewrite Hobs in H; [discriminate|]. injection H as <-.
  destruct (alert_logic_ok _ _ _ _ Hal)
    as [[Hl ->]|[(last & Hl & ->)|(last & pct & Hl & _ & _ & ->)]];
    eexists _, _; apply lookup_insert_eq.
Qed.

(** The events of a turn: at most one message, about the flight of the
    subscription and justified by the settings. *)
Lemma body_sent fetch sub st st' :
  body_ fetch sub st = Ok st' ->
  exists sent,
    out st' = (out st ++ sent)%list
    /\ (sent = []
        \/ exists msg, sent = [Notify msg] /\ justified_ msg /\ about sub msg).
Proof.
  intros Hbody.
  destruct (body_cases _ _ _ _ Hbody) as [[-> _]|(o & Hobs & Hal)].
  { exists []. rewrite app_nil_r. auto. }
  destruct (observe_some _ _ _ _ Hobs) as (Hkey & _ & _).
  destruct (alert_logic_ok _ _ _ _ Hal)
    as [[_ ->]|[(last & _ & ->)|(last & pct & _ & Hpct & Hsh & ->)]].
  - exists []. auto.
  - exists []. auto.
  - eexists. split; [reflexivity|]. right. eexists. split; [reflexivity|].
    apply should_alert_true in Hsh as (Hthr & Hdir & _).
    split; [|split; [exact Hkey | split; reflexivity]].
    split; [exact Hpct|]. split; [exact Hthr|]. cbn.
    destruct Hdir as [[Hd Hm]|[Hd Hm]]; [left | right];
      (split; [exact Hd|]); (split; [|exact Hm]).
    + apply direction_of_drop. exact Hd.
    + apply direction_of_rise. exact Hd.
Qed.

Lemma run_loop_sent fetch selected :
  forall st,
    exists sent,
      out (run_loop_ fetch selected st).2 = (out st ++ sent)%list
      /\ (length sent <= length selected)%nat
      /\ forall ev, ev ∈ sent ->
           exists msg sub,
             ev = Notify msg /\ sub ∈ selected /\ justified_ msg
             /\ about sub msg.
Proof.
  induction selected as [|sub rest IH]; intros st.
  { exists []. cbn. rewrite app_nil_r. split; [reflexivity|].
    split; [lia|]. intros ev Hev. inversion Hev. }
  cbn [run_loop]. destruct (body_ fetch sub st) as [st'|e] eqn:Hbody.
  - destruct (body_sent _ _ _ _ Hbody) as (s1 & Hout & Hs1).
    destruct (IH st') as (s2 & Hout2 & Hlen & Hs2).
    exists (s1 ++ s2)%list. rewrite Hout2, Hout, app_assoc.
    split; [reflexivity|]. split.
    + rewrite length_app. cbn [length].
      destruct Hs1 as [->|(msg & -> & _)]; cbn [length]; lia.
    + intros ev Hev. apply elem_of_app in Hev as [Hev|Hev].
      * destruct Hs1 as [->|(msg & -> & Hj & Ha)]; [inversion Hev|].
        apply list_elem_of_singleton in Hev as ->.
        exists msg, sub. split; [reflexivity|]. split; [left|]. auto.
      * destruct (Hs2 ev Hev) as (msg & sub' & -> & Hin & Hj & Ha).
        exists msg, sub'. split; [reflexivity|]. split; [right; exact Hin|].
        auto.
  - exists []. cbn. rewrite app_nil_r. split; [reflexivity|].
    split; [lia|]. intros ev Hev. inversion Hev.
Qed.

(** The events of a pass are the messages of its turns, followed by the
    write of the store if there is one. *)
Lemma check_once_sent fetch selected prices :
  exists sent,
    notifications (check_once_ fetch selected prices).2
    = notifications sent
    /\ (forall ev, ev ∈ (check_once_ fetch selected prices).2 ->
          ev ∈ sent \/ exists s, ev = SetStore s)
    /\ (length sent <= length selected)%nat
    /\ forall ev, ev ∈ sent ->
         exists msg sub,
           ev = Notify msg /\ sub ∈ selected /\ justified_ msg
           /\ about sub msg.
Proof.
  unfold check_once. destruct selected as [|sub rest].
  { exists []. cbn. split; [reflexivity|]. split; [auto|].
    split; [lia|]. intros ev Hev. inversion Hev. }
  destruct (run_loop_sent fetch (sub :: rest) (Loop prices false []))
    as (sent & Hout & Hlen & Hsent).
  cbn [out app] in Hout. exists sent.
  destruct (run_loop_ fetch (sub :: rest) (Loop prices false []))
    as [[e|] st]; cbn [snd] in *; rewrite Hout.
  - split; [reflexivity|]. split; [auto|]. auto.
  - destruct (changed st).
    + split; [|split; [|auto]].
      * unfold notifications. rewrite omap_app. cbn. apply app_nil_r.
      * intros ev Hev. apply elem_of_app in Hev as [Hev|Hev]; [auto|].
        apply list_elem_of_singleton in Hev as ->. eauto.
    + split; [reflexivity|]. split; [auto|]. auto.
Qed.

Lemma elem_of_notifications evs msg :
  msg ∈ notifications evs <-> Notify msg ∈ evs.
Proof.
  unfold notifications. rewrite list_elem_of_omap. split.
  - intros ([m|s] & Hin & H); [|discriminate]. congruence.
  - intros H. exists (Notify msg). auto.
Qed.

Lemma notifications_length evs :
  (length (notifications evs) <= length evs)%nat.
Proof.
  unfold notifications. induction evs as [|[msg|s] evs IH]; cbn; lia.
Qed.

(** X7: every alert that a pass sends is about the flight of one of its
    subscriptions and is justified by the settings: it reports a drop
    under a mode that enables drops, or a rise under a mode that enables
    rises, of a percentage that reaches [MIN_CHANGE_PCT]. *)
Theorem alerts_justified fetch selected prices msg :
  Notify msg ∈ (check_once_ fetch selected prices).2 ->
  justified_ msg /\ exists sub, sub ∈ selected /\ about sub msg.
Proof.
  intros Hin.
  destruct (check_once_sent fetch selected prices)
    as (sent & _ & Hev & _ & Hsent).
  destruct (Hev _ Hin) as [H|[s H]]; [|discriminate].
  destruct (Hsent _ H) as (m & sub & [= <-] & Hsub & Hj & Ha). eauto.
Qed.

(** X8: a pass sends at most one alert for each subscription. *)
Theorem one_alert_per_subscription fetch selected prices :
  (length (notifications (check_once_ fetch selected prices).2)
   <= length selected)%nat.
Proof.
  destruct (check_once_sent fetch selected prices)
    as (sent & -> & _ & Hlen & _).
  etransitivity; [|exact Hlen]. apply notifications_length.
Qed.

(** X9: under an [ALERT_MODE] that is none of [drop], [rise] and [both], no
    pass ever sends an alert. *)
Theorem unknown_mode_silent fetch selected prices :
  ALERT_MODE ∉ ["drop"; "rise"; "both"] ->
  notifications (check_once_ fetch selected prices).2 = [].
Proof.
  intros Hmode.
  destruct (notifications (check_once_ fetch selected prices).2)
    as [|msg l] eqn:Hn; [reflexivity|].
  assert (msg ∈ notifications (check_once_ fetch selected prices).2) as Hin
    by (rewrite Hn; left).
  apply elem_of_notifications in Hin.
  destruct (check_once_sent fetch selected prices)
    as (sent & _ & Hev & _ & Hsent).
  destruct (Hev _ Hin) as [H|[s H]]; [|discriminate].
  destruct (Hsent _ H) as (m & sub & [= <-] & _ & (_ & _ & Hdir) & _).
  exfalso. apply Hmode. set_unfold.
  destruct Hdir as [(_ & _ & [?|[?|?]])|(_ & _ & [?|[?|?]])]; tauto.
Qed.

(** X10: a flight whose stored [last_price] is zero or negative has a
    [pct_move] of zero, so that under a threshold above zero no new price
    raises an alert for it; the turn only refreshes the record. *)
Theorem nonpositive_baseline_silent fetch sub st o last :
  observe fromisoformat fetch sub (store st) = Ok (Some o) ->
  o_last o = VInt last ->
  last <= 0 ->
  (MIN_CHANGE_PCT <=? 0)%float = false ->
  body_ fetch sub st
  = Ok (stored sub (tracking (VInt (price (o_found o))) (o_last_notified o)
                             (o_last_dir o) (VStr (depart (o_found o))))
               [] st).
Proof.
  intros Hobs Hlast Hle Hthr.
  rewrite (body_matched _ _ _ _ _ _ _ Hobs). unfold alert_logic.
  rewrite Hlast, (pct_move_nonpositive _ _ Hle), stored_nothing_sent.
  cbn [mbind result_bind]. unfold should_alert. rewrite Hthr.
  rewrite !andb_false_r. reflexivity.
Qed.

(** *** Polling again *)

(** A flight found by the fallback tier is found again by it when its own
    departure is the anchor. *)
Lemma find_fallback_again flights name v f :
  fromisoformat "" = None ->
  find_fallback fromisoformat flights name v = Ok (Some f) ->
  find_fallback fromisoformat flights name (VStr (depart f)) = Ok (Some f).
Proof.
  intros Hempty H.
  destruct (find_fallback_some _ _ _ _ _ H)
    as (Hname & s & target & d & _ & _ & _ & Hfits & Hfirst & _).
  pose proof Hfirst as (l1 & l2 & Hsplit & Hd & Hbefore & _).
  unfold delta_to in Hd.
  destruct (fromisoformat (depart f)) as [dep|] eqn:Hdep; [|discriminate].
  injection Hd as Hd.
  assert (depart f <> "") as Hne by (intros Heq; congruence).
  assert (delta_to fromisoformat dep f = Some 0) as Hzero.
  { unfold delta_to. rewrite Hdep. cbn. f_equal. lia. }
  assert (aware dep = aware target) as Haware.
  { rewrite forallb_forall in Hfits.
    specialize (Hfits f (proj1 (list_elem_of_In _ _)
                           (first_closest_elem _ _ _ _ _ Hfirst))).
    unfold comparable in Hfits. rewrite Hdep in Hfits.
    apply bool_decide_eq_true in Hfits. exact Hfits. }
  assert (forallb (comparable fromisoformat dep)
            (List.filter (same_airline name) flights) = true) as Hfits2.
  { unfold comparable. rewrite Haware. exact Hfits. }
  pose proof (find_fallback_spec fromisoformat flights name (depart f) dep
                Hname Hne Hdep) as Hspec.
  destruct (find_fallback fromisoformat flights name (VStr (depart f)))
    as [[g|]|e].
  - destruct Hspec as (_ & d2 & (k1 & k2 & Hsplit2 & Hd2 & Hk1 & Hk2) & _).
    do 2 f_equal. rewrite Hsplit in Hsplit2.
    destruct (split_twice _ _ _ _ _ _ Hsplit2) as [?|[[Hf Hg]|[Hg Hf]]].
    + congruence.
    + specialize (Hk1 _ _ Hf Hzero). unfold delta_to in Hd2.
      destruct (fromisoformat (depart g)); [|discriminate].
      cbn in Hd2. injection Hd2 as Hd2. lia.
    + specialize (Hk2 _ _ Hf Hzero). unfold delta_to in Hd2.
      destruct (fromisoformat (depart g)) as [dg|] eqn:Hdg; [|discriminate].
      cbn in Hd2. injection Hd2 as Hd2.
      assert (delta_to fromisoformat target g = Some d) as Hg1.
      { unfold delta_to. rewrite Hdg. cbn. f_equal. lia. }
      specialize (Hbefore _ _ Hg Hg1). lia.
  - exfalso. destruct Hspec as [_ Hspec].
    apply first_closest_elem, elem_of_same_airline in Hfirst as [Hin Hsame].
    specialize (Hspec _ _ Hin Hsame Hzero). unfold seconds in Hspec. lia.
  - destruct Hspec as [_ Hspec]. congruence.
Qed.

(** X11: polling again with the same answer of the flight source is
    silent: after a turn that matched its flight by number or by the
    fallback tier, a second turn for the same subscription on the same
    candidates sends nothing and leaves the store as it is. *)
Theorem unchanged_poll_silent fetch sub st st1 o :
  fromisoformat "" = None ->
  observe fromisoformat fetch sub (store st) = Ok (Some o) ->
  (let flights := fetch (o_origin o) (o_dest o) (o_date o) in
   find_exact flights (sub_flightNo sub) = Some (o_found o)
   \/ find_fallback fromisoformat flights (sub_airline sub) (o_last_depart o)
      = Ok (Some (o_found o))) ->
  body_ fetch sub st = Ok st1 ->
  out (run_loop_ fetch [sub] st1).2 = out st1
  /\ store (run_loop_ fetch [sub] st1).2 = store st1.
Proof.
  intros Hempty Hobs Htier Hbody.
  destruct (observe_some _ _ _ _ Hobs) as (Hkey & _ & Hres).
  destruct (record_in_store fetch sub st st1 o Hobs Hbody)
    as (ln & ld & Hrec).
  set (f := o_found o) in *.
  set (flights := fetch (o_origin o) (o_dest o) (o_date o)) in *.
  assert (resolve fromisoformat flights (sub_flightNo sub) (sub_airline sub)
            (VInt (price f)) (VStr (depart f)) = Ok (Some f)) as Hres2.
  { unfold resolve in *.
    destruct (find_exact flights (sub_flightNo sub)) as [e|] eqn:He.
    - exact Hres.
    - destruct Htier as [?|Hfb]; [discriminate|].
      rewrite (find_fallback_again _ _ _ _ Hempty Hfb). reflexivity. }
  assert (observe fromisoformat fetch sub (store st1)
          = Ok (Some (Obs (o_origin o) (o_dest o) (o_date o) (VInt (price f))
                          ln ld (VStr (depart f)) f))) as Hobs2.
  { unfold observe. rewrite Hkey, Hrec.
    change (default blank (Some ?r)) with r. unfold getitem, get.
    rewrite tracking_last_price, tracking_last_notified_price,
      tracking_last_notified_dir, tracking_last_depart.
    cbn [mbind result_bind default]. fold flights. rewrite Hres2.
    reflexivity. }
  cbn [run_loop]. rewrite (body_matched _ _ _ _ _ _ _ Hobs2).
  unfold alert_logic. cbn [o_last o_found o_last_notified o_last_dir].
  destruct (pct_move (price f) (price f)) as [pct|e];
    cbn [mbind result_bind]; [|auto].
  rewrite direction_flat. cbn. split; [reflexivity|].
  apply insert_id. exact Hrec.
Qed.

(** *** Subscriptions with a bad key *)

Lemma body_bad_key fetch sub st :
  well_keyed sub = false -> body_ fetch sub st = Ok st.
Proof.
  unfold well_keyed, body, observe.
  destruct (split_key (sub_key sub)); [discriminate | reflexivity].
Qed.

Lemma run_loop_well_keyed fetch selected :
  forall st,
    run_loop_ fetch (List.filter well_keyed selected) st
    = run_loop_ fetch selected st.
Proof.
  induction selected as [|sub rest IH]; intros st; [reflexivity|].
  cbn [List.filter run_loop]. destruct (well_keyed sub) eqn:Hk.
  - cbn [run_loop]. destruct (body_ fetch sub st); [apply IH | reflexivity].
  - rewrite (body_bad_key fetch sub st Hk). apply IH.
Qed.

(** X12: subscriptions whose key does not split into origin, destination
    and date count for nothing: a pass does exactly what it would do on
    the list without them. *)
Theorem bad_keys_skipped fetch selected prices :
  check_once_ fetch selected prices
  = check_once_ fetch (List.filter well_keyed selected) prices.
Proof.
  unfold check_once.
  pose proof (run_loop_well_keyed fetch selected (Loop prices false []))
    as Hrun.
  destruct selected as [|sub rest]; [reflexivity|].
  destruct (List.filter well_keyed (sub :: rest)) as [|sub' rest'].
  - rewrite <- Hrun. reflexivity.
  - rewrite <- Hrun. reflexivity.
Qed.

(** *** The keys of the store *)

Lemma body_keys fetch sub st st' k :
  body_ fetch sub st = Ok st' ->
  (is_Some (store st !! k) -> is_Some (store st' !! k))
  /\ (is_Some (store st' !! k) ->
      is_Some (store st !! k) \/ (well_keyed sub = true /\ price_key_of sub = k)).
Proof.
  intros Hbody.
  destruct (body_cases _ _ _ _ Hbody) as [[-> _]|(o & Hobs & Hal)];
    [auto|].
  destruct (observe_some _ _ _ _ Hobs) as (Hkey & _ & _).
  assert (exists rec sent, st' = stored sub rec sent st) as (rec & sent & ->).
  { destruct (alert_logic_ok _ _ _ _ Hal)
      as [[_ ->]|[(last & _ & ->)|(last & pct & _ & _ & _ & ->)]]; eauto. }
  cbn [stored store]. destruct (decide (price_key_of sub = k)) as [<-|Hne].
  - rewrite lookup_insert_eq. split; [eauto|]. intros _. right.
    unfold well_keyed. rewrite Hkey. auto.
  - rewrite lookup_insert_ne by exact Hne. auto.
Qed.

Lemma run_loop_keys fetch k selected :
  forall st,
    (is_Some (store st !! k) ->
     is_Some (store (run_loop_ fetch selected st).2 !! k))
    /\ (is_Some (store (run_loop_ fetch selected st).2 !! k) ->
        is_Some (store st !! k)
        \/ exists sub,
             sub ∈ selected /\ well_keyed sub = true /\ price_key_of sub = k).
Proof.
  induction selected as [|sub rest IH]; intros st; [cbn; auto|].
  cbn [run_loop]. destruct (body_ fetch sub st) as [st'|e] eqn:Hbody;
    [|cbn; auto].
  destruct (body_keys _ _ _ _ k Hbody) as [Hkeep Hnew].
  destruct (IH st') as [Hkeep' Hnew']. split; [auto|].
  intros H. destruct (Hnew' H) as [H'|(sub' & Hin & Hk)].
  - destruct (Hnew H') as [?|[? ?]]; [auto|].
    right. exists sub. split; [left|]. auto.
  - right. exists sub'. split; [right; exact Hin|]. exact Hk.
Qed.

Lemma check_once_keys fetch k selected prices :
  let after := written (check_once_ fetch selected prices).2 prices in
  (is_Some (prices !! k) -> is_Some (after !! k))
  /\ (is_Some (after !! k) ->
      is_Some (prices !! k)
      \/ exists sub,
           sub ∈ selected /\ well_keyed sub = true /\ price_key_of sub = k).
Proof.
  unfold check_once. destruct selected as [|sub rest]; [cbn; auto|].
  pose proof (run_loop_keys fetch k (sub :: rest) (Loop prices false []))
    as Hkeys.
  pose proof (run_loop_writes fromisoformat ALERT_MODE MIN_CHANGE_PCT fetch
                (sub :: rest) (Loop prices false [])) as Hw.
  destruct (run_loop_ fetch (sub :: rest) (Loop prices false []))
    as [[e|] st]; cbn [fst snd store] in *.
  - rewrite written_silent by exact Hw. auto.
  - destruct (changed st).
    + rewrite written_last by exact Hw. exact Hkeys.
    + rewrite written_silent by exact Hw. auto.
Qed.

(** X13: the monitor never deletes a record, and the only records it adds
    are those of subscriptions with a proper key: a tracking key that was
    in the store is still there after any number of passes, and one that is
    there afterwards was there before or is the key of such a subscription
    of one of the passes. *)
Theorem store_keys_grow cycles :
  forall prices k,
    let final := (main_loop_ cycles prices).1.2 in
    (is_Some (prices !! k) -> is_Some (final !! k))
    /\ (is_Some (final !! k) ->
        is_Some (prices !! k)
        \/ exists fetch selected sub,
             (fetch, selected) ∈ cycles /\ sub ∈ selected
             /\ well_keyed sub = true /\ price_key_of sub = k).
Proof.
  induction cycles as [|[fetch selected] rest IH]; intros prices k;
    [cbn; auto|].
  cbn [main_loop].
  pose proof (check_once_keys fetch k selected prices) as [Hkeep Hnew].
  assert (forall sub, sub ∈ selected ->
            well_keyed sub = true /\ price_key_of sub = k ->
            exists f s sub', (f, s) ∈ (fetch, selected) :: rest /\ sub' ∈ s
              /\ well_keyed sub' = true /\ price_key_of sub' = k) as Hhere.
  { intros sub Hin [? ?]. exists fetch, selected, sub.
    split; [left|]. auto. }
  destruct (check_once_ fetch selected prices) as [[e|] evs];
    cbn [fst snd] in *.
  - split; [exact Hkeep|]. intros H.
    destruct (Hnew H) as [?|(sub & Hin & Hk)]; [auto|]. right. eauto.
  - specialize (IH (written evs prices) k).
    destruct (main_loop_ rest (written evs prices)) as [[e' p] evs'].
    cbn [fst snd] in *. destruct IH as [Hkeep' Hnew']. split; [auto|].
    intros H. destruct (Hnew' H) as [H'|(f & s & sub & Hc & Hin & Hk)].
    + destruct (Hnew H') as [?|(sub & Hin & Hk)]; [auto|]. right. eauto.
    + right. exists f, s, sub. split; [right; exact Hc|]. auto.
Qed.

End CycleMore.

(** ** The further statements at work on the example data *)

Lemma split_key_joins_witness :
  split_key "DEL-BLR-2025-08-25" = Some ("DEL", "BLR", "2025-08-25").
Proof.
  apply (proj2 (split_key_joins "DEL-BLR-2025-08-25" "DEL" "BLR"
                  "2025-08-25")).
  split; [reflexivity|]. split; reflexivity.
Defined.

Lemma exact_match_preempts_witness :
  resolve parse_minutes ex_renumbered "6E291" "Air India" VNone
          (VStr "2025-08-25T10:00")
  = Ok (Some (Flight "IndiGo" "6E291" "2025-08-25T21:00" "2025-08-25T22:50"
                     "1h 50m" 4300)).
Proof.
  apply (exact_match_preempts parse_minutes
           [ Flight "Air India" "AI231" "2025-08-25T10:00" "2025-08-25T11:59"
                    "1h 59m" 5100;
             Flight "INDIGO" "6E777" "TBA" "TBA" "" 4300;
             Flight "IndiGo" "6E207" "2025-08-25T10:10" "2025-08-25T12:00"
                    "1h 50m" 4950;
             Flight "indigo" "6E193" "2025-08-25T09:50" "2025-08-25T11:40"
                    "1h 50m" 4800 ]
           (Flight "IndiGo" "6E291" "2025-08-25T21:00" "2025-08-25T22:50"
                   "1h 50m" 4300) []).
  - reflexivity.
  - intros g Hg. set_unfold in Hg.
    destruct Hg as [->|[->|[->|[->|[]]]]]; discriminate.
Defined.

Lemma schema_store_example : schema_store (ex_store (VInt 5000) VNone VNone).
Proof.
  intros k rec H. unfold ex_store in H.
  apply lookup_singleton_Some in H as [_ <-].
  exists (VInt 5000), VNone, VNone, (VStr "2025-08-25T10:00").
  split; [reflexivity|]. split; [right; eauto|].
  split; [left; auto | right; eauto].
Defined.

Lemma schema_kept_witness :
  schema_store
    (main_loop parse_minutes "drop" 1
       [(ex_fetch, [ex_sub]); (ex_fetch_next, [ex_sub])]
       (ex_store (VInt 5000) VNone VNone)).1.2.
Proof. apply schema_kept. exact schema_store_example. Defined.

(** The timestamps that [parse_minutes] reads carry no UTC offset. *)
Lemma parse_minutes_offset_free s : offset_free parse_minutes s.
Proof.
  intros d H. unfold parse_minutes in H.
  repeat case_match; simplify_option_eq;
    repeat (case_match; try discriminate); simplify_eq; reflexivity.
Qed.

Lemma schema_store_safe_witness :
  (forall k,
     (main_loop parse_minutes "drop" 1
        [(ex_fetch, [ex_sub]); (ex_fetch_next, [ex_sub])]
        (ex_store (VInt 5000) VNone VNone)).1.1 <> Some (KeyError k))
  /\ (main_loop parse_minutes "drop" 1
        [(ex_fetch, [ex_sub]); (ex_fetch_next, [ex_sub])]
        (ex_store (VInt 5000) VNone VNone)).1.1 <> Some TypeError.
Proof.
  destruct (schema_store_safe parse_minutes "drop" 1
              [(ex_fetch, [ex_sub]); (ex_fetch_next, [ex_sub])]
              (ex_store (VInt 5000) VNone VNone) schema_store_example)
    as [Hkey Htype].
  split; [exact Hkey|]. apply Htype.
  - intros k rec s _ _. apply parse_minutes_offset_free.
  - repeat constructor; intros origin dest date f _;
      apply parse_minutes_offset_free.
Defined.

Lemma record_follows_match_witness :
  exists last_notified last_dir,
    ex_store (VInt 4900) (VInt 4900) (VStr "drop")
      !! "DEL-BLR-2025-08-25#6E200"
    = Some (tracking (VInt 4900) last_notified last_dir
                     (VStr "2025-08-25T10:00")).
Proof.
  destruct (record_follows_match parse_minutes "drop" 1 ex_fetch ex_sub
              (Loop (ex_store (VInt 5000) VNone VNone) false [])
              (Loop (ex_store (VInt 4900) (VInt 4900) (VStr "drop")) true
                 [Notify (Alert "drop" "DEL" "BLR" "2025-08-25" "6E200"
                                "IndiGo" 4900 5000 2)])
              (ex_obs (VInt 5000) VNone VNone (VStr "2025-08-25T10:00"))
              ltac:(vm_compute; reflexivity) ltac:(vm_compute; reflexivity))
    as (ln & ld & Hrec & _).
  exists ln, ld. exact Hrec.
Defined.

Lemma alerts_justified_witness :
  justified "drop" 1
    (Alert "drop" "DEL" "BLR" "2025-08-25" "6E200" "IndiGo" 4900 5000 2).
Proof.
  apply (alerts_justified parse_minutes "drop" 1 ex_fetch [ex_sub]
           (ex_store (VInt 5000) VNone VNone)).
  replace (check_once parse_minutes "drop" 1 ex_fetch [ex_sub]
             (ex_store (VInt 5000) VNone VNone)).2
    with [Notify (Alert "drop" "DEL" "BLR" "2025-08-25" "6E200" "IndiGo"
                        4900 5000 2);
          SetStore (ex_store (VInt 4900) (VInt 4900) (VStr "drop"))]
    by (vm_compute; reflexivity).
  left.
Defined.

Lemma unknown_mode_silent_witness :
  notifications (check_once parse_minutes "drop " 1 ex_fetch [ex_sub]
                   (ex_store (VInt 5000) VNone VNone)).2 = [].
Proof.
  apply unknown_mode_silent. set_unfold.
  intros [H|[H|[H|[]]]]; discriminate.
Defined.

Lemma nonpositive_baseline_silent_witness :
  body parse_minutes "both" 1 ex_fetch ex_sub
       (Loop (ex_store (VInt 0) VNone VNone) false [])
  = Ok (stored ex_sub (tracking (VInt 4900) VNone VNone
                                (VStr "2025-08-25T10:00"))
               [] (Loop (ex_store (VInt 0) VNone VNone) false [])).
Proof.
  apply (nonpositive_baseline_silent parse_minutes "both" 1 ex_fetch ex_sub
           (Loop (ex_store (VInt 0) VNone VNone) false [])
           (ex_obs (VInt 0) VNone VNone (VStr "2025-08-25T10:00")) 0).
  - vm_compute. reflexivity.
  - reflexivity.
  - lia.
  - vm_compute. reflexivity.
Defined.

Lemma unchanged_poll_silent_witness :
  out (run_loop parse_minutes "both" 0 ex_fetch_renumbered [ex_sub]
         (Loop (<["DEL-BLR-2025-08-25#6E200" :=
                    tracking (VInt 4950) (VInt 4950) (VStr "rise")
                             (VStr "2025-08-25T10:10")]>
                  (ex_store (VInt 4900) VNone VNone))
               true
               [Notify (Alert "rise" "DEL" "BLR" "2025-08-25" "6E200"
                              "IndiGo" 4950 4900
                              (100 * 50 / 4900)%float)])).2
  = [Notify (Alert "rise" "DEL" "BLR" "2025-08-25" "6E200" "IndiGo" 4950 4900
                   (100 * 50 / 4900)%float)].
Proof.
  refine (proj1 (unchanged_poll_silent parse_minutes "both" 0
                   ex_fetch_renumbered ex_sub
                   (Loop (ex_store (VInt 4900) VNone VNone) false [])
                   (Loop (<["DEL-BLR-2025-08-25#6E200" :=
                              tracking (VInt 4950) (VInt 4950) (VStr "rise")
                                       (VStr "2025-08-25T10:10")]>
                            (ex_store (VInt 4900) VNone VNone))
                         true
                         [Notify (Alert "rise" "DEL" "BLR" "2025-08-25"
                                        "6E200" "IndiGo" 4950 4900
                                        (100 * 50 / 4900)%float)])
                   (Obs "DEL" "BLR" "2025-08-25" (VInt 4900) VNone VNone
                        (VStr "2025-08-25T10:00")
                        (Flight "IndiGo" "6E207" "2025-08-25T10:10"
                                "2025-08-25T12:00" "1h 50m" 4950))
                   _ _ _ _)).
  - reflexivity.
  - vm_compute. reflexivity.
  - right. vm_compute. reflexivity.
  - vm_compute. reflexivity.
Defined.

Lemma store_keys_grow_witness :
  is_Some ((main_loop parse_minutes "drop" 1
              [(ex_fetch_others, [ex_sub]); (ex_fetch_next, [ex_sub])]
              (ex_store (VInt 5000) VNone VNone)).1.2
             !! "DEL-BLR-2025-08-25#6E200").
Proof.
  apply (store_keys_grow parse_minutes "drop" 1
           [(ex_fetch_others, [ex_sub]); (ex_fetch_next, [ex_sub])]
           (ex_store (VInt 5000) VNone VNone)).
  eexists. apply lookup_singleton_eq.
Defined.

(** ** The subscriptions file *)

Lemma selection_key k f a : selection k f a !! "key" = Some k.
Proof. apply lookup_insert_eq. Qed.

Lemma selection_flightNo k f a : selection k f a !! "flightNo" = Some f.
Proof.
  unfold selection. rewrite lookup_insert_ne by discriminate.
  apply lookup_insert_eq.
Qed.

Lemma selection_airline k f a : selection k f a !! "airline" = Some a.
Proof.
  unfold selection. rewrite !lookup_insert_ne by discriminate.
  apply lookup_insert_eq.
Qed.

Lemma selected_entry_some it e :
  selected_entry it = Some e <->
  exists d,
    it = JDict d
    /\ json_truthy (jget d "key" JNull) = true
    /\ json_truthy (jget d "flightNo" JNull) = true
    /\ e = selection (jget d "key" JNull) (jget d "flightNo" JNull)
                     (jget d "airline" (JStr "")).
Proof.
  split.
  - destruct it as [| | | | | |d]; try discriminate. cbn [selected_entry].
    destruct (json_truthy (jget d "key" JNull)) eqn:Hk; [|discriminate].
    destruct (json_truthy (jget d "flightNo" JNull)) eqn:Hf; [|discriminate].
    intros [= <-]. exists d. auto.
  - intros (d & -> & Hk & Hf & ->). cbn [selected_entry].
    rewrite Hk, Hf. reflexivity.
Qed.

Lemma selected_entry_usable e : usable e -> selected_entry (JDict e) = Some e.
Proof.
  intros (k & f & a & -> & Hk & Hf). apply selected_entry_some.
  eexists. split; [reflexivity|]. unfold jget.
  rewrite selection_key, selection_flightNo, selection_airline. cbn [from_option id].
  auto.
Qed.

(** X14: of the items that [subscriptions.json] lists for the recipient,
    [load_selected_flights] keeps exactly the objects that have a key and a
    flight number that are not empty, reduced to the fields [key],
    [flightNo] and [airline] (the empty string when there is none); bare
    route keys and every other item are left out. *)
Theorem selected_flights_kept CHAT_ID subs items :
  subs !! CHAT_ID = Some (JList items) ->
  exists out,
    load_selected_flights CHAT_ID (Some (JDict subs)) = Some out
    /\ forall e,
         e ∈ out <->
         exists d,
           JDict d ∈ items
           /\ json_truthy (jget d "key" JNull) = true
           /\ json_truthy (jget d "flightNo" JNull) = true
           /\ e = selection (jget d "key" JNull) (jget d "flightNo" JNull)
                            (jget d "airline" (JStr "")).
Proof.
  intros Hitems. exists (omap selected_entry items). split.
  - unfold load_selected_flights, jload, jget. cbn [from_option id].
    rewrite Hitems. reflexivity.
  - intros e. rewrite list_elem_of_omap. split.
    + intros (it & Hin & He). apply selected_entry_some in He
        as (d & -> & Hk & Hf & ->). eauto 6.
    + intros (d & Hin & Hk & Hf & ->). exists (JDict d).
      split; [exact Hin|]. apply selected_entry_some. eauto 6.
Qed.

Lemma load_selected_flights_usable CHAT_ID file out :
  load_selected_flights CHAT_ID file = Some out ->
  forall e, e ∈ out -> usable e.
Proof.
  unfold load_selected_flights. destruct (jload file (JDict ∅));
    try discriminate.
  destruct (jget d CHAT_ID (JList [])) as [| | | | |items|]; try discriminate;
    intros [= <-] e He; try (inversion He; fail).
  apply list_elem_of_omap in He as (it & _ & He).
  apply selected_entry_some in He as (d' & -> & Hk & Hf & ->).
  eexists _, _, _. eauto.
Qed.

(** X15: the list that [load_selected_flights] returns is stable: written
    back as the recipient's entry of the subscriptions file and loaded
    again, it comes out unchanged. *)
Theorem selected_flights_reload CHAT_ID file out :
  load_selected_flights CHAT_ID file = Some out ->
  load_selected_flights CHAT_ID
    (Some (JDict {[ CHAT_ID := JList (JDict <$> out) ]}))
  = Some out.
Proof.
  intros H. pose proof (load_selected_flights_usable _ _ _ H) as Hus.
  unfold load_selected_flights, jload, jget. cbn [from_option id].
  rewrite lookup_singleton_eq. cbn [from_option id]. f_equal.
  clear H. induction out as [|e out IH]; [reflexivity|].
  cbn [fmap list_fmap omap list_omap].
  rewrite (selected_entry_usable e) by (apply Hus; left).
  f_equal. apply IH. intros e' He'. apply Hus. right. exact He'.
Qed.

(** ** The answers of the flight search *)

Lemma listing_airline a n d r u p : listing a n d r u p !! "airline" = Some a.
Proof. apply lookup_insert_eq. Qed.

Lemma without_vistara_some out :
  forall res,
    without_vistara out = Some res ->
    (length res <= length out)%nat
    /\ forall x, x ∈ res ->
         x ∈ out
         /\ exists s, jget x "airline" (JStr "") = JStr s
                      /\ lower s <> "vistara".
Proof.
  induction out as [|x out IH]; intros res H.
  - injection H as <-. split; [reflexivity|]. intros x Hx. inversion Hx.
  - cbn [without_vistara] in H.
    destruct (jget x "airline" (JStr "")) as [| | | |s| |] eqn:Ha;
      try discriminate.
    case_bool_decide as Hv.
    + destruct (IH _ H) as [Hlen Hres]. split; [cbn; lia|].
      intros y Hy. destruct (Hres y Hy) as [Hin Hs]. split; [right|]; auto.
    + destruct (without_vistara out) as [res'|]; [|discriminate].
      injection H as <-. destruct (IH _ eq_refl) as [Hlen Hres].
      split; [cbn; lia|]. intros y Hy.
      apply elem_of_cons in Hy as [->|Hy].
      * split; [left | eauto].
      * destruct (Hres y Hy) as [Hin Hs]. split; [right|]; auto.
Qed.

Lemma parse_item_listing it x :
  parse_item it = Some (Some x) ->
  exists a n d r u p, x = listing a n d r u (JInt p).
Proof.
  destruct it as [| | | | | |d]; try discriminate. cbn [parse_item].
  destruct (price_of (jget d "price" JNull)) as [[p|]|]; try discriminate.
  intros [= <-]. eauto 10.
Qed.

Lemma length_omap_id {A} (l : list (option A)) :
  (length (omap id l) <= length l)%nat.
Proof. induction l as [|[a|] l IH]; cbn; lia. Qed.

(** The list that [parse_list_like] builds before its last line. *)
Lemma parse_list_like_raw js out :
  parse_list_like js = Some out ->
  exists raw,
    without_vistara raw = Some out
    /\ (length raw <= 20)%nat
    /\ forall x, x ∈ raw ->
         exists a n d r u p, x = listing a n d r u (JInt p).
Proof.
  unfold parse_list_like. intros H.
  apply bind_Some in H as (raw & Hraw & Hout).
  exists raw. split; [exact Hout|].
  assert (raw = [] \/ exists data items,
            mapM parse_item (take 20 data) = Some items
            /\ raw = omap id items) as [->|(data & items & Hm & ->)].
  { destruct js as [| | | | | |d]; try (injection Hraw as <-; auto).
    destruct (jget d "data" JNull) as [| | | | |data|];
      try (injection Hraw as <-; auto).
    apply fmap_Some in Hraw as (items & Hm & ->). eauto. }
  - split; [cbn; lia|]. intros x Hx. inversion Hx.
  - apply mapM_Some in Hm. split.
    + etransitivity; [apply length_omap_id|].
      rewrite <- (Forall2_length _ _ _ Hm), length_take. lia.
    + intros x Hx. apply list_elem_of_omap in Hx as (ox & Hin & Hox).
      cbn in Hox. subst ox.
      apply list_elem_of_lookup in Hin as [i Hi].
      destruct (Forall2_lookup_r _ _ _ _ _ Hm Hi) as (it & _ & Hit).
      eapply parse_item_listing. exact Hit.
Qed.

Lemma parse_list_like_airlines js out x :
  parse_list_like js = Some out -> x ∈ out -> presentable x.
Proof.
  intros H Hx. destruct (parse_list_like_raw _ _ H) as (raw & Hout & _ & Hraw).
  destruct (without_vistara_some _ _ Hout) as [_ Hres].
  destruct (Hres x Hx) as [Hin (s & Hs & Hv)].
  destruct (Hraw x Hin) as (a & n & d & r & u & p & ->).
  unfold jget in Hs. rewrite listing_airline in Hs. cbn in Hs. subst a.
  eexists _, _, _, _, _, _. eauto.
Qed.

(** X16: whatever document the search service answers with,
    [parse_list_like], when it returns, returns at most twenty candidates,
    each with the six fields, an integer price and an airline that is a
    string other than Vistara in any case of letters. *)
Theorem parse_list_like_presentable js out :
  parse_list_like js = Some out ->
  (length out <= 20)%nat /\ forall x, x ∈ out -> presentable x.
Proof.
  intros H. split.
  - destruct (parse_list_like_raw _ _ H) as (raw & Hout & Hlen & _).
    destruct (without_vistara_some _ _ Hout) as [Hle _]. lia.
  - intros x Hx. eapply parse_list_like_airlines; eassumption.
Qed.

Lemma first_number_first p before k after :
  (forall k', k' ∈ before -> is_number (jget p k' JNull) = false) ->
  is_number (jget p k JNull) = true ->
  first_number p (before ++ k :: after)
  = (z ← int_of (jget p k JNull); Some (Some z)).
Proof.
  intros Hb Hk. induction before as [|k' before IH]; cbn [app first_number].
  - rewrite Hk. reflexivity.
  - rewrite (Hb k') by left. apply IH. intros k'' H. apply Hb. right.
    exact H.
Qed.

(** X17: when the field [price] of an item is an object, the price is read
    from the first of its fields [amount], [raw], [value], [min], [max]
    that holds a number, truncated to an integer; fields that hold
    anything else, such as a numeric string, are passed over. *)
Theorem nested_price_first_number p before k after :
  price_keys = (before ++ k :: after)%list ->
  (forall k', k' ∈ before -> is_number (jget p k' JNull) = false) ->
  is_number (jget p k JNull) = true ->
  price_of (JDict p) = (z ← int_of (jget p k JNull); Some (Some z)).
Proof.
  intros Hkeys Hb Hk. cbn [price_of is_number]. rewrite Hkeys.
  apply first_number_first; assumption.
Qed.

(** ** The flight source *)

Section SourcesMore.

Variable API_KEY : string.
Variable USE_REAL : bool.
Variable http_get : string -> gmap string string -> option json.
Variable mock_list : string -> string -> string -> list flight.

Local Abbreviation kiwi_query_ := (kiwi_query API_KEY http_get).
Local Abbreviation fetch_flights_ :=
  (fetch_flights API_KEY USE_REAL http_get mock_list).
Local Abbreviation stable_mock_flights_ := (stable_mock_flights mock_list).

Lemma kiwi_query_presentable params x :
  x ∈ kiwi_query_ params -> presentable x.
Proof.
  unfold kiwi_query.
  destruct (http_get API_KEY params ≫= parse_list_like) as [out|] eqn:H;
    cbn [from_option id]; [|intros Hx; inversion Hx].
  apply bind_Some in H as (js & _ & H).
  intros Hx. eapply parse_list_like_airlines; eassumption.
Qed.

Lemma first_answer_spec ps :
  (first_answer API_KEY http_get ps = []
   /\ forall p, p ∈ ps -> kiwi_query_ p = [])
  \/ exists before p after,
       ps = (before ++ p :: after)%list
       /\ (forall q, q ∈ before -> kiwi_query_ q = [])
       /\ kiwi_query_ p = first_answer API_KEY http_get ps
       /\ first_answer API_KEY http_get ps <> [].
Proof.
  induction ps as [|p ps IH].
  - left. split; [reflexivity|]. intros p Hp. inversion Hp.
  - cbn [first_answer]. destruct (kiwi_query_ p) as [|x res] eqn:Hp.
    + destruct IH as [[Hnil Hall]|(before & q & after & -> & Hb & Hq & Hne)].
      * left. split; [exact Hnil|]. intros q Hq.
        apply elem_of_cons in Hq as [->|Hq]; auto.
      * right. exists (p :: before), q, after. split; [reflexivity|].
        split; [|auto]. intros q' Hq'.
        apply elem_of_cons in Hq' as [->|Hq']; auto.
    + right. exists [], p, ps. split; [reflexivity|].
      split; [intros q Hq; inversion Hq|]. split; [exact Hp | discriminate].
Qed.

Lemma stable_mock_presentable origin to date x :
  x ∈ stable_mock_flights_ origin to date -> presentable x.
Proof.
  unfold stable_mock_flights. intros Hx.
  apply list_elem_of_fmap in Hx as (f & -> & Hf).
  apply list_elem_of_In, filter_In in Hf as [_ Hf].
  apply negb_true_iff, bool_decide_eq_false in Hf.
  eexists _, _, _, _, _, _. split; [reflexivity | exact Hf].
Qed.

(** X18: every candidate that [fetch_flights] hands to the monitor, from
    the search service or from the stand-in list, has the six fields, an
    integer price and an airline that is a string other than Vistara in
    any case of letters. *)
Theorem fetch_flights_presentable origin to date x :
  x ∈ fetch_flights_ origin to date -> presentable x.
Proof.
  unfold fetch_flights, real_flights.
  assert (forall ps y, y ∈ first_answer API_KEY http_get ps -> presentable y)
    as Hfirst.
  { intros ps y Hy.
    destruct (first_answer_spec ps) as [[Hnil _]|(b & p & a & _ & _ & Hp & _)].
    - rewrite Hnil in Hy. inversion Hy.
    - rewrite <- Hp in Hy. eapply kiwi_query_presentable. exact Hy. }
  destruct USE_REAL; [|apply stable_mock_presentable].
  case_bool_decide; [apply stable_mock_presentable|].
  destruct (first_answer API_KEY http_get (attempts origin to date))
    as [|y res] eqn:Hres; [apply stable_mock_presentable|].
  rewrite <- Hres. apply Hfirst.
Qed.

(** X19: [fetch_flights] answers with the flights of the first of the three
    parameterizations of the search that yields any, when the real search
    is switched on and has a key; in every other case, a failed or empty
    search included, it answers with the stand-in list. *)
Theorem fetch_flights_source origin to date :
  (USE_REAL = true /\ API_KEY <> ""
   /\ exists before p after,
        attempts origin to date = (before ++ p :: after)%list
        /\ (forall q, q ∈ before -> kiwi_query_ q = [])
        /\ kiwi_query_ p = fetch_flights_ origin to date
        /\ fetch_flights_ origin to date <> [])
  \/ (fetch_flights_ origin to date = stable_mock_flights_ origin to date
      /\ (USE_REAL = false \/ API_KEY = ""
          \/ forall p, p ∈ attempts origin to date -> kiwi_query_ p = [])).
Proof.
  unfold fetch_flights, real_flights.
  destruct USE_REAL; [|right; auto].
  case_bool_decide as Hkey; [right; auto|].
  destruct (first_answer_spec (attempts origin to date))
    as [[Hnil Hall]|(b & p & a & Hsplit & Hb & Hp & Hne)].
  - rewrite Hnil. right. auto.
  - left. split; [reflexivity|]. split; [exact Hkey|].
    exists b, p, a.
    destruct (first_answer API_KEY http_get (attempts origin to date))
      as [|y res]; [congruence|]. auto.
Qed.

End SourcesMore.

(** ** The statements about the sources at work on the example data *)

Lemma selected_flights_kept_witness :
  exists out,
    load_selected_flights "42" (Some (JDict ex_subscriptions)) = Some out
    /\ selection (JStr "DEL-BOM-2025-09-01") (JStr "AI231") (JStr "") ∈ out.
Proof.
  destruct (selected_flights_kept "42" ex_subscriptions
              [ JStr "DEL-BLR-2025-08-25";
                JDict (selection (JStr "DEL-BLR-2025-08-25") (JStr "6E200")
                                 (JStr "IndiGo"));
                JDict {[ "key" := JStr "DEL-BOM-2025-09-01" ]};
                JDict (<["key" := JStr "DEL-BOM-2025-09-01"]>
                         {[ "flightNo" := JStr "AI231" ]}) ]
              ltac:(reflexivity)) as (out & Hout & Hin).
  exists out. split; [exact Hout|]. apply Hin.
  exists (<["key" := JStr "DEL-BOM-2025-09-01"]>
            {[ "flightNo" := JStr "AI231" ]}).
  split; [do 3 right; left|]. split; [reflexivity|].
  split; reflexivity.
Defined.

Lemma selected_flights_reload_witness :
  load_selected_flights "42"
    (Some (JDict
             {[ "42" :=
                  JList
                    (JDict
                       <$> [ selection (JStr "DEL-BLR-2025-08-25")
                                       (JStr "6E200") (JStr "IndiGo");
                             selection (JStr "DEL-BOM-2025-09-01")
                                       (JStr "AI231") (JStr "") ]) ]}))
  = Some [ selection (JStr "DEL-BLR-2025-08-25") (JStr "6E200")
                     (JStr "IndiGo");
           selection (JStr "DEL-BOM-2025-09-01") (JStr "AI231") (JStr "") ].
Proof.
  apply (selected_flights_reload "42" (Some (JDict ex_subscriptions))).
  vm_compute. reflexivity.
Defined.

Lemma parse_list_like_presentable_witness :
  presentable (listing (JStr "Akasa") (JStr "") (JStr "") (JStr "") (JStr "")
                       (JInt 4100)).
Proof.
  apply (parse_list_like_presentable ex_answer
           [ listing (JStr "IndiGo") (JStr "6E200") (JStr "") (JStr "")
                     (JStr "") (JInt 4300);
             listing (JStr "Akasa") (JStr "") (JStr "") (JStr "") (JStr "")
                     (JInt 4100) ]).
  - vm_compute. reflexivity.
  - right. left.
Defined.

Lemma nested_price_first_number_witness :
  price_of (JDict (<["amount" := JStr "4100"]> {[ "value" := JInt 4100 ]}))
  = Some (Some 4100).
Proof.
  etransitivity;
    [apply (nested_price_first_number
              (<["amount" := JStr "4100"]> {[ "value" := JInt 4100 ]})
              ["amount"; "raw"] "value" ["min"; "max"])|].
  - reflexivity.
  - intros k Hk. set_unfold in Hk. destruct Hk as [->|[->|[]]]; reflexivity.
  - reflexivity.
  - vm_compute. reflexivity.
Defined.

Lemma fetch_flights_presentable_witness :
  presentable (listing (JStr "IndiGo") (JStr "6E200") (JStr "") (JStr "")
                       (JStr "") (JInt 4300)).
Proof.
  apply (fetch_flights_presentable "k3y" true ex_http ex_mock_list
           "DEL" "BLR" "2025-08-25").
  replace (fetch_flights "k3y" true ex_http ex_mock_list "DEL" "BLR"
             "2025-08-25")
    with [ listing (JStr "IndiGo") (JStr "6E200") (JStr "") (JStr "")
                   (JStr "") (JInt 4300);
           listing (JStr "Akasa") (JStr "") (JStr "") (JStr "") (JStr "")
                   (JInt 4100) ]
    by (vm_compute; reflexivity).
  left.
Defined.

(** ** The order of the subscriptions, and passes that fail *)

Section CycleOrder.

Variable fromisoformat : string -> option datetime.
Variable ALERT_MODE : string.
Variable MIN_CHANGE_PCT : float.

Local Abbreviation body_ := (body fromisoformat ALERT_MODE MIN_CHANGE_PCT).
Local Abbreviation run_loop_ :=
  (run_loop fromisoformat ALERT_MODE MIN_CHANGE_PCT).
Local Abbreviation check_once_ :=
  (check_once fromisoformat ALERT_MODE MIN_CHANGE_PCT).

(** The alert logic under a move that is a candidate alert. *)
Lemma should_alert_candidate direction pct price last_notified last_dir :
  (MIN_CHANGE_PCT <=? pct)%float = true ->
  (direction = "drop" /\ ALERT_MODE ∈ ["drop"; "both"])
  \/ (direction = "rise" /\ ALERT_MODE ∈ ["rise"; "both"]) ->
  should_alert ALERT_MODE MIN_CHANGE_PCT direction pct price last_notified
    last_dir
  = bool_decide (VInt price <> last_notified)
    || bool_decide (last_dir <> VStr direction).
Proof.
  intros Hthr [[-> Hm]|[-> Hm]]; unfold should_alert;
    rewrite Hthr, (bool_decide_eq_true_2 _ Hm); reflexivity.
Qed.

(** X20: de-duplication cannot hold back the first move after an alert: on
    a record whose [last_notified_price] is its [last_price], as an alert
    leaves it, every candidate alert is sent. *)
Theorem alert_after_alert fetch sub st o last pct :
  observe fromisoformat fetch sub (store st) = Ok (Some o) ->
  o_last o = VInt last ->
  o_last_notified o = VInt last ->
  pct_move (price (o_found o)) last = Ok pct ->
  (MIN_CHANGE_PCT <=? pct)%float = true ->
  (price (o_found o) < last /\ ALERT_MODE ∈ ["drop"; "both"])
  \/ (last < price (o_found o) /\ ALERT_MODE ∈ ["rise"; "both"]) ->
  let new_price := price (o_found o) in
  let direction := direction_of new_price last in
  body_ fetch sub st
  = Ok (stored sub
          (tracking (VInt new_price) (VInt new_price) (VStr direction)
                    (VStr (depart (o_found o))))
          [Notify (Alert direction (o_origin o) (o_dest o) (o_date o)
                         (sub_flightNo sub) (sub_airline sub) new_price last
                         pct)] st).
Proof.
  intros Hobs Hlast Hnot Hpct Hthr Hdir new_price direction.
  rewrite (body_matched _ _ _ _ _ _ _ Hobs). unfold alert_logic.
  rewrite Hlast, Hpct, Hnot. cbn [mbind result_bind].
  fold new_price. fold direction.
  rewrite should_alert_candidate; [|exact Hthr|].
  - rewrite bool_decide_eq_true_2; [reflexivity|].
    intros [= H]. subst new_price. lia.
  - subst direction new_price. destruct Hdir as [[Hlt Hm]|[Hlt Hm]].
    + left. split; [apply direction_of_drop; exact Hlt | exact Hm].
    + right. split; [apply direction_of_rise; exact Hlt | exact Hm].
Qed.

(** X21: a pass that ends in an exception writes nothing: the alerts of
    the turns before the failing one have gone out, and the price store
    is as it was loaded. *)
Theorem failed_pass_writes_nothing fetch selected prices e :
  (check_once_ fetch selected prices).1 = Some e ->
  writes (check_once_ fetch selected prices).2 = []
  /\ written (check_once_ fetch selected prices).2 prices = prices.
Proof.
  intros He.
  assert (writes (check_once_ fetch selected prices).2 = []) as Hw.
  { unfold check_once in *. destruct selected as [|sub rest];
      [discriminate|].
    pose proof (run_loop_writes fromisoformat ALERT_MODE MIN_CHANGE_PCT fetch
                  (sub :: rest) (Loop prices false [])) as Hw.
    destruct (run_loop_ fetch (sub :: rest) (Loop prices false []))
      as [[e'|] st]; [exact Hw | discriminate]. }
  split; [exact Hw | apply written_silent; exact Hw].
Qed.

(** *** Subscriptions in another order *)

Lemma alike_refl st : alike st st.
Proof. unfold alike. auto. Qed.

Lemma alike_trans st1 st2 st3 : alike st1 st2 -> alike st2 st3 -> alike st1 st3.
Proof.
  intros (? & ? & ?) (? & ? & ?). unfold alike.
  split; [congruence|]. split; [congruence|]. etransitivity; eassumption.
Qed.

(** What the alert logic stores and sends does not depend on the state of
    the loop. *)
Lemma alert_logic_transport sub o st st' :
  alert_logic ALERT_MODE MIN_CHANGE_PCT sub o st = Ok st' ->
  exists rec sent,
    st' = stored sub rec sent st
    /\ forall st2,
         alert_logic ALERT_MODE MIN_CHANGE_PCT sub o st2
         = Ok (stored sub rec sent st2).
Proof.
  unfold alert_logic. destruct (o_last o) as [|last|t]; [| |discriminate].
  - intros [= <-]. eexists _, []. rewrite stored_nothing_sent.
    split; [reflexivity|]. intros st2. rewrite stored_nothing_sent.
    reflexivity.
  - destruct (pct_move (price (o_found o)) last) as [pct|e];
      cbn [mbind result_bind]; [|discriminate].
    destruct (should_alert _ _ _ _ _ _ _); intros [= <-].
    + eexists _, [_]. split; reflexivity.
    + eexists _, []. rewrite stored_nothing_sent. split; [reflexivity|].
      intros st2. rewrite stored_nothing_sent. reflexivity.
Qed.

(** A turn reads the store at the key of its subscription only, and what
    it does there does not depend on the rest of the state. *)
Lemma body_transport fetch sub st st' st2 :
  store st !! price_key_of sub = store st2 !! price_key_of sub ->
  body_ fetch sub st = Ok st' ->
  (st' = st /\ body_ fetch sub st2 = Ok st2)
  \/ exists rec sent,
       st' = stored sub rec sent st
       /\ body_ fetch sub st2 = Ok (stored sub rec sent st2).
Proof.
  intros Hkey. unfold body.
  rewrite <- (observe_local fromisoformat fetch sub _ _ Hkey).
  destruct (observe fromisoformat fetch sub (store st)) as [[o|]|e];
    cbn [mbind result_bind]; [| |discriminate].
  - intros H. right.
    destruct (alert_logic_transport _ _ _ _ H) as (rec & sent & -> & H2).
    eauto.
  - intros [= <-]. auto.
Qed.

Lemma body_alike fetch sub st st2 sa :
  alike st st2 ->
  body_ fetch sub st = Ok sa ->
  exists sa2, body_ fetch sub st2 = Ok sa2 /\ alike sa sa2.
Proof.
  intros (Hs & Hc & Ho) Hbody.
  destruct (body_transport fetch sub st sa st2 ltac:(rewrite Hs; reflexivity)
              Hbody) as [[-> H2]|(rec & sent & -> & H2)].
  - exists st2. unfold alike. auto.
  - eexists. split; [exact H2|]. unfold alike, stored. cbn.
    split; [rewrite Hs; reflexivity|]. split; [reflexivity|].
    apply Permutation_app; [exact Ho | reflexivity].
Qed.

Lemma run_loop_alike fetch selected :
  forall st st2 sa,
    alike st st2 ->
    run_loop_ fetch selected st = (None, sa) ->
    exists sb, run_loop_ fetch selected st2 = (None, sb) /\ alike sa sb.
Proof.
  induction selected as [|sub rest IH]; intros st st2 sa Hal H.
  - injection H as <-. exists st2. auto.
  - cbn [run_loop] in *.
    destruct (body_ fetch sub st) as [s1|e] eqn:Hb; [|discriminate].
    destruct (body_alike _ _ _ _ _ Hal Hb) as (s1' & -> & Hal').
    eapply IH; eassumption.
Qed.

(** Two turns on different tracking keys can be taken in either order. *)
Lemma body_swap fetch s1 s2 st sa sb :
  price_key_of s1 <> price_key_of s2 ->
  body_ fetch s1 st = Ok sa ->
  body_ fetch s2 sa = Ok sb ->
  exists sa' sb',
    body_ fetch s2 st = Ok sa' /\ body_ fetch s1 sa' = Ok sb'
    /\ alike sb sb'.
Proof.
  intros Hne H1 H2.
  assert (store sa !! price_key_of s2 = store st !! price_key_of s2) as Hk2.
  { eapply body_frame; [exact H1|]. congruence. }
  destruct (body_transport fetch s2 sa sb st Hk2 H2)
    as [[-> H2']|(rec2 & sent2 & -> & H2')].
  - (* the second turn changes nothing *)
    destruct (body_transport fetch s1 st sa st eq_refl H1)
      as [[-> _]|(rec1 & sent1 & -> & _)];
      eexists _, _; (split; [exact H2'|]); (split; [exact H1|]);
      apply alike_refl.
  - assert (store (stored s2 rec2 sent2 st) !! price_key_of s1
            = store st !! price_key_of s1) as Hk1.
    { cbn. apply lookup_insert_ne. congruence. }
    destruct (body_transport fetch s1 st sa (stored s2 rec2 sent2 st)
                ltac:(symmetry; exact Hk1) H1)
      as [[-> H1']|(rec1 & sent1 & -> & H1')];
      eexists _, _; (split; [exact H2'|]); (split; [exact H1'|]).
    + apply alike_refl.
    + unfold alike, stored. cbn. split; [|split; [reflexivity|]].
      * apply insert_insert_ne. congruence.
      * rewrite <- !app_assoc. apply Permutation_app; [reflexivity|].
        apply Permutation_app_comm.
Qed.

Lemma run_loop_permuted fetch selected selected' :
  selected ≡ₚ selected' ->
  NoDup (price_key_of <$> selected) ->
  forall st st2 sa,
    alike st st2 ->
    run_loop_ fetch selected st = (None, sa) ->
    exists sb, run_loop_ fetch selected' st2 = (None, sb) /\ alike sa sb.
Proof.
  induction 1 as [|x l l' Hperm IH|x y l|l l' l'' Hp1 IH1 Hp2 IH2];
    intros Hnd st st2 sa Hal Hrun.
  - injection Hrun as <-. exists st2. auto.
  - cbn [run_loop] in *.
    destruct (body_ fetch x st) as [s1|e] eqn:Hb; [|discriminate].
    destruct (body_alike _ _ _ _ _ Hal Hb) as (s1' & -> & Hal').
    apply NoDup_cons in Hnd as [_ Hnd]. eapply IH; eassumption.
  - cbn [run_loop] in Hrun.
    destruct (body_ fetch y st) as [s1|e] eqn:Hy; [|discriminate].
    destruct (body_ fetch x s1) as [s2|e] eqn:Hx; [|discriminate].
    assert (price_key_of y <> price_key_of x) as Hne.
    { cbn in Hnd. apply NoDup_cons in Hnd as [Hnot _].
      intros Heq. apply Hnot. rewrite Heq. left. }
    destruct (body_swap _ _ _ _ _ _ Hne Hy Hx)
      as (u1 & u2 & Hx' & Hy' & Hal1).
    destruct (body_alike _ _ _ _ _ Hal Hx') as (v1 & Hv1 & Hal2).
    destruct (body_alike _ _ _ _ _ Hal2 Hy') as (v2 & Hv2 & Hal3).
    cbn [run_loop]. rewrite Hv1, Hv2.
    eapply run_loop_alike; [|exact Hrun].
    eapply alike_trans; eassumption.
  - destruct (IH1 Hnd st st2 sa Hal Hrun) as (sb & Hrun2 & Hal2).
    assert (NoDup (price_key_of <$> l')) as Hnd'.
    { rewrite <- Hp1. exact Hnd. }
    destruct (IH2 Hnd' st2 st2 sb (alike_refl _) Hrun2) as (sc & Hrun3 & Hal3).
    exists sc. split; [exact Hrun3|]. eapply alike_trans; eassumption.
Qed.

(** X22: the order of the subscriptions does not matter: when no two of
    them share a tracking key, a pass that runs to its end on the list in
    one order runs to its end on it in any other order, writes the same
    store and sends the same alerts, possibly in another order. *)
Theorem subscription_order_irrelevant fetch selected selected' prices :
  NoDup (price_key_of <$> selected) ->
  selected ≡ₚ selected' ->
  (check_once_ fetch selected prices).1 = None ->
  (check_once_ fetch selected' prices).1 = None
  /\ writes (check_once_ fetch selected' prices).2
     = writes (check_once_ fetch selected prices).2
  /\ notifications (check_once_ fetch selected' prices).2
     ≡ₚ notifications (check_once_ fetch selected prices).2.
Proof.
  intros Hnd Hperm Hnone. unfold check_once in *.
  destruct selected as [|s1 r1].
  { apply Permutation_nil_l in Hperm as <-. cbn. auto. }
  destruct selected' as [|s2 r2];
    [apply Permutation_nil_r in Hperm; discriminate|].
  pose proof (run_loop_writes fromisoformat ALERT_MODE MIN_CHANGE_PCT fetch
                (s1 :: r1) (Loop prices false [])) as Hw1.
  pose proof (run_loop_writes fromisoformat ALERT_MODE MIN_CHANGE_PCT fetch
                (s2 :: r2) (Loop prices false [])) as Hw2.
  destruct (run_loop_ fetch (s1 :: r1) (Loop prices false []))
    as [[e|] sa] eqn:Hrun; [discriminate|].
  destruct (run_loop_permuted fetch _ _ Hperm Hnd _ _ _ (alike_refl _) Hrun)
    as (sb & Hrun2 & Hs & Hc & Ho).
  rewrite Hrun2 in Hw2 |- *. cbn [fst snd out] in *.
  split; [reflexivity|].
  change (writes []) with (@nil (gmap string (gmap string value))) in *.
  rewrite <- Hc.
  destruct (changed sa).
  - rewrite !writes_app, Hw1, Hw2, Hs. split; [reflexivity|].
    unfold notifications. rewrite !omap_app, Ho. reflexivity.
  - rewrite Hw1, Hw2. split; [reflexivity|].
    unfold notifications. rewrite Ho. reflexivity.
Qed.

End CycleOrder.

Lemma alert_after_alert_witness :
  body parse_minutes "both" 1 ex_fetch ex_sub
       (Loop (ex_store (VInt 5000) (VInt 5000) (VStr "drop")) false [])
  = Ok (stored ex_sub
          (tracking (VInt 4900) (VInt 4900) (VStr "drop")
                    (VStr "2025-08-25T10:00"))
          [Notify (Alert "drop" "DEL" "BLR" "2025-08-25" "6E200" "IndiGo"
                         4900 5000 2)]
          (Loop (ex_store (VInt 5000) (VInt 5000) (VStr "drop")) false [])).
Proof.
  apply (alert_after_alert parse_minutes "both" 1 ex_fetch ex_sub
           (Loop (ex_store (VInt 5000) (VInt 5000) (VStr "drop")) false [])
           (ex_obs (VInt 5000) (VInt 5000) (VStr "drop")
                   (VStr "2025-08-25T10:00"))
           5000 2).
  - vm_compute. reflexivity.
  - reflexivity.
  - reflexivity.
  - vm_compute. reflexivity.
  - vm_compute. reflexivity.
  - left. split; [cbn; lia | right; left].
Defined.

Lemma failed_pass_writes_nothing_witness :
  notifications (check_once parse_minutes "drop" 1 ex_fetch
                   [ex_sub; ex_sub_other] ex_half_broken).2
  = [Alert "drop" "DEL" "BLR" "2025-08-25" "6E200" "IndiGo" 4900 5000 2]
  /\ written (check_once parse_minutes "drop" 1 ex_fetch
                [ex_sub; ex_sub_other] ex_half_broken).2 ex_half_broken
     = ex_half_broken.
Proof.
  split; [vm_compute; reflexivity|].
  apply (failed_pass_writes_nothing parse_minutes "drop" 1 ex_fetch
           [ex_sub; ex_sub_other] ex_half_broken (KeyError "last_price")).
  vm_compute. reflexivity.
Defined.

Lemma subscription_order_irrelevant_witness :
  writes (check_once parse_minutes "drop" 1 ex_fetch [ex_sub_other; ex_sub]
            (ex_store (VInt 5000) VNone VNone)).2
  = writes (check_once parse_minutes "drop" 1 ex_fetch [ex_sub; ex_sub_other]
              (ex_store (VInt 5000) VNone VNone)).2.
Proof.
  apply (subscription_order_irrelevant parse_minutes "drop" 1 ex_fetch
           [ex_sub; ex_sub_other] [ex_sub_other; ex_sub]
           (ex_store (VInt 5000) VNone VNone)).
  - apply NoDup_cons. split; [|apply NoDup_singleton].
    intros H. apply list_elem_of_singleton in H. discriminate.
  - apply Permutation_swap.
  - vm_compute. reflexivity.
Defined.


(** ** Flight filters, from the web application to the monitor *)

Lemma capital_no_dash c : is_capital c = true -> bool_decide (c = "-"%char) = false.
Proof.
  destruct c as [[] [] [] [] [] [] [] []]; try discriminate; reflexivity.
Qed.

(** X23: the route keys that the web application accepts are keys that the
    monitor can split: a key that matches the pattern of
    [set_flight_filters] unpacks into an origin and a destination of three
    letters and a date of ten characters. *)
Theorem accepted_key_splits key :
  route_key_ok key = true ->
  exists origin dest date,
    split_key key = Some (origin, dest, date)
    /\ String.length origin = 3%nat /\ String.length dest = 3%nat
    /\ String.length date = 10%nat.
Proof.
  unfold route_key_ok. intros H.
  do 19 (destruct key as [|? key]; try discriminate).
  cbn [list_ascii_of_string] in H.
  apply andb_true_iff in H as [H _].
  apply andb_true_iff in H as [Hcap Hdash].
  cbn [forallb] in Hcap, Hdash.
  repeat (let Hx := fresh "Hc" in apply andb_true_iff in Hcap as [Hx Hcap];
          apply capital_no_dash in Hx).
  repeat (let Hx := fresh "Hd" in apply andb_true_iff in Hdash as [Hx Hdash];
          apply bool_decide_eq_true in Hx; subst).
  eexists _, _, _. unfold split_key. cbn [split_dash].
  rewrite Hc, Hc0, Hc1, (bool_decide_eq_true_2 _ (eq_refl "-"%char)).
  cbn [split_dash].
  rewrite Hc2, Hc3, Hc4, (bool_decide_eq_true_2 _ (eq_refl "-"%char)).
  cbn. split; [reflexivity|]. auto.
Qed.

Lemma capital_no_space c : is_capital c = true -> is_space c = false.
Proof.
  destruct c as [[] [] [] [] [] [] [] []]; try discriminate; reflexivity.
Qed.

Lemma digit_no_space c : is_digit c = true -> is_space c = false.
Proof.
  destruct c as [[] [] [] [] [] [] [] []]; try discriminate; reflexivity.
Qed.

Lemma capital_upper c : is_capital c = true -> upper_ascii c = c.
Proof.
  destruct c as [[] [] [] [] [] [] [] []]; try discriminate; reflexivity.
Qed.

Lemma airport_upper f : airport_ok f = true -> upper f = f.
Proof.
  unfold airport_ok. intros H.
  do 4 (destruct f as [|? f]; try discriminate).
  cbn [list_ascii_of_string forallb] in H.
  repeat (let Hx := fresh "Hc" in apply andb_true_iff in H as [Hx H];
          apply capital_upper in Hx).
  cbn [upper]. rewrite Hc, Hc0, Hc1. reflexivity.
Qed.

(** The key of a route that [add_route] has validated: the patterns of
    [set_flight_filters] and [delete_route] match it, the groups are the
    fields of the route, and there is nothing to strip. *)
Lemma route_key_valid f t d :
  airport_ok f = true -> airport_ok t = true -> date_ok d = true ->
  route_key_ok (route_key f t d) = true
  /\ route_key_groups (route_key f t d) = Some (f, t, d)
  /\ strip (route_key f t d) = route_key f t d.
Proof.
  unfold airport_ok, date_ok. intros Hf Ht Hd.
  do 4 (destruct f as [|? f]; try discriminate).
  do 4 (destruct t as [|? t]; try discriminate).
  do 11 (destruct d as [|? d]; try discriminate).
  cbn [list_ascii_of_string forallb] in Hf, Ht, Hd.
  apply andb_true_iff in Hd as [Hd Hs].
  repeat (let Hx := fresh "Hf" in apply andb_true_iff in Hf as [Hx Hf]).
  repeat (let Hx := fresh "Ht" in apply andb_true_iff in Ht as [Hx Ht]).
  repeat (let Hx := fresh "Hd" in apply andb_true_iff in Hd as [Hx Hd]).
  repeat (let Hx := fresh "Hs" in apply andb_true_iff in Hs as [Hx Hs];
          apply bool_decide_eq_true in Hx; subst).
  assert (Hok : route_key_ok
                  (route_key (String a (String a0 (String a1 "")))
                     (String a2 (String a3 (String a4 "")))
                     (String a5 (String a6 (String a7 (String a8
                        (String "-" (String a10 (String a11
                           (String "-" (String a13 (String a14 ""))))))))))) = true).
  { unfold route_key_ok, route_key.
    cbv [String.append]. cbn [list_ascii_of_string forallb].
    rewrite Hf0, Hf1, Hf2, Ht0, Ht1, Ht2, Hd0, Hd1, Hd2, Hd3, Hd4, Hd5, Hd6, Hd7.
    reflexivity. }
  split; [exact Hok|]. split.
  - unfold route_key_groups. rewrite Hok. reflexivity.
  - unfold strip, route_key. cbv [String.append]. cbn [lstrip].
    rewrite (capital_no_space _ Hf0). cbn [rstrip].
    rewrite (digit_no_space _ Hd7). reflexivity.
Qed.

Lemma route_from f t d : route f t d !! "from" = Some (JStr f).
Proof. apply lookup_insert_eq. Qed.

Lemma route_to f t d : route f t d !! "to" = Some (JStr t).
Proof.
  unfold route. rewrite lookup_insert_ne by discriminate.
  apply lookup_insert_eq.
Qed.

Lemma route_date f t d : route f t d !! "date" = Some (JStr d).
Proof.
  unfold route. rewrite !lookup_insert_ne by discriminate.
  apply lookup_insert_eq.
Qed.

Lemma is_route_added f t d :
  airport_ok f = true -> airport_ok t = true ->
  is_route f t d (JDict (route f t d)) = Some true.
Proof.
  intros Hf Ht. unfold is_route, jget.
  rewrite route_from, route_to, route_date.
  cbn [from_option id upper_of mbind option_bind is_str].
  rewrite (airport_upper f Hf), (airport_upper t Ht).
  rewrite !bool_decide_eq_true_2 by reflexivity. reflexivity.
Qed.

Lemma same_route_false f t d r :
  same_route f t d r = Some false -> is_route f t d r = Some false.
Proof.
  destruct r as [| | | | | |m]; try discriminate. cbn [same_route is_route].
  destruct (upper_of (jget m "from" (JStr ""))) as [a|]; [|discriminate].
  destruct (upper_of (jget m "to" (JStr ""))) as [b|]; [|discriminate].
  cbn [mbind option_bind].
  case_bool_decide; [|reflexivity]. case_bool_decide; [|reflexivity].
  cbn [andb]. trivial.
Qed.

Lemma other_routes_added f t d x routes :
  any_route f t d routes = Some false ->
  is_route f t d x = Some true ->
  other_routes f t d (routes ++ [x]) = Some routes.
Proof.
  intros Hany Hx. induction routes as [|r routes IH].
  - cbn [app other_routes]. rewrite Hx. reflexivity.
  - cbn [any_route] in Hany.
    destruct (same_route f t d r) as [[]|] eqn:Hr; try discriminate.
    cbn [mbind option_bind] in Hany.
    cbn [app other_routes]. rewrite (same_route_false _ _ _ _ Hr).
    cbn [mbind option_bind]. rewrite (IH Hany). reflexivity.
Qed.

(** What an accepted [add_route] has checked and saved. *)
Lemma add_route_added body file key saved :
  add_route body file = Some (Added key, saved) ->
  exists f t d routes,
    airport_ok f = true /\ airport_ok t = true /\ date_ok d = true
    /\ key = route_key f t d
    /\ jload file (JList []) = JList routes
    /\ any_route f t d routes = Some false
    /\ saved = Some (JList (routes ++ [JDict (route f t d)])).
Proof.
  unfold add_route. intros H.
  destruct body as [| | | | | |b]; try discriminate.
  destruct (text_of (jget b "from" (JStr ""))) as [f|]; [|discriminate].
  destruct (text_of (jget b "to" (JStr ""))) as [t|]; [|discriminate].
  destruct (text_of (jget b "date" (JStr ""))) as [d|]; [|discriminate].
  cbn [mbind option_bind] in H.
  destruct (airport_ok (strip (upper f))) eqn:Hf; [|discriminate].
  destruct (airport_ok (strip (upper t))) eqn:Ht; [|discriminate].
  destruct (date_ok (strip d)) eqn:Hd; [|discriminate].
  cbn [negb] in H.
  destruct (jload file (JList [])) as [| | | | |routes|] eqn:Hfile;
    try discriminate.
  destruct (any_route (strip (upper f)) (strip (upper t)) (strip d) routes)
    as [[]|] eqn:Hany; try discriminate.
  cbn [mbind option_bind] in H. injection H as <- <-.
  eexists _, _, _, routes. repeat split; eassumption.
Qed.

Section AppMore.

Variable CHAT_ID : string.
Variable key_order : gmap string json -> list string.

Local Abbreviation iterate_ := (iterate key_order).
Local Abbreviation set_flight_filters_ :=
  (set_flight_filters CHAT_ID key_order).

(** [load_selected_flights] on an entry of the subscriptions file that
    can be iterated. *)
Lemma load_iterated (subs : gmap string json) items :
  iterate_ (jget subs CHAT_ID (JList [])) = Some items ->
  load_selected_flights CHAT_ID (Some (JDict subs))
  = Some (omap selected_entry items).
Proof.
  unfold load_selected_flights, jload. cbn [from_option id].
  destruct (jget subs CHAT_ID (JList [])) as [| | | |s|l|d];
    try discriminate; intros [= <-]; [| reflexivity |]; f_equal.
  - induction (list_ascii_of_string s) as [|c l IH]; [reflexivity|].
    cbn. exact IH.
  - induction (key_order d) as [|k l IH]; [reflexivity|]. cbn. exact IH.
Qed.

Lemma selected_entry_key it e :
  selected_entry it = Some e ->
  forall key, filter_of key it = is_str (jget e "key" JNull) key.
Proof.
  intros H key. apply selected_entry_some in H as (d & -> & Hk & Hf & ->).
  cbn [filter_of]. rewrite Hf, andb_true_r. unfold jget at 2.
  rewrite selection_key. reflexivity.
Qed.

Lemma omap_selected_filter key items :
  omap selected_entry (List.filter (fun it => negb (filter_of key it)) items)
  = List.filter (fun e => negb (is_str (jget e "key" JNull) key))
      (omap selected_entry items).
Proof.
  induction items as [|it items IH]; [reflexivity|].
  cbn [List.filter omap list_omap].
  destruct (selected_entry it) as [e|] eqn:He.
  - rewrite (selected_entry_key _ _ He key). cbn [List.filter].
    destruct (negb (is_str (jget e "key" JNull) key));
      cbn [omap list_omap]; rewrite ?He, IH; reflexivity.
  - destruct (negb (filter_of key it)); cbn [omap list_omap];
      rewrite ?He, IH; reflexivity.
Qed.

Lemma clean_flight_some f fn name :
  clean_flight f = Some (Some (fn, name)) ->
  fn <> "" /\ lower name <> "vistara".
Proof.
  destruct f as [| | | | | |d]; try discriminate. cbn [clean_flight].
  destruct (stripped (jget d "flightNo" (JStr ""))) as [fn'|];
    [|discriminate]. cbn [mbind option_bind].
  case_bool_decide as Hfn; [discriminate|].
  destruct (stripped (jget d "airline" (JStr ""))) as [name'|];
    [|discriminate]. cbn [mbind option_bind].
  case_bool_decide as Hv; [discriminate|].
  intros [= <- <-]. auto.
Qed.

Lemma cleaned_flights (fs : list json) (cleaned : list (option (string * string))) :
  mapM clean_flight fs = Some cleaned ->
  forall f, f ∈ omap id cleaned -> f.1 <> "" /\ lower f.2 <> "vistara".
Proof.
  intros Hm [fn name] Hf. apply mapM_Some in Hm.
  apply list_elem_of_omap in Hf as (o & Hin & Ho). cbn in Ho. subst o.
  apply list_elem_of_lookup in Hin as [i Hi].
  destruct (Forall2_lookup_r _ _ _ _ _ Hm Hi) as (it & _ & Hit).
  eapply clean_flight_some. exact Hit.
Qed.

Lemma omap_selected_added key (clean : list (string * string)) :
  key <> "" ->
  (forall f, f ∈ clean -> f.1 <> "") ->
  omap selected_entry
    ((fun f => JDict (selection (JStr key) (JStr f.1) (JStr f.2))) <$> clean)
  = (fun f => selection (JStr key) (JStr f.1) (JStr f.2)) <$> clean.
Proof.
  intros Hkey. induction clean as [|f clean IH]; intros Hfn; [reflexivity|].
  cbn [fmap list_fmap omap list_omap].
  rewrite selected_entry_usable.
  - f_equal. apply IH. intros g Hg. apply Hfn. right. exact Hg.
  - eexists _, _, _. split; [reflexivity|]. cbn.
    rewrite !bool_decide_eq_false_2; [auto | apply Hfn; left | exact Hkey].
Qed.

(** The entries that the loop of [set_flight_filters] keeps. *)
Lemma clean_flight_kept f fn name :
  clean_flight f = Some (Some (fn, name))
  <-> exists d,
        f = JDict d
        /\ stripped (jget d "flightNo" (JStr "")) = Some fn /\ fn <> ""
        /\ stripped (jget d "airline" (JStr "")) = Some name
        /\ lower name <> "vistara".
Proof.
  split.
  - destruct f as [| | | | | |d]; try discriminate. cbn [clean_flight].
    destruct (stripped (jget d "flightNo" (JStr ""))) as [fn'|] eqn:Hf;
      [|discriminate]. cbn [mbind option_bind].
    case_bool_decide as Hfn; [discriminate|].
    destruct (stripped (jget d "airline" (JStr ""))) as [name'|] eqn:Ha;
      [|discriminate]. cbn [mbind option_bind].
    case_bool_decide as Hv; [discriminate|].
    intros [= <- <-]. exists d. auto 10.
  - intros (d & -> & Hfn & Hne & Hname & Hv). cbn [clean_flight].
    rewrite Hfn. cbn [mbind option_bind].
    rewrite (bool_decide_eq_false_2 _ Hne), Hname. cbn [mbind option_bind].
    rewrite (bool_decide_eq_false_2 _ Hv). reflexivity.
Qed.

Lemma cleaned_elem (fs : list json) (cleaned : list (option (string * string)))
    (c : string * string) :
  mapM clean_flight fs = Some cleaned ->
  c ∈ omap id cleaned <-> exists f, f ∈ fs /\ clean_flight f = Some (Some c).
Proof.
  intros Hm. apply mapM_Some in Hm. rewrite list_elem_of_omap. split.
  - intros (o & Hin & Ho). cbn in Ho. subst o.
    apply list_elem_of_lookup in Hin as [i Hi].
    destruct (Forall2_lookup_r _ _ _ _ _ Hm Hi) as (f & Hf & Hc).
    exists f. split; [eapply list_elem_of_lookup_2; exact Hf | exact Hc].
  - intros (f & Hin & Hc). apply list_elem_of_lookup in Hin as [i Hi].
    destruct (Forall2_lookup_l _ _ _ _ _ Hm Hi) as (o & Ho & Hc').
    rewrite Hc in Hc'. injection Hc' as <-.
    exists (Some c). split; [eapply list_elem_of_lookup_2; exact Ho|].
    reflexivity.
Qed.

(** X24: the flight filters saved through the web application are the
    flights the monitor tracks (for the same recipient).  After
    [set_flight_filters] has accepted a request, the key is the [key] of
    the request without the blanks around it, and matches the pattern of
    route keys; the flights kept are, in the order of the request, the
    objects of its [flights] with a flight number that is not empty and an
    airline that is not Vistara, each as its flight number and airline
    without the blanks around them; the count answered is their number;
    and [load_selected_flights] returns, from the document saved, the
    flight subscriptions it returned before for the other route keys,
    followed by one for each flight kept, under that key. *)
Theorem filters_reach_monitor body file n doc :
  set_flight_filters_ body file = Some (Accepted n, Some doc) ->
  exists b key fs cleaned old,
    body = JDict b
    /\ stripped (jget b "key" (JStr "")) = Some key
    /\ route_key_ok key = true
    /\ iterate_ (jget b "flights" (JList [])) = Some fs
    /\ mapM clean_flight fs = Some cleaned
    /\ (forall fn name,
          (fn, name) ∈ omap id cleaned
          <-> exists d,
                JDict d ∈ fs
                /\ stripped (jget d "flightNo" (JStr "")) = Some fn
                /\ fn <> ""
                /\ stripped (jget d "airline" (JStr "")) = Some name
                /\ lower name <> "vistara")
    /\ n = length (omap id cleaned)
    /\ load_selected_flights CHAT_ID file = Some old
    /\ load_selected_flights CHAT_ID (Some doc)
       = Some (List.filter
                 (fun e => negb (is_str (jget e "key" JNull) key)) old
               ++ ((fun f => selection (JStr key) (JStr f.1) (JStr f.2))
                     <$> omap id cleaned))%list.
Proof.
  unfold set_flight_filters. intros H.
  destruct body as [| | | | | |b]; try discriminate.
  destruct (stripped (jget b "key" (JStr ""))) as [key|] eqn:Hstrip;
    [|discriminate].
  cbn [mbind option_bind] in H.
  destruct (route_key_ok key) eqn:Hkey; [|discriminate]. cbn [negb] in H.
  destruct (iterate_ (jget b "flights" (JList []))) as [fs|] eqn:Hfs;
    [|discriminate].
  cbn [mbind option_bind] in H.
  destruct (mapM clean_flight fs) as [cleaned|] eqn:Hclean; [|discriminate].
  cbn [mbind option_bind] in H.
  destruct (jload file (JDict ∅)) as [| | | | | |subs] eqn:Hfile;
    try discriminate.
  destruct (iterate_ (jget subs CHAT_ID (JList []))) as [items|] eqn:Hitems;
    [|discriminate].
  cbn [mbind option_bind] in H. injection H as <- <-.
  pose proof (cleaned_flights _ _ Hclean) as Hprops.
  exists b, key, fs, cleaned, (omap selected_entry items).
  repeat (split; [first [reflexivity | assumption]|]).
  split; [|split; [reflexivity|split]].
  - intros fn name. rewrite (cleaned_elem _ _ _ Hclean). split.
    + intros (f & Hin & Hc).
      apply clean_flight_kept in Hc as (d & -> & Hc). eauto.
    + intros (d & Hin & Hc). exists (JDict d). split; [exact Hin|].
      apply clean_flight_kept. eauto.
  - rewrite <- (load_iterated subs items Hitems).
    unfold load_selected_flights. rewrite Hfile. reflexivity.
  - unfold load_selected_flights, jload, jget. cbn [from_option id].
    rewrite lookup_insert_eq. cbn [from_option id]. f_equal.
    rewrite omap_app, omap_selected_filter, omap_selected_added;
      [reflexivity | | intros f Hf; apply Hprops; exact Hf].
    intros ->. discriminate.
Qed.

Lemma jget_selection_key k f a : jget (selection k f a) "key" JNull = k.
Proof. unfold jget. rewrite selection_key. reflexivity. Qed.

Lemma omap_selected_other key items :
  omap selected_entry (List.filter (other_item key) items)
  = List.filter (fun e => negb (is_str (jget e "key" JNull) key))
      (omap selected_entry items).
Proof.
  induction items as [|it items IH]; [reflexivity|].
  cbn [List.filter omap list_omap].
  destruct (selected_entry it) as [e|] eqn:He.
  - apply selected_entry_some in He as Hd.
    destruct Hd as (d & -> & Hk & Hf & ->). cbn [other_item List.filter].
    rewrite jget_selection_key.
    destruct (negb (is_str (jget d "key" JNull) key));
      cbn [omap list_omap]; rewrite ?He, IH; reflexivity.
  - destruct (other_item key it); cbn [omap list_omap];
      rewrite ?He, IH; reflexivity.
Qed.

(** X25: a route deleted through the web application is a route the
    monitor no longer tracks: after [delete_route] has saved the
    subscriptions, [load_selected_flights] returns the flight
    subscriptions it returned before whose key is not the key deleted, in
    their order, so none under that key. *)
Theorem deleted_route_untracked key routes_file subs_file routes' subs' :
  delete_route CHAT_ID key_order key routes_file subs_file
  = Deleted routes' subs' ->
  exists old new,
    load_selected_flights CHAT_ID subs_file = Some old
    /\ load_selected_flights CHAT_ID (Some subs') = Some new
    /\ new = List.filter
               (fun e => negb (is_str (jget e "key" JNull) (strip key))) old
    /\ forall e, e ∈ new -> e !! "key" <> Some (JStr (strip key)).
Proof.
  unfold delete_route. intros H.
  destruct (route_key_groups (strip key)) as [[[f t] d]|]; [|discriminate].
  destruct (iterate_ (jload routes_file (JList [])) ≫= other_routes f t d)
    as [new_routes|]; [|discriminate].
  destruct (jload subs_file (JDict ∅)) as [| | | | | |subs] eqn:Hfile;
    try discriminate.
  destruct (iterate_ (jget subs CHAT_ID (JList []))) as [items|] eqn:Hitems;
    [|discriminate].
  injection H as <- <-.
  eexists (omap selected_entry items), _.
  split; [|split; [|split; [reflexivity|]]].
  - rewrite <- (load_iterated subs items Hitems).
    unfold load_selected_flights. rewrite Hfile. reflexivity.
  - unfold load_selected_flights, jload, jget. cbn [from_option id].
    rewrite lookup_insert_eq. cbn [from_option id]. f_equal.
    apply omap_selected_other.
  - intros e He Hkey. apply list_elem_of_In, List.filter_In in He as [_ He].
    unfold jget in He. rewrite Hkey in He. cbn in He.
    rewrite bool_decide_eq_true_2 in He by reflexivity. discriminate.
Qed.

Lemma filter_of_added key (clean : list (string * string)) :
  (forall f, f ∈ clean -> f.1 <> "") ->
  List.filter (fun it => negb (filter_of key it))
    ((fun f => JDict (selection (JStr key) (JStr f.1) (JStr f.2))) <$> clean)
  = [].
Proof.
  induction clean as [|f clean IH]; intros Hfn; [reflexivity|].
  cbn [fmap list_fmap List.filter filter_of]. unfold jget.
  rewrite selection_key, selection_flightNo. cbn [from_option id is_str json_truthy].
  rewrite bool_decide_eq_true_2 by reflexivity.
  rewrite bool_decide_eq_false_2 by (apply Hfn; left).
  cbn. apply IH. intros g Hg. apply Hfn. right. exact Hg.
Qed.

Lemma filter_twice {A} (p : A -> bool) l :
  List.filter p (List.filter p l) = List.filter p l.
Proof.
  induction l as [|x l IH]; [reflexivity|]. cbn [List.filter].
  destruct (p x) eqn:Hp; [|exact IH]. cbn [List.filter]. rewrite Hp, IH.
  reflexivity.
Qed.

(** X26: flight filters are saved once: when [set_flight_filters] has
    accepted a request and saved the subscriptions, the same request made
    again is accepted with the same count and saves the same document. *)
Theorem filters_saved_once body file n doc :
  set_flight_filters_ body file = Some (Accepted n, Some doc) ->
  set_flight_filters_ body (Some doc) = Some (Accepted n, Some doc).
Proof.
  unfold set_flight_filters. intros H.
  destruct body as [| | | | | |b]; try discriminate.
  destruct (stripped (jget b "key" (JStr ""))) as [key|]; [|discriminate].
  cbn [mbind option_bind] in H |- *.
  destruct (route_key_ok key) eqn:Hkey; [|discriminate].
  cbn [negb] in H |- *.
  destruct (iterate_ (jget b "flights" (JList []))) as [fs|]; [|discriminate].
  cbn [mbind option_bind] in H |- *.
  destruct (mapM clean_flight fs) as [cleaned|] eqn:Hclean; [|discriminate].
  cbn [mbind option_bind] in H |- *.
  destruct (jload file (JDict ∅)) as [| | | | | |subs]; try discriminate.
  destruct (iterate_ (jget subs CHAT_ID (JList []))) as [items|];
    [|discriminate].
  cbn [mbind option_bind] in H. injection H as <- <-.
  pose proof (cleaned_flights _ _ Hclean) as Hprops.
  unfold jload, jget. cbn [from_option id].
  rewrite lookup_insert_eq. cbn [from_option id iterate mbind option_bind].
  rewrite List.filter_app, filter_twice, filter_of_added, app_nil_r,
    insert_insert_eq; [reflexivity|].
  intros f Hf. apply Hprops. exact Hf.
Qed.

(** X28: a route that was added is deleted without a trace in the routes
    file: when [add_route] has saved a new route, [delete_route], called
    with the key that [add_route] answered, saves the routes that were
    there before the route was added. *)
Theorem added_route_deleted body file key doc subs_file routes' subs' :
  add_route body file = Some (Added key, Some doc) ->
  delete_route CHAT_ID key_order key (Some doc) subs_file
  = Deleted routes' subs' ->
  routes' = jload file (JList []).
Proof.
  intros Hadd Hdel.
  apply add_route_added in Hadd
    as (f & t & d & routes & Hf & Ht & Hd & -> & Hfile & Hany & [= ->]).
  destruct (route_key_valid f t d Hf Ht Hd) as (_ & Hgroups & Hstrip).
  unfold delete_route in Hdel. rewrite Hstrip, Hgroups in Hdel.
  change (jload (Some ?x) ?y) with x in Hdel.
  cbn [iterate mbind option_bind] in Hdel.
  rewrite (other_routes_added f t d _ routes Hany (is_route_added f t d Hf Ht))
    in Hdel.
  rewrite Hfile.
  destruct (jload subs_file (JDict ∅)) as [| | | | | |subs];
    try discriminate.
  destruct (iterate_ (jget subs CHAT_ID (JList []))); [|discriminate].
  injection Hdel as <- _. reflexivity.
Qed.

End AppMore.

(** X27: the key that [add_route] answers, for a route it has added or
    found, is a key that [set_flight_filters] and [delete_route] accept
    and that the monitor can split: it matches their pattern, and its
    groups are the fields of the route. *)
Theorem added_key_accepted body file key saved :
  add_route body file = Some (Added key, saved)
  \/ add_route body file = Some (AddExists key, saved) ->
  exists f t d,
    key = route_key f t d
    /\ route_key_ok key = true
    /\ route_key_groups key = Some (f, t, d)
    /\ airport_ok f = true /\ airport_ok t = true /\ date_ok d = true.
Proof.
  intros H.
  assert (exists f t d,
            key = route_key f t d /\ airport_ok f = true
            /\ airport_ok t = true /\ date_ok d = true)
    as (f & t & d & -> & Hf & Ht & Hd).
  { destruct H as [H|H].
    - apply add_route_added in H as (f & t & d & _ & Hf & Ht & Hd & -> & _).
      eauto 8.
    - unfold add_route in H.
      destruct body as [| | | | | |b]; try discriminate.
      destruct (text_of (jget b "from" (JStr ""))) as [f|]; [|discriminate].
      destruct (text_of (jget b "to" (JStr ""))) as [t|]; [|discriminate].
      destruct (text_of (jget b "date" (JStr ""))) as [d|]; [|discriminate].
      cbn [mbind option_bind] in H.
      destruct (airport_ok (strip (upper f))) eqn:Hf; [|discriminate].
      destruct (airport_ok (strip (upper t))) eqn:Ht; [|discriminate].
      destruct (date_ok (strip d)) eqn:Hd; [|discriminate].
      cbn [negb] in H.
      destruct (jload file (JList [])) as [| | | | |routes|];
        try discriminate.
      destruct (any_route _ _ _ routes) as [[]|]; try discriminate.
      cbn [mbind option_bind] in H. injection H as <- <-. eauto 8. }
  destruct (route_key_valid f t d Hf Ht Hd) as (Hok & Hgroups & _).
  exists f, t, d. auto 8.
Qed.

Lemma accepted_key_splits_witness :
  exists origin dest date,
    split_key "DEL-BLR-2025-08-25" = Some (origin, dest, date)
    /\ String.length origin = 3%nat /\ String.length dest = 3%nat
    /\ String.length date = 10%nat.
Proof.
  apply (accepted_key_splits "DEL-BLR-2025-08-25"). vm_compute. reflexivity.
Defined.

Lemma filters_reach_monitor_witness :
  exists b key fs cleaned old,
    ex_request = JDict b
    /\ stripped (jget b "key" (JStr "")) = Some key
    /\ route_key_ok key = true
    /\ iterate ex_key_order (jget b "flights" (JList [])) = Some fs
    /\ mapM clean_flight fs = Some cleaned
    /\ (forall fn name,
          (fn, name) ∈ omap id cleaned
          <-> exists d,
                JDict d ∈ fs
                /\ stripped (jget d "flightNo" (JStr "")) = Some fn
                /\ fn <> ""
                /\ stripped (jget d "airline" (JStr "")) = Some name
                /\ lower name <> "vistara")
    /\ 1%nat = length (omap id cleaned)
    /\ load_selected_flights "42" (Some (JDict ex_subscriptions)) = Some old
    /\ load_selected_flights "42" (Some ex_filtered)
       = Some (List.filter
                 (fun e => negb (is_str (jget e "key" JNull) key)) old
               ++ ((fun f => selection (JStr key) (JStr f.1) (JStr f.2))
                     <$> omap id cleaned))%list.
Proof.
  apply (filters_reach_monitor "42" ex_key_order ex_request
           (Some (JDict ex_subscriptions)) 1 ex_filtered).
  vm_compute. reflexivity.
Defined.

Lemma deleted_route_untracked_witness :
  exists old new,
    load_selected_flights "42" (Some (JDict ex_subscriptions)) = Some old
    /\ load_selected_flights "42" (Some ex_subscriptions_left) = Some new
    /\ new = List.filter
               (fun e =>
                  negb (is_str (jget e "key" JNull)
                               (strip " DEL-BLR-2025-08-25")))
               old
    /\ forall e,
         e ∈ new -> e !! "key" <> Some (JStr (strip " DEL-BLR-2025-08-25")).
Proof.
  apply (deleted_route_untracked "42" ex_key_order " DEL-BLR-2025-08-25"
           (Some ex_routes) (Some (JDict ex_subscriptions))
           ex_routes_left ex_subscriptions_left).
  vm_compute. reflexivity.
Defined.

Lemma filters_saved_once_witness :
  set_flight_filters "42" ex_key_order ex_request (Some ex_filtered)
  = Some (Accepted 1, Some ex_filtered).
Proof.
  apply (filters_saved_once "42" ex_key_order ex_request
           (Some (JDict ex_subscriptions)) 1 ex_filtered).
  vm_compute. reflexivity.
Defined.

Lemma added_key_accepted_witness :
  exists f t d,
    "DEL-BLR-2025-08-25" = route_key f t d
    /\ route_key_ok "DEL-BLR-2025-08-25" = true
    /\ route_key_groups "DEL-BLR-2025-08-25" = Some (f, t, d)
    /\ airport_ok f = true /\ airport_ok t = true /\ date_ok d = true.
Proof.
  apply (added_key_accepted ex_add_request (Some ex_routes_left)
           "DEL-BLR-2025-08-25" (Some ex_routes_added)).
  left. vm_compute. reflexivity.
Defined.

Lemma added_route_deleted_witness :
  ex_routes_left = jload (Some ex_routes_left) (JList []).
Proof.
  apply (added_route_deleted "42" ex_key_order ex_add_request
           (Some ex_routes_left) "DEL-BLR-2025-08-25" ex_routes_added
           (Some (JDict ex_subscriptions)) ex_routes_left
           ex_subscriptions_left).
  - vm_compute. reflexivity.
  - vm_compute. reflexivity.
Defined.
